(** * Voice messaging skill: provider registry, adapters and orchestrator

    A shallow embedding of the Python sources

      - [src/providers.py]       (the two provider interfaces, [ProviderFactory])
      - [src/tts_providers.py]   (Kokoro, Qwen3, OpenAI and ElevenLabs adapters)
      - [src/stt_providers.py]   (Whisper, faster-whisper, OpenAI, Google adapters)
      - [src/audio_processor.py] ([AudioProcessor])
      - [src/voice_handler.py]   ([VoiceHandler])

    Python objects are attribute dictionaries, methods are state-passing
    functions over the receiver and an explicit outside world, exceptions
    are values of an error monad.  Everything outside the repository (the
    HTTP servers, the OpenAI client, the model runtimes, the file system
    permissions, ffmpeg) is an oracle of an [environment] record over which
    every statement quantifies. *)

From Stdlib Require Import ZArith String Ascii List Bool Lia QArith.
From Stdlib Require Import Strings.Byte.
From stdpp Require Import base option gmap strings list fin_maps pretty.

Set Warnings "-register-all".

Local Open Scope string_scope.
Local Open Scope Z_scope.

(** ** Python values *)

(** The values that flow through the code: configuration scalars, the
    decoded JSON bodies of backend replies, and opaque handles on library
    objects ([requests.Session()], a loaded model, an API client), which
    are kept as the library class name and the constructor arguments. *)
Inductive value : Type :=
  | VNone
  | VBool (b : bool)
  | VInt (z : Z)
  | VFloat (q : Q)
  | VStr (s : string)
  | VList (l : list value)
  | VDict (d : list (string * value))
  | VObj (cls : string) (args : list (string * value)).

(** [bool(v)]: Python truthiness, as used by [if device:] and [x or y]. *)
Definition truthy (v : value) : bool :=
  match v with
  | VNone => false
  | VBool b => b
  | VInt z => negb (z =? 0)
  | VFloat q => negb (Qeq_bool q 0)
  | VStr s => negb (String.eqb s "")
  | VList l => match l with [] => false | _ => true end
  | VDict d => match d with [] => false | _ => true end
  | VObj _ _ => true
  end.

(** [v is None] *)
Definition is_None (v : value) : bool :=
  match v with VNone => true | _ => false end.

(** [str(v)] as an f-string interpolates it.  Scalars print as Python
    prints them; containers and handles, which the code never
    interpolates on purpose, print as their type name. *)
Definition py_str (v : value) : string :=
  match v with
  | VNone => "None"
  | VBool true => "True"
  | VBool false => "False"
  | VInt z => pretty z
  | VFloat _ => "<float>"
  | VStr s => s
  | VList _ => "<list>"
  | VDict _ => "<dict>"
  | VObj cls _ => "<" ++ cls ++ " object>"
  end.

(** ** Exceptions *)

(** The classes below [Exception] that the code raises, catches or
    receives from its libraries.  [except Exception] catches every one of
    them; [KeyboardInterrupt] and [SystemExit] derive from
    [BaseException] only, no [except Exception] catches them, and they
    are kept apart in the type [exit] below. *)
Inductive exc_type : Type :=
  | ValueError
  | TypeError
  | ImportError
  | NotImplementedError
  | RuntimeError
  | AttributeError
  | KeyError
  | NameError
  | FileNotFoundError
  | FileExistsError
  | PermissionError
  | OSError
  | CalledProcessError
  | HTTPError
  | ConnectionError
  | JSONDecodeError
  | UnicodeDecodeError
  | LibraryError (name : string).

Global Instance exc_type_eq_dec : EqDecision exc_type.
Proof. solve_decision. Defined.

(** An exception instance: its class, [str(e)], and for a
    [CalledProcessError] the captured [e.stderr], the bytes as the
    process wrote them. *)
Record exn : Type := MkExc {
  exc_class : exc_type;
  exc_str : string;
  exc_stderr : string
}.

(** [cls(msg)] *)
Definition Exc (cls : exc_type) (msg : string) : exn := MkExc cls msg "".

Global Instance exn_eq_dec : EqDecision exn.
Proof. solve_decision. Defined.

Inductive result (A : Type) : Type :=
  | Ok (a : A)
  | Raise (e : exn).
Arguments Ok {A} a.
Arguments Raise {A} e.

Definition is_Ok {A} (r : result A) : bool :=
  match r with Ok _ => true | Raise _ => false end.

(** ** The state-and-exception monad

    [M S A] is a Python statement sequence run against a mutable state
    [S]: it returns normally with a value or raises, and in both cases
    the mutations made so far stay. *)
Definition M (S A : Type) : Type := S -> result A * S.

Definition ret {S A} (a : A) : M S A := fun s => (Ok a, s).

Definition raise {S A} (e : exn) : M S A := fun s => (Raise e, s).

Definition bind {S A B} (m : M S A) (k : A -> M S B) : M S B :=
  fun s => match m s with
           | (Ok a, s') => k a s'
           | (Raise e, s') => (Raise e, s')
           end.

(** [try: body / except Exception as e: handler e] *)
Definition try_except {S A} (body : M S A) (handler : exn -> M S A) : M S A :=
  fun s => match body s with
           | (Ok a, s') => (Ok a, s')
           | (Raise e, s') => handler e s'
           end.

(** [try: body / except (C1, C2, ...): handler e]: only the listed
    classes are caught, any other exception goes on. *)
Definition try_except_of {S A} (classes : list exc_type)
    (body : M S A) (handler : exn -> M S A) : M S A :=
  fun s => match body s with
           | (Ok a, s') => (Ok a, s')
           | (Raise e, s') =>
               if bool_decide (exc_class e ∈ classes) then handler e s'
               else (Raise e, s')
           end.

Definition modify {S} (f : S -> S) : M S unit := fun s => (Ok tt, f s).

(** Lift a computation that returns a result without touching the state. *)
Definition of_result {S A} (r : result A) : M S A := fun s => (r, s).

Declare Scope py_scope.
Delimit Scope py_scope with py.
Notation "x <- m ;; k" := (bind m (fun x => k))
  (at level 100, m at next level, right associativity) : py_scope.
Notation "m ;;; k" := (bind m (fun _ => k))
  (at level 100, right associativity) : py_scope.
Local Open Scope py_scope.

(** ** The outside world *)

(** A call made to a backend, as it leaves the process. *)
Inductive request : Type :=
  | HttpPost (url : string) (headers : list (string * value))
             (json : list (string * value)) (stream : bool)
  | HttpGet (url : string) (headers : list (string * value))
  | OpenAISpeech (client : value) (kwargs : list (string * value))
  | OpenAITranscription (client : value) (model : value) (file : list byte)
  | ModelTranscribe (model : value) (audio_path : string).

(** [requests.Response], as far as the adapters look at it; [json_body]
    is [None] when the body does not decode. *)
Record response : Type := Response {
  status_code : Z;
  content : list byte;
  json_body : option value
}.

(** Everything the code can change or be observed to do. *)
Record world : Type := World {
  files : gmap string (list byte);      (* the file system: path to content *)
  environ : gmap string string;         (* [os.environ] *)
  sent : list request;                  (* backend calls so far, oldest first *)
  processes : list (list string);       (* subprocess command lines so far *)
  log : list (string * string)          (* logger records: level, message *)
}.

Definition set_files (f : gmap string (list byte)) (w : world) : world :=
  World f (environ w) (sent w) (processes w) (log w).
Definition set_environ (k v : string) (w : world) : world :=
  World (files w) (<[k := v]> (environ w)) (sent w) (processes w) (log w).
Definition add_sent (r : request) (w : world) : world :=
  World (files w) (environ w) (sent w ++ [r]) (processes w) (log w).
Definition add_process (c : list string) (w : world) : world :=
  World (files w) (environ w) (sent w) (processes w ++ [c]) (log w).
Definition add_log (level msg : string) (w : world) : world :=
  World (files w) (environ w) (sent w) (processes w) (log w ++ [(level, msg)]).

(** How a subprocess ends: the program cannot be started, or it exits
    with a status, having left the file system as [files_after]. *)
Inductive process_outcome : Type :=
  | CannotStart (e : exn)
  | Exited (returncode : Z) (stderr : string)
           (files_after : gmap string (list byte)).

(** What the code does not control.  Each oracle sees the world at the
    time of the call, so a backend may answer differently each time. *)
Class environment : Type := Environment {
  importable : string -> bool;
  construct : world -> string -> list (string * value) -> option exn;
  http_send : world -> request -> result response;
  speech_create : world -> request -> result (list byte);
  library_call : world -> request -> result value;
  open_error : world -> string -> string -> option exn;
  write_error : world -> string -> list byte -> option (exn * nat);
  unlink_error : world -> string -> option exn;
  run_process : world -> list string -> process_outcome;
  gettempdir : string;
  temp_candidate : nat -> string
}.

(** *** POSIX path helpers ([os.path]) *)

Fixpoint basename_aux (s acc : string) : string :=
  match s with
  | EmptyString => acc
  | String c s' =>
      if Ascii.eqb c "/"%char then basename_aux s' EmptyString
      else basename_aux s' (acc ++ String c EmptyString)
  end.

(** [os.path.basename(p)]: what follows the last slash. *)
Definition basename (p : string) : string := basename_aux p EmptyString.

Fixpoint ends_with_slash (s : string) : bool :=
  match s with
  | EmptyString => false
  | String c EmptyString => Ascii.eqb c "/"%char
  | String _ s' => ends_with_slash s'
  end.

(** [os.path.join(a, b)] *)
Definition path_join (a b : string) : string :=
  match b with
  | String c _ =>
      if Ascii.eqb c "/"%char then b
      else if String.eqb a "" || ends_with_slash a then a ++ b
      else a ++ "/" ++ b
  | EmptyString =>
      if String.eqb a "" || ends_with_slash a then a else a ++ "/"
  end.

Section WithEnvironment.

Context {env : environment}.

(** *** Primitives on the world *)

(** [logger.<level>(msg)] *)
Definition logger (level msg : string) : M world unit :=
  modify (add_log level msg).

(** [import name]: [ImportError] when the module is not installed. *)
Definition import_module (name : string) : M world unit :=
  if importable name then ret tt
  else raise (Exc ImportError ("No module named '" ++ name ++ "'")).

(** Calling a library class with keyword arguments [args]: the handle,
    or the error of the library. *)
Definition new_object (cls : string) (args : list (string * value))
  : M world value :=
  fun w => match construct w cls args with
           | Some e => (Raise e, w)
           | None => (Ok (VObj cls args), w)
           end.

(** [session.post(...)] / [session.get(...)]: the request is sent, then
    the reply arrives or the transport raises. *)
Definition http (r : request) : M world response :=
  fun w => (http_send w r, add_sent r w).

(** [client.audio.speech.create(...)] of the OpenAI client: the audio
    bytes, or the error of the client. *)
Definition speech (r : request) : M world (list byte) :=
  fun w => (speech_create w r, add_sent r w).

(** Any other call into a client library or model runtime. *)
Definition library (r : request) : M world value :=
  fun w => (library_call w r, add_sent r w).

(** [response.raise_for_status()] of [requests]: [HTTPError] for a
    client error (4xx) or a server error (5xx) status, nothing else. *)
Definition raise_for_status (r : response) : result unit :=
  if (400 <=? status_code r) && (status_code r <? 500) then
    Raise (Exc HTTPError (pretty (status_code r) ++ " Client Error"))
  else if (500 <=? status_code r) && (status_code r <? 600) then
    Raise (Exc HTTPError (pretty (status_code r) ++ " Server Error"))
  else Ok tt.

(** [response.json()] *)
Definition response_json (r : response) : result value :=
  match json_body r with
  | Some v => Ok v
  | None => Raise (Exc JSONDecodeError "Expecting value")
  end.

(** [with open(path, "wb") as f: f.write(data)]: [open] fails and leaves
    the file system alone, or it creates the file, or empties the one
    that is there; then [write] and [close] put [data] into it, or fail
    ([write_error]: a full disk, say) with the first [n] bytes in the
    file. *)
Definition write_file (path : string) (data : list byte) : M world unit :=
  fun w => match open_error w path "wb" with
           | Some e => (Raise e, w)
           | None =>
               match write_error w path data with
               | Some (e, n) =>
                   (Raise e, set_files (<[path := take n data]> (files w)) w)
               | None => (Ok tt, set_files (<[path := data]> (files w)) w)
               end
           end.

(** [with open(path, "rb") as f: f.read()] *)
Definition read_file (path : string) : M world (list byte) :=
  fun w => match files w !! path with
           | None => (Raise (Exc FileNotFoundError
                        ("[Errno 2] No such file or directory: '" ++ path ++ "'")), w)
           | Some data =>
               match open_error w path "rb" with
               | Some e => (Raise e, w)
               | None => (Ok data, w)
               end
           end.

(** [os.unlink(path)] *)
Definition unlink (path : string) : M world unit :=
  fun w => match files w !! path with
           | None => (Raise (Exc FileNotFoundError
                        ("[Errno 2] No such file or directory: '" ++ path ++ "'")), w)
           | Some _ =>
               match unlink_error w path with
               | Some e => (Raise e, w)
               | None => (Ok tt, set_files (delete path (files w)) w)
               end
           end.

End WithEnvironment.

(** ** Objects, methods and calls *)

(** A method body runs against the attribute dictionary of [self] and
    the world; it may change both. *)
Definition method (A : Type) : Type := M (gmap string value * world) A.

(** [self.name]: [AttributeError] when the attribute was never set. *)
Definition getattr (cls name : string) : method value :=
  fun st => match st.1 !! name with
            | Some v => (Ok v, st)
            | None => (Raise (Exc AttributeError
                         ("'" ++ cls ++ "' object has no attribute '" ++ name ++ "'")), st)
            end.

(** [self.name = v] *)
Definition setattr (name : string) (v : value) : method unit :=
  fun st => (Ok tt, (<[name := v]> st.1, st.2)).

(** A statement that touches the world and not [self]; more generally,
    a statement of an outer scope run below one more piece of state. *)
Definition io {T S A} (m : M S A) : M (T * S) A :=
  fun st => let '(r, s') := m st.2 in (r, (st.1, s')).

(** An [async def] without [yield]: calling it runs nothing and hands
    back a coroutine object; the body runs when the coroutine is awaited. *)
Inductive coroutine (A : Type) : Type :=
  | Coroutine (body : method A).
Arguments Coroutine {A} body.

Definition await {A} (c : coroutine A) : method A :=
  match c with Coroutine body => body end.

(** The call [f(...)] of an [async def] function, as a statement: the
    value is the coroutine object, and nothing has run. *)
Definition call_async {A} (c : coroutine A) : method (coroutine A) :=
  ret c.

(** [async for x in c: ...] on a coroutine object: it has no
    [__aiter__], the loop raises and the body of the coroutine does not
    run. *)
Definition async_for {A} (c : coroutine A) : method (list A) :=
  raise (Exc TypeError
           "'async for' requires an object with __aiter__ method, got coroutine").

(** An instance: its class and its attribute dictionary. *)
Record object (C : Type) : Type := Object {
  class_of : C;
  attributes_of : gmap string value
}.
Arguments Object {C} class_of attributes_of.
Arguments class_of {C} o.
Arguments attributes_of {C} o.

(** [cls(...)]: a fresh object with no attribute goes through [__init__];
    when [__init__] raises, the exception leaves and the object is lost. *)
Definition instantiate {C} (cls : C)
    (init : gmap string value -> method unit)
    (config : gmap string value) : M world (object C) :=
  fun w => match init config (∅, w) with
           | (Ok _, (self, w')) => (Ok (Object cls self), w')
           | (Raise e, (_, w')) => (Raise e, w')
           end.

(** Binding of a call [f(self, **config)] to the signature
    [f(self, p1, ..., pk=dk, ..., **kwargs)]: [params] lists the named
    parameters with their default if they have one.  The result is the
    local variables and the leftover [kwargs]. *)
Definition bind_args (fname : string) (params : list (string * option value))
    (config : gmap string value)
  : result (gmap string value * gmap string value) :=
  if bool_decide (is_Some (config !! "self")) then
    Raise (Exc TypeError (fname ++ "() got multiple values for argument 'self'"))
  else
    match List.filter (fun p => match p.2, config !! p.1 with
                                | None, None => true
                                | _, _ => false
                                end) params with
    | (p, _) :: _ =>
        Raise (Exc TypeError
                 (fname ++ "() missing 1 required positional argument: '" ++ p ++ "'"))
    | [] =>
        Ok (list_to_map
              (List.map (fun p => (p.1, default (default VNone p.2) (config !! p.1)))
                        params),
            filter (fun kv => kv.1 ∉ params.*1) config)
    end.

(** Binding of a method call [f(a1, ..., an, **kwargs)] to the signature
    [f(self, p1, ..., pn, **kwargs)]: a key of [kwargs] that names [self]
    or a parameter already given by position is a [TypeError]. *)
Definition bind_call (fname : string) (positional : list string)
    (kwargs : gmap string value) : result unit :=
  match List.find (fun p => bool_decide (is_Some (kwargs !! p)))
                  ("self" :: positional) with
  | Some p =>
      Raise (Exc TypeError
               (fname ++ "() got multiple values for argument '" ++ p ++ "'"))
  | None => Ok tt
  end.

(** A local variable of a bound call. *)
Definition local (locals : gmap string value) (name : string) : value :=
  default VNone (locals !! name).

(** [d.get(key, dflt)] on a keyword dictionary. *)
Definition kwargs_get (kwargs : gmap string value) (key : string) (dflt : value)
  : value :=
  default dflt (kwargs !! key).

(** *** Operations on dynamic values *)

Definition type_name (v : value) : string :=
  match v with
  | VNone => "NoneType"
  | VBool _ => "bool"
  | VInt _ => "int"
  | VFloat _ => "float"
  | VStr _ => "str"
  | VList _ => "list"
  | VDict _ => "dict"
  | VObj cls _ => cls
  end.

Fixpoint assoc {A} (k : string) (l : list (string * A)) : option A :=
  match l with
  | [] => None
  | (k', v) :: l' => if String.eqb k k' then Some v else assoc k l'
  end.

(** [v.get(key, dflt)]: a dictionary method. *)
Definition dict_get (v : value) (key : string) (dflt : value) : result value :=
  match v with
  | VDict d => Ok (default dflt (assoc key d))
  | _ => Raise (Exc AttributeError
                  ("'" ++ type_name v ++ "' object has no attribute 'get'"))
  end.

(** [v[key]] for a string key. *)
Definition subscript (v : value) (key : string) : result value :=
  match v with
  | VDict d => match assoc key d with
               | Some x => Ok x
               | None => Raise (Exc KeyError ("'" ++ key ++ "'"))
               end
  | VStr _ => Raise (Exc TypeError "string indices must be integers, not 'str'")
  | VList _ => Raise (Exc TypeError "list indices must be integers or slices, not str")
  | _ => Raise (Exc TypeError ("'" ++ type_name v ++ "' object is not subscriptable"))
  end.

(** [v.name] on a library object. *)
Definition field (v : value) (name : string) : result value :=
  match v with
  | VObj cls fs =>
      match assoc name fs with
      | Some x => Ok x
      | None => Raise (Exc AttributeError
                         ("'" ++ cls ++ "' object has no attribute '" ++ name ++ "'"))
      end
  | _ => Raise (Exc AttributeError
                  ("'" ++ type_name v ++ "' object has no attribute '" ++ name ++ "'"))
  end.

(** [hasattr(v, name)] *)
Definition hasattr (v : value) (name : string) : bool :=
  match v with
  | VObj _ fs => bool_decide (is_Some (assoc name fs))
  | _ => false
  end.

(** [for x in v]: the items a value iterates over. *)
Definition iterate (v : value) : result (list value) :=
  match v with
  | VList l => Ok l
  | VDict d => Ok (List.map (fun kv => VStr kv.1) d)
  | VStr s => Ok (List.map (fun c => VStr (String c EmptyString))
                           (list_ascii_of_string s))
  | _ => Raise (Exc TypeError ("'" ++ type_name v ++ "' object is not iterable"))
  end.

(** Run [f] over a list, left to right, stopping at the first exception. *)
Fixpoint traverse {A B} (f : A -> result B) (l : list A) : result (list B) :=
  match l with
  | [] => Ok []
  | x :: l' =>
      match f x with
      | Raise e => Raise e
      | Ok y => match traverse f l' with
                | Raise e => Raise e
                | Ok ys => Ok (y :: ys)
                end
      end
  end.

(** ** providers.py *)

(** The interface [STTProvider]: what a class that implements it
    provides.  [attributes] lists the attributes its [__init__] assigns. *)
Module STTProvider.
Record class : Type := Class {
  name : string;
  attributes : list string;
  __init__ : gmap string value -> method unit;
  transcribe : string -> method value;
  transcribe_stream : value -> coroutine value
}.
End STTProvider.

(** The interface [TTSProvider].  ([synthesize_stream], which nothing in
    the repository calls, is left out.) *)
Module TTSProvider.
Record class : Type := Class {
  name : string;
  attributes : list string;
  __init__ : gmap string value -> method unit;
  synthesize : string -> string -> gmap string value -> method unit;
  get_voices : method value
}.
End TTSProvider.

Abbreviation STTClass := STTProvider.class.
Abbreviation TTSClass := TTSProvider.class.

(** The two class-level tables of [ProviderFactory]. *)
Record ProviderFactory : Type := {
  _stt_providers : gmap string STTClass;
  _tts_providers : gmap string TTSClass
}.

Module ProviderFactory.

(** The tables as the class statement leaves them. *)
Definition initial : ProviderFactory :=
  {| _stt_providers := ∅; _tts_providers := ∅ |}.

Definition register_stt (name : string) (provider_class : STTClass)
    (cls : ProviderFactory) : ProviderFactory :=
  {| _stt_providers := <[name := provider_class]> (_stt_providers cls);
     _tts_providers := _tts_providers cls |}.

Definition register_tts (name : string) (provider_class : TTSClass)
    (cls : ProviderFactory) : ProviderFactory :=
  {| _stt_providers := _stt_providers cls;
     _tts_providers := <[name := provider_class]> (_tts_providers cls) |}.

Definition create_stt (cls : ProviderFactory) (provider_name : string)
    (config : gmap string value) : M world (object STTClass) :=
  match _stt_providers cls !! provider_name with
  | None => raise (Exc ValueError ("Unknown STT provider: " ++ provider_name))
  | Some provider_class =>
      instantiate provider_class (STTProvider.__init__ provider_class) config
  end.

Definition create_tts (cls : ProviderFactory) (provider_name : string)
    (config : gmap string value) : M world (object TTSClass) :=
  match _tts_providers cls !! provider_name with
  | None => raise (Exc ValueError ("Unknown TTS provider: " ++ provider_name))
  | Some provider_class =>
      instantiate provider_class (TTSProvider.__init__ provider_class) config
  end.

End ProviderFactory.

(** ** tts_providers.py *)

Module KokoroTTS.
Section Methods.
Context {env : environment}.

Definition __init__ (config : gmap string value) : method unit :=
  args <- of_result (bind_args "KokoroTTS.__init__"
            [("base_url", Some (VStr "http://localhost:8880/v1"));
             ("voice", Some (VStr "af_bella"));
             ("format", Some (VStr "ogg"))] config) ;;
  try_except_of [ImportError] (io (import_module "requests"))
    (fun _ => raise (Exc ImportError
                       "requests not installed. Run: pip install requests")) ;;;
  setattr "base_url" (local args.1 "base_url") ;;;
  setattr "voice" (local args.1 "voice") ;;;
  setattr "format" (local args.1 "format") ;;;
  session <- io (new_object "requests.Session" []) ;;
  setattr "session" session.

Definition synthesize (text output_file : string)
    (kwargs : gmap string value) : method unit :=
  of_result (bind_call "KokoroTTS.synthesize" ["text"; "output_file"] kwargs) ;;;
  self_voice <- getattr "KokoroTTS" "voice" ;;
  let voice := kwargs_get kwargs "voice" self_voice in
  self_format <- getattr "KokoroTTS" "format" ;;
  let format := kwargs_get kwargs "format" self_format in
  _ <- getattr "KokoroTTS" "session" ;;
  base_url <- getattr "KokoroTTS" "base_url" ;;
  response <- io (http (HttpPost (py_str base_url ++ "/audio/speech") []
                          [("model", VStr "kokoro");
                           ("input", VStr text);
                           ("voice", voice);
                           ("response_format", format)] false)) ;;
  of_result (raise_for_status response) ;;;
  io (write_file output_file (content response)).

Definition get_voices : method value :=
  _ <- getattr "KokoroTTS" "session" ;;
  base_url <- getattr "KokoroTTS" "base_url" ;;
  response <- io (http (HttpGet (py_str base_url ++ "/audio/voices") [])) ;;
  of_result (raise_for_status response) ;;;
  data <- of_result (response_json response) ;;
  of_result (dict_get data "voices" (VList [])).

Definition class : TTSClass :=
  TTSProvider.Class "KokoroTTS"
    ["base_url"; "voice"; "format"; "session"]
    __init__ synthesize get_voices.

End Methods.
End KokoroTTS.

Module Qwen3TTS.
Section Methods.
Context {env : environment}.

Definition __init__ (config : gmap string value) : method unit :=
  args <- of_result (bind_args "Qwen3TTS.__init__"
            [("model_path", Some VNone);
             ("device", Some (VStr "cpu"));
             ("voice", Some (VStr "default"));
             ("format", Some (VStr "wav"))] config) ;;
  setattr "model_path" (local args.1 "model_path") ;;;
  setattr "device" (local args.1 "device") ;;;
  setattr "voice" (local args.1 "voice") ;;;
  setattr "format" (local args.1 "format") ;;;
  raise (Exc NotImplementedError "Qwen3 TTS implementation pending model release").

Definition synthesize (text output_file : string)
    (kwargs : gmap string value) : method unit :=
  of_result (bind_call "Qwen3TTS.synthesize" ["text"; "output_file"] kwargs) ;;;
  raise (Exc NotImplementedError "Qwen3 TTS implementation pending model release").

Definition get_voices : method value :=
  raise (Exc NotImplementedError "Qwen3 TTS implementation pending model release").

Definition class : TTSClass :=
  TTSProvider.Class "Qwen3TTS"
    ["model_path"; "device"; "voice"; "format"]
    __init__ synthesize get_voices.

End Methods.
End Qwen3TTS.

Module OpenAITTS.
Section Methods.
Context {env : environment}.

Definition __init__ (config : gmap string value) : method unit :=
  args <- of_result (bind_args "OpenAITTS.__init__"
            [("api_key", None);
             ("model", Some (VStr "tts-1"));
             ("voice", Some (VStr "alloy"));
             ("format", Some (VStr "mp3"))] config) ;;
  try_except_of [ImportError] (io (import_module "openai"))
    (fun _ => raise (Exc ImportError
                       "openai not installed. Run: pip install openai")) ;;;
  client <- io (new_object "openai.OpenAI" [("api_key", local args.1 "api_key")]) ;;
  setattr "client" client ;;;
  setattr "model" (local args.1 "model") ;;;
  setattr "voice" (local args.1 "voice") ;;;
  setattr "format" (local args.1 "format").

Definition synthesize (text output_file : string)
    (kwargs : gmap string value) : method unit :=
  of_result (bind_call "OpenAITTS.synthesize" ["text"; "output_file"] kwargs) ;;;
  self_voice <- getattr "OpenAITTS" "voice" ;;
  let voice := kwargs_get kwargs "voice" self_voice in
  self_model <- getattr "OpenAITTS" "model" ;;
  let model := kwargs_get kwargs "model" self_model in
  self_format <- getattr "OpenAITTS" "format" ;;
  let response_format := kwargs_get kwargs "format" self_format in
  client <- getattr "OpenAITTS" "client" ;;
  audio <- io (speech (OpenAISpeech client
                         [("model", model);
                          ("voice", voice);
                          ("input", VStr text);
                          ("response_format", response_format)])) ;;
  io (write_file output_file audio).

Definition get_voices : method value :=
  ret (VList [VStr "alloy"; VStr "echo"; VStr "fable";
              VStr "onyx"; VStr "nova"; VStr "shimmer"]).

Definition class : TTSClass :=
  TTSProvider.Class "OpenAITTS"
    ["client"; "model"; "voice"; "format"]
    __init__ synthesize get_voices.

End Methods.
End OpenAITTS.

Module ElevenLabsTTS.
Section Methods.
Context {env : environment}.

Definition __init__ (config : gmap string value) : method unit :=
  args <- of_result (bind_args "ElevenLabsTTS.__init__"
            [("api_key", None);
             ("voice_id", Some (VStr "default"));
             ("model", Some (VStr "eleven_multilingual_v2"));
             ("format", Some (VStr "mp3"))] config) ;;
  try_except_of [ImportError] (io (import_module "requests"))
    (fun _ => raise (Exc ImportError
                       "requests not installed. Run: pip install requests")) ;;;
  setattr "api_key" (local args.1 "api_key") ;;;
  setattr "voice_id" (local args.1 "voice_id") ;;;
  setattr "model" (local args.1 "model") ;;;
  setattr "format" (local args.1 "format") ;;;
  session <- io (new_object "requests.Session" []) ;;
  setattr "session" session.

Definition synthesize (text output_file : string)
    (kwargs : gmap string value) : method unit :=
  of_result (bind_call "ElevenLabsTTS.synthesize" ["text"; "output_file"] kwargs) ;;;
  self_voice_id <- getattr "ElevenLabsTTS" "voice_id" ;;
  let voice_id := kwargs_get kwargs "voice_id" self_voice_id in
  _ <- getattr "ElevenLabsTTS" "session" ;;
  api_key <- getattr "ElevenLabsTTS" "api_key" ;;
  model <- getattr "ElevenLabsTTS" "model" ;;
  format <- getattr "ElevenLabsTTS" "format" ;;
  response <- io (http (HttpPost
                    ("https://api.elevenlabs.io/v1/text-to-speech/" ++ py_str voice_id)
                    [("xi-api-key", api_key);
                     ("Content-Type", VStr "application/json")]
                    [("text", VStr text);
                     ("model_id", model);
                     ("output_format", format)] false)) ;;
  of_result (raise_for_status response) ;;;
  io (write_file output_file (content response)).

Definition get_voices : method value :=
  _ <- getattr "ElevenLabsTTS" "session" ;;
  api_key <- getattr "ElevenLabsTTS" "api_key" ;;
  response <- io (http (HttpGet "https://api.elevenlabs.io/v1/voices"
                          [("xi-api-key", api_key)])) ;;
  of_result (raise_for_status response) ;;;
  data <- of_result (response_json response) ;;
  voices <- of_result (dict_get data "voices" (VList [])) ;;
  items <- of_result (iterate voices) ;;
  ids <- of_result (traverse (fun voice => subscript voice "voice_id") items) ;;
  ret (VList ids).

Definition class : TTSClass :=
  TTSProvider.Class "ElevenLabsTTS"
    ["api_key"; "voice_id"; "model"; "format"; "session"]
    __init__ synthesize get_voices.

End Methods.
End ElevenLabsTTS.

(** ** stt_providers.py *)

(** *** String methods

    A [str] is kept as the bytes of its UTF-8 encoding: a character is a
    leading byte and the continuation bytes that follow it. *)

(** A byte [10xxxxxx], which continues a character. *)
Definition continuation (c : ascii) : bool :=
  let n := nat_of_ascii c in
  ((128 <=? n) && (n <=? 191))%nat.

(** The white space of ASCII: tab to carriage return, the four
    separators, the space. *)
Definition is_space (c : ascii) : bool :=
  let n := nat_of_ascii c in
  ((9 <=? n) && (n <=? 13) || (28 <=? n) && (n <=? 32))%nat.

(** The other characters for which [str.isspace] holds, by the bytes of
    their encoding: U+0085 and U+00A0 on two bytes; U+1680, U+2000 to
    U+200A, U+2028, U+2029, U+202F, U+205F and U+3000 on three. *)
Definition is_space2 (c1 c2 : ascii) : bool :=
  let n1 := nat_of_ascii c1 in
  let n2 := nat_of_ascii c2 in
  ((n1 =? 194) && ((n2 =? 133) || (n2 =? 160)))%nat.

Definition is_space3 (c1 c2 c3 : ascii) : bool :=
  let n1 := nat_of_ascii c1 in
  let n2 := nat_of_ascii c2 in
  let n3 := nat_of_ascii c3 in
  ((n1 =? 225) && (n2 =? 154) && (n3 =? 128)
   || (n1 =? 226) && (n2 =? 128)
      && ((128 <=? n3) && (n3 <=? 138) || (n3 =? 168) || (n3 =? 169)
          || (n3 =? 175))
   || (n1 =? 226) && (n2 =? 129) && (n3 =? 159)
   || (n1 =? 227) && (n2 =? 128) && (n3 =? 128))%nat.

(** The same two tests on bytes read from the end of a string. *)
Definition is_space2_back (c2 c1 : ascii) : bool := is_space2 c1 c2.

Definition is_space3_back (c3 c2 c1 : ascii) : bool := is_space3 c1 c2 c3.

(** The bytes without the white space characters they start with;
    [sp2] and [sp3] recognise those of two and of three bytes. *)
Fixpoint strip_front (sp2 : ascii -> ascii -> bool)
    (sp3 : ascii -> ascii -> ascii -> bool) (l : list ascii) : list ascii :=
  match l with
  | [] => []
  | c1 :: l1 =>
      if is_space c1 then strip_front sp2 sp3 l1
      else
        match l1 with
        | [] => l
        | c2 :: l2 =>
            if sp2 c1 c2 then strip_front sp2 sp3 l2
            else
              match l2 with
              | [] => l
              | c3 :: l3 =>
                  if sp3 c1 c2 c3 then strip_front sp2 sp3 l3 else l
              end
        end
  end.

Definition lstrip (l : list ascii) : list ascii :=
  strip_front is_space2 is_space3 l.

Definition rstrip (l : list ascii) : list ascii :=
  List.rev (strip_front is_space2_back is_space3_back (List.rev l)).

(** [s.strip()] *)
Definition strip (s : string) : string :=
  string_of_list_ascii (rstrip (lstrip (list_ascii_of_string s))).

(** The bytes are well-formed UTF-8: each character has the continuation
    bytes that its leading byte announces, is encoded on as few bytes as
    it takes, and is neither a surrogate nor beyond U+10FFFF. *)
Fixpoint utf8 (l : list ascii) : bool :=
  match l with
  | [] => true
  | c1 :: l1 =>
      let n1 := nat_of_ascii c1 in
      if (n1 <? 128)%nat then utf8 l1
      else
        match l1 with
        | [] => false
        | c2 :: l2 =>
            let n2 := nat_of_ascii c2 in
            if ((194 <=? n1) && (n1 <=? 223))%nat then
              continuation c2 && utf8 l2
            else
              match l2 with
              | [] => false
              | c3 :: l3 =>
                  if ((224 <=? n1) && (n1 <=? 239))%nat then
                    (if (n1 =? 224)%nat then (160 <=? n2) && (n2 <=? 191)
                     else if (n1 =? 237)%nat then (128 <=? n2) && (n2 <=? 159)
                     else continuation c2)%nat
                    && continuation c3 && utf8 l3
                  else
                    match l3 with
                    | [] => false
                    | c4 :: l4 =>
                        ((240 <=? n1) && (n1 <=? 244))%nat
                        && (if (n1 =? 240)%nat then (144 <=? n2) && (n2 <=? 191)
                            else if (n1 =? 244)%nat
                                 then (128 <=? n2) && (n2 <=? 143)
                                 else continuation c2)%nat
                        && continuation c3 && continuation c4 && utf8 l4
                    end
              end
        end
  end.

(** [b.decode()]: the text that the bytes encode, which is the bytes
    themselves here.  (The message of the interpreter also names the
    byte, its position and what is wrong with it.) *)
Definition decode (b : string) : result string :=
  if utf8 (list_ascii_of_string b) then Ok b
  else Raise (Exc UnicodeDecodeError "'utf-8' codec can't decode bytes").

(** [v.strip()] on a dynamic value *)
Definition str_strip (v : value) : result value :=
  match v with
  | VStr s => Ok (VStr (strip s))
  | _ => Raise (Exc AttributeError
                  ("'" ++ type_name v ++ "' object has no attribute 'strip'"))
  end.

Fixpoint join_aux (sep : string) (i : nat) (l : list value) : result string :=
  match l with
  | [] => Ok ""
  | v :: l' =>
      match v with
      | VStr s =>
          match l' with
          | [] => Ok s
          | _ :: _ =>
              match join_aux sep (S i) l' with
              | Raise e => Raise e
              | Ok rest => Ok (s ++ sep ++ rest)
              end
          end
      | _ => Raise (Exc TypeError
                      ("sequence item " ++ pretty i ++ ": expected str instance, "
                         ++ type_name v ++ " found"))
      end
  end.

(** [sep.join(l)] *)
Definition str_join (sep : string) (l : list value) : result string :=
  join_aux sep 0%nat l.

(** [a, b = v] *)
Definition unpack2 (v : value) : result (value * value) :=
  match iterate v with
  | Raise _ => Raise (Exc TypeError
                        ("cannot unpack non-iterable " ++ type_name v ++ " object"))
  | Ok [a; b] => Ok (a, b)
  | Ok (_ :: _ :: _ :: _) =>
      Raise (Exc ValueError "too many values to unpack (expected 2)")
  | Ok _ => Raise (Exc ValueError "not enough values to unpack (expected 2)")
  end.

Module WhisperSTT.
Section Methods.
Context {env : environment}.

Definition __init__ (config : gmap string value) : method unit :=
  args <- of_result (bind_args "WhisperSTT.__init__"
            [("model", Some (VStr "tiny")); ("device", Some VNone)] config) ;;
  io (modify (set_environ "PYTHONIOENCODING" "utf-8")) ;;;
  io (modify (set_environ "KMP_DUPLICATE_LIB_OK" "TRUE")) ;;;
  try_except_of [ImportError] (io (import_module "whisper"))
    (fun _ => raise (Exc ImportError
                       "whisper not installed. Run: pip install openai-whisper")) ;;;
  setattr "model_name" (local args.1 "model") ;;;
  if truthy (local args.1 "device") then
    model <- io (new_object "whisper.load_model"
                   [("name", local args.1 "model");
                    ("device", local args.1 "device")]) ;;
    setattr "model" model
  else
    model <- io (new_object "whisper.load_model"
                   [("name", local args.1 "model")]) ;;
    setattr "model" model.

Definition transcribe (audio_path : string) : method value :=
  model <- getattr "WhisperSTT" "model" ;;
  result <- io (library (ModelTranscribe model audio_path)) ;;
  text <- of_result (subscript result "text") ;;
  text <- of_result (str_strip text) ;;
  language <- of_result (dict_get result "language" (VStr "en")) ;;
  ret (VDict [("text", text);
              ("language", language);
              ("language_probability", VFloat 1);
              ("duration", VInt 0)]).

Definition transcribe_stream (audio_stream : value) : coroutine value :=
  Coroutine
    (raise (Exc NotImplementedError "Streaming not yet implemented for whisper")).

Definition class : STTClass :=
  STTProvider.Class "WhisperSTT" ["model_name"; "model"]
    __init__ transcribe transcribe_stream.

End Methods.
End WhisperSTT.

Module FasterWhisperSTT.
Section Methods.
Context {env : environment}.

Definition __init__ (config : gmap string value) : method unit :=
  args <- of_result (bind_args "FasterWhisperSTT.__init__"
            [("model", Some (VStr "base"));
             ("device", Some (VStr "cpu"));
             ("compute_type", Some (VStr "int8"))] config) ;;
  try_except_of [ImportError] (io (import_module "faster_whisper"))
    (fun _ => raise (Exc ImportError
                       "faster-whisper not installed. Run: pip install faster-whisper")) ;;;
  model <- io (new_object "faster_whisper.WhisperModel"
                 ([("model_size_or_path", local args.1 "model");
                   ("device", local args.1 "device");
                   ("compute_type", local args.1 "compute_type")]
                    ++ map_to_list args.2)) ;;
  setattr "model" model.

Definition transcribe (audio_path : string) : method value :=
  model <- getattr "FasterWhisperSTT" "model" ;;
  result <- io (library (ModelTranscribe model audio_path)) ;;
  pair <- of_result (unpack2 result) ;;
  let segments := pair.1 in
  let info := pair.2 in
  items <- of_result (iterate segments) ;;
  texts <- of_result (traverse (fun segment => field segment "text") items) ;;
  text <- of_result (str_join " " texts) ;;
  duration <- of_result (field info "duration") ;;
  language <- of_result (field info "language") ;;
  language_probability <- of_result (field info "language_probability") ;;
  ret (VDict [("text", VStr (strip text));
              ("language", language);
              ("language_probability", language_probability);
              ("duration", duration)]).

Definition transcribe_stream (audio_stream : value) : coroutine value :=
  Coroutine
    (raise (Exc NotImplementedError
              "Streaming not yet implemented for faster-whisper")).

Definition class : STTClass :=
  STTProvider.Class "FasterWhisperSTT" ["model"]
    __init__ transcribe transcribe_stream.

End Methods.
End FasterWhisperSTT.

Module OpenAIWhisperSTT.
Section Methods.
Context {env : environment}.

Definition __init__ (config : gmap string value) : method unit :=
  args <- of_result (bind_args "OpenAIWhisperSTT.__init__"
            [("api_key", None); ("model", Some (VStr "whisper-1"))] config) ;;
  try_except_of [ImportError] (io (import_module "openai"))
    (fun _ => raise (Exc ImportError
                       "openai not installed. Run: pip install openai")) ;;;
  client <- io (new_object "openai.OpenAI" [("api_key", local args.1 "api_key")]) ;;
  setattr "client" client ;;;
  setattr "model" (local args.1 "model").

Definition transcribe (audio_path : string) : method value :=
  audio_file <- io (read_file audio_path) ;;
  client <- getattr "OpenAIWhisperSTT" "client" ;;
  model <- getattr "OpenAIWhisperSTT" "model" ;;
  transcript <- io (library (OpenAITranscription client model audio_file)) ;;
  text <- of_result (field transcript "text") ;;
  duration <- (if hasattr transcript "duration"
               then of_result (field transcript "duration")
               else ret (VInt 0)) ;;
  ret (VDict [("text", text);
              ("language", VStr "en");
              ("language_probability", VFloat 1);
              ("duration", duration)]).

Definition transcribe_stream (audio_stream : value) : coroutine value :=
  Coroutine
    (raise (Exc NotImplementedError
              "OpenAI Whisper API doesn't support streaming")).

Definition class : STTClass :=
  STTProvider.Class "OpenAIWhisperSTT" ["client"; "model"]
    __init__ transcribe transcribe_stream.

End Methods.
End OpenAIWhisperSTT.

Module GoogleCloudSTT.
Section Methods.
Context {env : environment}.

Definition __init__ (config : gmap string value) : method unit :=
  args <- of_result (bind_args "GoogleCloudSTT.__init__"
            [("api_key", None); ("language", Some (VStr "en-US"))] config) ;;
  try_except_of [ImportError] (io (import_module "google.cloud.speech"))
    (fun _ => raise (Exc ImportError
        "google-cloud-speech not installed. Run: pip install google-cloud-speech")) ;;;
  client <- io (new_object "google.cloud.speech.SpeechClient" []) ;;
  setattr "client" client ;;;
  setattr "language" (local args.1 "language").

(** [speech] is a local name of [__init__]; here it is unbound, so the
    method stops at [speech.RecognitionAudio] once the file is read. *)
Definition transcribe (audio_path : string) : method value :=
  _ <- io (read_file audio_path) ;;
  raise (Exc NameError "name 'speech' is not defined").

Definition transcribe_stream (audio_stream : value) : coroutine value :=
  Coroutine (raise (Exc NotImplementedError "Streaming not yet implemented")).

Definition class : STTClass :=
  STTProvider.Class "GoogleCloudSTT" ["client"; "language"]
    __init__ transcribe transcribe_stream.

End Methods.
End GoogleCloudSTT.

(** *** Registration at import *)

Section Registration.
Context {env : environment}.

(** The [register_stt] calls at the end of [stt_providers.py]. *)
Definition stt_providers_module (cls : ProviderFactory) : ProviderFactory :=
  let cls := ProviderFactory.register_stt "whisper" WhisperSTT.class cls in
  let cls := ProviderFactory.register_stt "faster-whisper" FasterWhisperSTT.class cls in
  let cls := ProviderFactory.register_stt "openai" OpenAIWhisperSTT.class cls in
  ProviderFactory.register_stt "google" GoogleCloudSTT.class cls.

(** The [register_tts] calls at the end of [tts_providers.py]. *)
Definition tts_providers_module (cls : ProviderFactory) : ProviderFactory :=
  let cls := ProviderFactory.register_tts "kokoro" KokoroTTS.class cls in
  let cls := ProviderFactory.register_tts "qwen3" Qwen3TTS.class cls in
  let cls := ProviderFactory.register_tts "openai" OpenAITTS.class cls in
  ProviderFactory.register_tts "elevenlabs" ElevenLabsTTS.class cls.

(** The factory once [voice_handler.py] has imported both modules. *)
Definition loaded : ProviderFactory :=
  tts_providers_module (stt_providers_module ProviderFactory.initial).

End Registration.

(** ** audio_processor.py *)

(** [repr] of a list of strings, as [str(CalledProcessError)] prints the
    command (arguments without quotes or escapes). *)
Definition repr_command (cmd : list string) : string :=
  "[" ++ String.concat ", " (List.map (fun a => "'" ++ a ++ "'") cmd) ++ "]".

Section Subprocess.
Context {env : environment}.

(** [subprocess.run(cmd, check=check, capture_output=True)]: the
    return code and the captured stderr, as bytes. *)
Definition subprocess_run (cmd : list string) (check : bool)
  : M world (Z * string) :=
  fun w =>
    match run_process w cmd with
    | CannotStart e => (Raise e, add_process cmd w)
    | Exited returncode stderr files_after =>
        let w' := set_files files_after (add_process cmd w) in
        if check && negb (returncode =? 0) then
          (Raise (MkExc CalledProcessError
                    ("Command '" ++ repr_command cmd
                       ++ "' returned non-zero exit status "
                       ++ pretty returncode ++ ".")
                    stderr), w')
        else (Ok (returncode, stderr), w')
    end.

End Subprocess.

Record AudioProcessor : Type := {
  temp_dir : string;
  ffmpeg_available : bool
}.

Module AudioProcessor.
Section Methods.
Context {env : environment}.

(** [temp_dir] is [None] or a string; both attributes are assigned on
    every path that returns. *)
Definition __init__ (temp_dir : option string) : M world AudioProcessor :=
  let temp_dir := match temp_dir with
                  | Some d => if String.eqb d "" then gettempdir else d
                  | None => gettempdir
                  end in
  available <-
    try_except_of [CalledProcessError; FileNotFoundError]
      (_ <- subprocess_run ["ffmpeg"; "-version"] true ;;
       ret true)
      (fun _ =>
         logger "WARNING" "FFmpeg not found. Install it for audio conversion." ;;;
         ret false) ;;
  ret {| temp_dir := temp_dir; ffmpeg_available := available |}.

Definition convert_for_stt (self : AudioProcessor) (input_path : string)
    (output_path : option string) : M world string :=
  if negb (ffmpeg_available self) then
    logger "ERROR" "FFmpeg not available for conversion" ;;;
    raise (Exc RuntimeError "FFmpeg required for audio conversion")
  else
    let output_path :=
      match output_path with
      | Some p => p
      | None => path_join (temp_dir self)
                  ("converted_" ++ basename input_path ++ ".wav")
      end in
    let cmd := ["ffmpeg"; "-i"; input_path; "-ar"; "16000"; "-ac"; "1";
                "-c:a"; "pcm_s16le"; "-y"; output_path] in
    try_except_of [CalledProcessError]
      (_ <- subprocess_run cmd true ;;
       logger "INFO" ("Converted: " ++ input_path ++ " -> " ++ output_path) ;;;
       ret output_path)
      (fun e =>
         detail <- of_result (decode (exc_stderr e)) ;;
         logger "ERROR" ("Conversion failed: " ++ detail) ;;;
         raise (Exc RuntimeError ("Audio conversion failed: " ++ exc_str e))).

Definition convert_for_platform (self : AudioProcessor)
    (input_path platform : string) (output_path : option string)
  : M world string :=
  if negb (ffmpeg_available self) then
    ret input_path
  else
    let output_path :=
      match output_path with
      | Some p => p
      | None =>
          let format := if String.eqb platform "telegram" then "ogg" else "mp3" in
          let ext := "." ++ format in
          path_join (temp_dir self)
            ("response_" ++ basename input_path ++ ext)
      end in
    let cmd :=
      if String.eqb platform "telegram" then
        ["ffmpeg"; "-i"; input_path; "-c:a"; "libopus"; "-b:a"; "64k";
         "-y"; output_path]
      else
        ["ffmpeg"; "-i"; input_path; "-codec:a"; "libmp3lame"; "-b:a"; "128k";
         "-y"; output_path] in
    try_except_of [CalledProcessError]
      (_ <- subprocess_run cmd true ;;
       logger "INFO" ("Converted for " ++ platform ++ ": " ++ input_path
                        ++ " -> " ++ output_path) ;;;
       ret output_path)
      (fun e =>
         detail <- of_result (decode (exc_stderr e)) ;;
         logger "ERROR" ("Platform conversion failed: " ++ detail) ;;;
         raise (Exc RuntimeError ("Audio conversion failed: " ++ exc_str e))).

End Methods.
End AudioProcessor.

(** ** voice_handler.py *)

(** *** Temporary files and WAV files *)

Definition byte_of_Z (z : Z) : byte :=
  default x00 (Byte.of_N (Z.to_N (z mod 256))).

(** [struct.pack] of an unsigned little-endian integer on [n] bytes. *)
Definition le_bytes (n : nat) (z : Z) : list byte :=
  List.map (fun i => byte_of_Z (z / 256 ^ Z.of_nat i)) (seq 0 n).

(** The file that [wave] leaves for PCM frames: the RIFF header it packs
    in [_write_header], then the frames. *)
Definition wave_file (nchannels sampwidth framerate : Z) (frames : list byte)
  : list byte :=
  let datalength := Z.of_nat (length frames) in
  list_byte_of_string "RIFF" ++ le_bytes 4 (36 + datalength)
    ++ list_byte_of_string "WAVE" ++ list_byte_of_string "fmt "
    ++ le_bytes 4 16 ++ le_bytes 2 1
    ++ le_bytes 2 nchannels ++ le_bytes 4 framerate
    ++ le_bytes 4 (nchannels * framerate * sampwidth)
    ++ le_bytes 2 (nchannels * sampwidth)
    ++ le_bytes 2 (sampwidth * 8)
    ++ list_byte_of_string "data" ++ le_bytes 4 datalength
    ++ frames.

(** [b * n] on bytes *)
Definition bytes_mul (b : list byte) (n : Z) : list byte :=
  List.concat (repeat b (Z.to_nat n)).

(** [tempfile.TMP_MAX] *)
Definition TMP_MAX : nat := Z.to_nat 10000.

Section Files.
Context {env : environment}.

(** [tempfile.NamedTemporaryFile(suffix=suffix, delete=False)] followed
    by [close()]: the first candidate name that does not exist yet is
    created empty; the name is what the code keeps. *)
Definition NamedTemporaryFile (suffix : string) : M world string :=
  fun w =>
    let name n := path_join gettempdir ("tmp" ++ temp_candidate n ++ suffix) in
    match List.find (fun n => bool_decide (files w !! name n = None))
                    (seq 0 TMP_MAX) with
    | None => (Raise (Exc FileExistsError
                 "[Errno 17] No usable temporary file name found"), w)
    | Some n =>
        match open_error w (name n) "w+b" with
        | Some e => (Raise e, w)
        | None => (Ok (name n), set_files (<[name n := []]> (files w)) w)
        end
    end.

(** [with wave.open(path, 'wb') as f:] set the three parameters and
    write [frames]. *)
Definition wave_write (path : string) (nchannels sampwidth framerate : Z)
    (frames : list byte) : M world unit :=
  write_file path (wave_file nchannels sampwidth framerate frames).

End Files.

(** *** VoiceHandler *)

(** [defaults] is whatever the caller passed, a table as a rule. *)
Record VoiceHandler : Type := {
  stt : object STTClass;
  tts : object TTSClass;
  processor : option AudioProcessor;
  defaults : value
}.

(** [s[:n]]: the first [n] characters, each with its continuation
    bytes. *)
Fixpoint take_chars (n : nat) (s : string) : string :=
  match s with
  | EmptyString => EmptyString
  | String c s' =>
      if continuation c then String c (take_chars n s')
      else
        match n with
        | O => EmptyString
        | S n' => String c (take_chars n' s')
        end
  end.

(** A block with a local variable of its own: the variable is part of the
    state while the block runs and is dropped at the end. *)
Definition with_local {L S A} (init : L) (body : M (L * S) A) : M S A :=
  fun s => let '(r, st) := body (init, s) in (r, st.2).

Definition get_local {L S} : M (L * S) L := fun st => (Ok st.1, st).

Definition set_local {L S} (f : L -> L) : M (L * S) unit :=
  fun st => (Ok tt, (f st.1, st.2)).

Module VoiceHandler.
Section Methods.
Context {env : environment}.

(** [self.stt.m(...)]: the method of the class of [self.stt] runs on the
    attributes of that object. *)
Definition call_stt {A} (m : STTClass -> method A) : M (VoiceHandler * world) A :=
  fun st =>
    let self := st.1 in
    let '(r, st') := m (class_of (stt self)) (attributes_of (stt self), st.2) in
    (r, ({| stt := Object (class_of (stt self)) st'.1;
            tts := tts self;
            processor := processor self;
            defaults := defaults self |}, st'.2)).

Definition call_tts {A} (m : TTSClass -> method A) : M (VoiceHandler * world) A :=
  fun st =>
    let self := st.1 in
    let '(r, st') := m (class_of (tts self)) (attributes_of (tts self), st.2) in
    (r, ({| stt := stt self;
            tts := Object (class_of (tts self)) st'.1;
            processor := processor self;
            defaults := defaults self |}, st'.2)).

(** [defaults] is [None] when the caller leaves it out; [defaults or {}]
    keeps any value that is true. *)
Definition __init__ (stt_provider : object STTClass)
    (tts_provider : object TTSClass)
    (audio_processor : option AudioProcessor)
    (defaults : value) : VoiceHandler :=
  {| stt := stt_provider;
     tts := tts_provider;
     processor := audio_processor;
     defaults := if truthy defaults then defaults else VDict [] |}.

(** The keyword dictionary that [synthesize] builds. *)
Definition synthesize_kwargs (voice format : value) : gmap string value :=
  let kwargs := ∅ in
  let kwargs := if negb (is_None voice) then <["voice" := voice]> kwargs
                else kwargs in
  let kwargs := if negb (is_None format) then <["format" := format]> kwargs
                else kwargs in
  kwargs.

Definition synthesize (text output_file : string) (voice format : value)
  : M (VoiceHandler * world) unit :=
  try_except
    (let kwargs := synthesize_kwargs voice format in
     call_tts (fun c => TTSProvider.synthesize c text output_file kwargs) ;;;
     io (logger "INFO" ("Synthesized: " ++ take_chars 50 text ++ "... -> "
                          ++ output_file)))
    (fun e =>
       io (logger "ERROR" ("Synthesis failed: " ++ exc_str e)) ;;;
       raise e).

Definition get_voices : M (VoiceHandler * world) value :=
  try_except
    (call_tts (fun c => TTSProvider.get_voices c))
    (fun e =>
       io (logger "ERROR" ("Failed to get voices: " ++ exc_str e)) ;;;
       ret (VList [])).

(** The first [try] statement of [test_connection], on the local
    variable [results]. *)
Definition test_stt : M (gmap string bool * (VoiceHandler * world)) unit :=
  try_except
    (test_audio <- io (io (NamedTemporaryFile ".wav")) ;;
     io (io (wave_write test_audio 1 2 16000
               (bytes_mul [x00; x00] 16000))) ;;;
     _ <- io (call_stt (fun c => STTProvider.transcribe c test_audio)) ;;
     set_local (<["stt" := true]>) ;;;
     io (io (unlink test_audio)))
    (fun e => io (io (logger "ERROR" ("STT test failed: " ++ exc_str e)))).

(** The second [try] statement of [test_connection]. *)
Definition test_tts : M (gmap string bool * (VoiceHandler * world)) unit :=
  try_except
    (test_output <- io (io (NamedTemporaryFile ".ogg")) ;;
     io (call_tts (fun c => TTSProvider.synthesize c "Test" test_output ∅)) ;;;
     set_local (<["tts" := true]>) ;;;
     io (io (unlink test_output)))
    (fun e => io (io (logger "ERROR" ("TTS test failed: " ++ exc_str e)))).

Definition test_connection : M (VoiceHandler * world) (gmap string bool) :=
  with_local ({[ "stt" := false; "tts" := false ]} : gmap string bool)
    (test_stt ;;;
     test_tts ;;;
     get_local).

(** [self.defaults.get(key, dflt)] *)
Definition should_include_transcription_on_voice_response (self : VoiceHandler)
  : result value :=
  dict_get (defaults self) "include_transcription_on_voice_response"
    (VBool true).

Definition should_send_voice_to_text_message (self : VoiceHandler)
  : result value :=
  dict_get (defaults self) "voice_response_to_text_message" (VBool false).

Definition get_default_behavior_summary (self : VoiceHandler)
  : result (gmap string value) :=
  match should_include_transcription_on_voice_response self with
  | Raise e => Raise e
  | Ok include =>
      match should_send_voice_to_text_message self with
      | Raise e => Raise e
      | Ok send =>
          Ok {[ "include_transcription_on_voice_response" := include;
                "voice_response_to_text_message" := send ]}
      end
  end.

End Methods.
End VoiceHandler.

(** ** Example worlds and environments *)

Definition empty_world : world := World ∅ ∅ [] [] [].

(** Every library is installed and every constructor succeeds; the HTTP
    backend answers every request with [status] and [body]; the file
    system refuses nothing; there is no ffmpeg on the path. *)
Definition replying (status : Z) (body : list byte) (json : option value)
  : environment :=
  {| importable := fun _ => true;
     construct := fun _ _ _ => None;
     http_send := fun _ _ => Ok (Response status body json);
     speech_create := fun _ _ => Ok body;
     library_call := fun _ _ => Ok (VDict [("text", VStr "")]);
     open_error := fun _ _ _ => None;
     write_error := fun _ _ _ => None;
     unlink_error := fun _ _ => None;
     run_process := fun _ _ =>
       CannotStart (Exc FileNotFoundError
                      "[Errno 2] No such file or directory: 'ffmpeg'");
     gettempdir := "/tmp";
     temp_candidate := fun n => pretty n |}.

(** The request of a default Kokoro instance for the text [hi] in the
    voice [voice]. *)
Definition override_request (voice : string) : request :=
  HttpPost "http://localhost:8880/v1/audio/speech" []
    [("model", VStr "kokoro"); ("input", VStr "hi");
     ("voice", VStr voice); ("response_format", VStr "ogg")] false.

(** The request of a default Kokoro instance for its list of voices. *)
Definition voices_request : request :=
  HttpGet "http://localhost:8880/v1/audio/voices" [].

(** As [replying], with no backend listening: every call to a backend
    raises a connection error. *)
Definition unreachable : environment :=
  let refused := Exc ConnectionError "Connection refused" in
  {| importable := fun _ => true;
     construct := fun _ _ _ => None;
     http_send := fun _ _ => Raise refused;
     speech_create := fun _ _ => Raise refused;
     library_call := fun _ _ => Raise refused;
     open_error := fun _ _ _ => None;
     write_error := fun _ _ _ => None;
     unlink_error := fun _ _ => None;
     run_process := fun _ _ =>
       CannotStart (Exc FileNotFoundError
                      "[Errno 2] No such file or directory: 'ffmpeg'");
     gettempdir := "/tmp";
     temp_candidate := fun n => pretty n |}.

(** As [replying], with ffmpeg installed and converting nothing. *)
Definition with_ffmpeg : environment :=
  {| importable := fun _ => true;
     construct := fun _ _ _ => None;
     http_send := fun _ _ => Ok (Response 200 [] None);
     speech_create := fun _ _ => Ok [];
     library_call := fun _ _ => Ok (VDict [("text", VStr "")]);
     open_error := fun _ _ _ => None;
     write_error := fun _ _ _ => None;
     unlink_error := fun _ _ => None;
     run_process := fun w _ => Exited 0 "" (files w);
     gettempdir := "/tmp";
     temp_candidate := fun n => pretty n |}.

(** The attributes of a [KokoroTTS()] built with the default arguments. *)
Definition kokoro_defaults : gmap string value :=
  {[ "base_url" := VStr "http://localhost:8880/v1";
     "voice" := VStr "af_bella";
     "format" := VStr "ogg";
     "session" := VObj "requests.Session" [] ]}.

(** The request of a default Kokoro instance for the text [hello]. *)
Definition hello_request : request :=
  HttpPost "http://localhost:8880/v1/audio/speech" []
    [("model", VStr "kokoro"); ("input", VStr "hello");
     ("voice", VStr "af_bella"); ("response_format", VStr "ogg")] false.

(** ** The registry in the words of the specification

    The specification speaks of [create(category, name, config)]; the
    code has one function per category. *)

Inductive category : Type := Transcriber | Synthesizer.

(** What [create] returns in a category. *)
Definition provider (C : category) : Type :=
  match C with
  | Transcriber => object STTClass
  | Synthesizer => object TTSClass
  end.

Definition create (C : category) (cls : ProviderFactory) (name : string)
    (config : gmap string value) : M world (provider C) :=
  match C with
  | Transcriber => ProviderFactory.create_stt cls name config
  | Synthesizer => ProviderFactory.create_tts cls name config
  end.

(** [name in table], for the table of the category. *)
Definition registered (C : category) (cls : ProviderFactory) (name : string)
  : bool :=
  match C with
  | Transcriber => bool_decide (is_Some (_stt_providers cls !! name))
  | Synthesizer => bool_decide (is_Some (_tts_providers cls !! name))
  end.

(** The message of the [ValueError] for a name that is not in the table. *)
Definition unknown_message (C : category) (name : string) : string :=
  match C with
  | Transcriber => "Unknown STT provider: " ++ name
  | Synthesizer => "Unknown TTS provider: " ++ name
  end.

(** The run of the constructor registered under [name] on a fresh
    object, if a class is registered under that name. *)
Definition constructor_run (C : category) (cls : ProviderFactory)
    (name : string) (config : gmap string value) (w : world)
  : option (result unit * (gmap string value * world)) :=
  match C with
  | Transcriber =>
      (fun c => STTProvider.__init__ c config (∅, w)) <$> _stt_providers cls !! name
  | Synthesizer =>
      (fun c => TTSProvider.__init__ c config (∅, w)) <$> _tts_providers cls !! name
  end.

Definition instance_attributes {C : category} : provider C -> gmap string value :=
  match C with
  | Transcriber => fun o => attributes_of o
  | Synthesizer => fun o => attributes_of o
  end.

(** The object is an instance of the class registered under [name]. *)
Definition instance_of {C : category} (cls : ProviderFactory) (name : string)
  : provider C -> Prop :=
  match C with
  | Transcriber => fun o => _stt_providers cls !! name = Some (class_of o)
  | Synthesizer => fun o => _tts_providers cls !! name = Some (class_of o)
  end.

(** Every attribute that the [__init__] of the class assigns is set. *)
Definition initialised {C : category} : provider C -> Prop :=
  match C with
  | Transcriber => fun o =>
      Forall (fun a => is_Some (attributes_of o !! a))
             (STTProvider.attributes (class_of o))
  | Synthesizer => fun o =>
      Forall (fun a => is_Some (attributes_of o !! a))
             (TTSProvider.attributes (class_of o))
  end.

(** [s] occurs in [t]. *)
Definition includes (s t : string) : Prop :=
  exists before after, t = before ++ s ++ after.

(** A method that raises whatever state it is run in. *)
Definition always_fails {A} (m : method A) : Prop :=
  forall st, exists e st', m st = (Raise e, st').

(** [assigns names m]: when [m] returns, every attribute that was set
    before is still set, and every attribute of [names] is set. *)
Definition assigns {A} (names : list string) (m : method A) : Prop :=
  forall st a st', m st = (Ok a, st') ->
    forall n, is_Some (st.1 !! n) \/ n ∈ names -> is_Some (st'.1 !! n).

(** A handler on a faster-whisper model and a Kokoro server, as the
    default configuration builds it. *)
Definition local_handler {env : environment} : VoiceHandler :=
  VoiceHandler.__init__
    (Object FasterWhisperSTT.class
       {[ "model" := VObj "faster_whisper.WhisperModel"
                       [("model_size_or_path", VStr "base");
                        ("device", VStr "cpu");
                        ("compute_type", VStr "int8")] ]})
    (Object KokoroTTS.class kokoro_defaults)
    None VNone.

(** A handler on a Whisper model and a Kokoro server. *)
Definition whisper_handler {env : environment} : VoiceHandler :=
  VoiceHandler.__init__
    (Object WhisperSTT.class
       {[ "model_name" := VStr "tiny";
          "model" := VObj "whisper.load_model" [("name", VStr "tiny")] ]})
    (Object KokoroTTS.class kokoro_defaults)
    None VNone.

(** The probe [ffmpeg -version] of [AudioProcessor.__init__] finds no
    program to start, or the program exits with a failure status. *)
Definition ffmpeg_missing {env : environment} (w : world) : Prop :=
  match run_process w ["ffmpeg"; "-version"] with
  | CannotStart e => exc_class e = FileNotFoundError
  | Exited returncode _ _ => returncode <> 0
  end.

(** The handler after a call into its synthesizer that left the
    attributes [a] on it. *)
Definition with_tts_attributes (self : VoiceHandler) (a : gmap string value)
  : VoiceHandler :=
  {| stt := stt self;
     tts := Object (class_of (tts self)) a;
     processor := processor self;
     defaults := defaults self |}.

(** The voice a request asks the backend for. *)
Definition request_voice (r : request) : option value :=
  match r with
  | HttpPost _ _ json _ => assoc "voice" json
  | OpenAISpeech _ kwargs => assoc "voice" kwargs
  | _ => None
  end.

(** The audio format a request asks the backend for. *)
Definition request_format (r : request) : option value :=
  match r with
  | HttpPost _ _ json _ => assoc "response_format" json
  | OpenAISpeech _ kwargs => assoc "response_format" kwargs
  | _ => None
  end.

(** The text a request asks the backend to speak. *)
Definition request_text (r : request) : option value :=
  match r with
  | HttpPost _ _ json _ =>
      match assoc "input" json with
      | Some v => Some v
      | None => assoc "text" json
      end
  | OpenAISpeech _ kwargs => assoc "input" kwargs
  | _ => None
  end.

(** The audio with which the backend answers the request [req] in the
    world [w], when it answers. *)
Definition backend_audio {env : environment} (w : world) (req : request)
  : option (list byte) :=
  match req with
  | HttpPost _ _ _ _ =>
      match http_send w req with
      | Ok reply => Some (content reply)
      | Raise _ => None
      end
  | OpenAISpeech _ _ =>
      match speech_create w req with
      | Ok audio => Some audio
      | Raise _ => None
      end
  | _ => None
  end.

(** What a run of [synthesize] from the state [st] may do: the
    attributes of the instance stay.  When it returns, one request
    carrying [text] went to the backend and the files differ at most at
    [output_file], which holds the audio of the reply.  When it raises,
    the files stay, unless it is the writing that failed: then the
    request went out, and [output_file] holds what was written of the
    audio of the reply before the failure. *)
Definition synthesize_footprint {env : environment} (text output_file : string)
    (st : gmap string value * world)
    (out : result unit * (gmap string value * world)) : Prop :=
  out.2.1 = st.1
  /\ match out.1 with
     | Raise _ =>
         files out.2.2 = files st.2
         \/ exists req audio n,
              sent out.2.2 = (sent st.2 ++ [req])%list
              /\ request_text req = Some (VStr text)
              /\ backend_audio st.2 req = Some audio
              /\ files out.2.2 = <[output_file := take n audio]> (files st.2)
     | Ok _ =>
         exists req audio,
           sent out.2.2 = (sent st.2 ++ [req])%list
           /\ request_text req = Some (VStr text)
           /\ backend_audio st.2 req = Some audio
           /\ files out.2.2 = <[output_file := audio]> (files st.2)
     end.

(** ** The rest of the code

    The functions of the five files that the sections above leave out.
    The classes are closed, so a method [C.m] is named [C_m] here. *)

(** *** audio_processor.py: [check_ffmpeg] and [AudioProcessor.cleanup] *)

(** [for x in l: body x] *)
Fixpoint for_each {S A} (l : list A) (body : A -> M S unit) : M S unit :=
  match l with
  | [] => ret tt
  | x :: l' => body x ;;; for_each l' body
  end.

Section Probe.
Context {env : environment}.

(** The module-level probe: as the one of [AudioProcessor.__init__],
    without the warning. *)
Definition check_ffmpeg : M world bool :=
  try_except_of [CalledProcessError; FileNotFoundError]
    (_ <- subprocess_run ["ffmpeg"; "-version"] true ;;
     ret true)
    (fun _ => ret false).

End Probe.

Section Cleanup.
Context {env : environment}.

(** [Path(directory).glob(pattern)]: the paths that match when the loop
    starts (the directory is listed once, before the first file is
    handed out), or the error of the scan. *)
Variable glob : world -> string -> string -> result (list string).

Definition path_glob (directory pattern : string) : M world (list string) :=
  fun w => (glob w directory pattern, w).

(** [pattern] is [None] or a string. *)
Definition AudioProcessor_cleanup (self : AudioProcessor)
    (pattern : option string) : M world unit :=
  try_except
    (if match pattern with
        | Some p => truthy (VStr p)
        | None => false
        end
     then
       found <- path_glob (temp_dir self) (default "" pattern) ;;
       for_each found (fun file =>
         unlink file ;;;
         logger "DEBUG" ("Cleaned: " ++ file))
     else
       let patterns := ["voice_*.wav"; "converted_*"; "response_*"] in
       for_each patterns (fun p =>
         found <- path_glob (temp_dir self) p ;;
         for_each found (fun file =>
           unlink file ;;;
           logger "DEBUG" ("Cleaned: " ++ file))))
    (fun e => logger "ERROR" ("Cleanup failed: " ++ exc_str e)).

End Cleanup.

(** *** voice_handler.py: [transcribe], [process_voice_message], [from_config] *)

(** [v[:n]].  (A dictionary takes the slice for a key, which it does not
    hold: slices are hashable from Python 3.12 on; earlier versions
    raise a [TypeError] here.) *)
Definition slice_to (n : nat) (v : value) : result value :=
  match v with
  | VStr s => Ok (VStr (take_chars n s))
  | VList l => Ok (VList (take n l))
  | VDict _ => Raise (Exc KeyError ("slice(None, " ++ pretty n ++ ", None)"))
  | _ => Raise (Exc TypeError ("'" ++ type_name v ++ "' object is not subscriptable"))
  end.

Section Handler.
Context {env : environment}.

Definition VoiceHandler_transcribe (audio_path : string)
  : M (VoiceHandler * world) value :=
  try_except
    (result <- VoiceHandler.call_stt
                 (fun c => STTProvider.transcribe c audio_path) ;;
     text <- of_result (subscript result "text") ;;
     preview <- of_result (slice_to 50 text) ;;
     io (logger "INFO" ("Transcribed: " ++ py_str preview ++ "...")) ;;;
     of_result (subscript result "text"))
    (fun e =>
       io (logger "ERROR" ("Transcription failed: " ++ exc_str e)) ;;;
       raise e).

Definition VoiceHandler_process_voice_message
    (input_audio output_audio platform : string)
  : M (VoiceHandler * world) value :=
  text <- VoiceHandler_transcribe input_audio ;;
  ret text.

(** [with open(path, 'r') as f:] handed to a parser that reads all of
    it: the bytes of the file. *)
Definition read_text (path : string) : M world (list byte) :=
  fun w => match files w !! path with
           | None => (Raise (Exc FileNotFoundError
                        ("[Errno 2] No such file or directory: '" ++ path ++ "'")), w)
           | Some data =>
               match open_error w path "r" with
               | Some e => (Raise e, w)
               | None => (Ok data, w)
               end
           end.

(** [v.copy()]: a method of dictionaries and lists. *)
Definition value_copy (v : value) : result value :=
  match v with
  | VDict d => Ok (VDict d)
  | VList l => Ok (VList l)
  | _ => Raise (Exc AttributeError
                  ("'" ++ type_name v ++ "' object has no attribute 'copy'"))
  end.

(** [v.pop(key)] for a string key: the value under the key and what is
    left of the dictionary. *)
Definition value_pop (v : value) (key : string)
  : result (value * list (string * value)) :=
  match v with
  | VDict d =>
      match assoc key d with
      | Some x => Ok (x, List.filter (fun kv => negb (String.eqb kv.1 key)) d)
      | None => Raise (Exc KeyError ("'" ++ key ++ "'"))
      end
  | VList _ =>
      Raise (Exc TypeError "'str' object cannot be interpreted as an integer")
  | _ => Raise (Exc AttributeError
                  ("'" ++ type_name v ++ "' object has no attribute 'pop'"))
  end.

(** [provider_name not in table] for a name read from a file: a list or
    a table cannot be hashed; any other value that is not a string is in
    no table, whose keys are strings. *)
Definition provider_key (kind : string) (provider_name : value) : result string :=
  match provider_name with
  | VStr s => Ok s
  | VList _ | VDict _ =>
      Raise (Exc TypeError ("unhashable type: '" ++ type_name provider_name ++ "'"))
  | _ => Raise (Exc ValueError
                  ("Unknown " ++ kind ++ " provider: " ++ py_str provider_name))
  end.

(** [toml.load(f)]: the parser, on the bytes of the file. *)
Variable toml_load : list byte -> result value.

(** [factory] is the state of the two tables at the time of the call. *)
Definition VoiceHandler_from_config (factory : ProviderFactory)
    (config_path : string) (audio_processor : option AudioProcessor)
  : M world VoiceHandler :=
  try_except_of [ImportError] (import_module "toml")
    (fun _ => raise (Exc ImportError
                       "toml not installed. Run: pip install tomli")) ;;;
  source <- read_text config_path ;;
  config <- of_result (toml_load source) ;;
  stt_section <- of_result (subscript config "stt") ;;
  stt_config <- of_result (value_copy stt_section) ;;
  stt_popped <- of_result (value_pop stt_config "provider") ;;
  stt_provider_name <- of_result (provider_key "STT" stt_popped.1) ;;
  stt <- ProviderFactory.create_stt factory stt_provider_name
           (list_to_map stt_popped.2) ;;
  tts_section <- of_result (subscript config "tts") ;;
  tts_config <- of_result (value_copy tts_section) ;;
  tts_popped <- of_result (value_pop tts_config "provider") ;;
  tts_provider_name <- of_result (provider_key "TTS" tts_popped.1) ;;
  tts <- ProviderFactory.create_tts factory tts_provider_name
           (list_to_map tts_popped.2) ;;
  defaults <- of_result (dict_get config "defaults" (VDict [])) ;;
  ret (VoiceHandler.__init__ stt tts audio_processor defaults).

End Handler.

(** *** The two helpers [quick_synthesize] and [quick_transcribe] *)

(** A method called on an object that the caller then drops. *)
Definition on_object {C A} (o : object C) (m : method A) : M world A :=
  fun w => let '(r, st) := m (attributes_of o, w) in (r, st.2).

Section Quick.
Context {env : environment}.

(** [base_url] is [None] when the caller leaves it out. *)
Definition quick_synthesize (text output_file : string)
    (base_url : option string) : M world unit :=
  let base_url := default "http://localhost:8880/v1" base_url in
  tts <- instantiate KokoroTTS.class KokoroTTS.__init__
           {[ "base_url" := VStr base_url ]} ;;
  on_object tts (KokoroTTS.synthesize text output_file ∅).

Definition quick_transcribe (audio_path : string) (model device : option string)
  : M world value :=
  let model := default "base" model in
  let device := default "cpu" device in
  stt <- instantiate FasterWhisperSTT.class FasterWhisperSTT.__init__
           {[ "model" := VStr model; "device" := VStr device ]} ;;
  result <- on_object stt (FasterWhisperSTT.transcribe audio_path) ;;
  of_result (subscript result "text").

End Quick.

(** *** The connection test with providers that may end the program

    [SystemExit] and [KeyboardInterrupt] derive from [BaseException]
    only: [except Exception] lets them pass.  A statement sequence in
    which a call may end this way runs in [E]. *)

Inductive exit : Type :=
  | SystemExit (code : value)
  | KeyboardInterrupt.

Inductive outcome (A : Type) : Type :=
  | Finished (r : result A)
  | Exits (x : exit).
Arguments Finished {A} r.
Arguments Exits {A} x.

Definition E (S A : Type) : Type := S -> outcome A * S.

(** A statement sequence that cannot end the program. *)
Definition lift {S A} (m : M S A) : E S A :=
  fun s => let '(r, s') := m s in (Finished r, s').

Definition bind_e {S A B} (m : E S A) (k : A -> E S B) : E S B :=
  fun s => match m s with
           | (Finished (Ok a), s') => k a s'
           | (Finished (Raise e), s') => (Finished (Raise e), s')
           | (Exits x, s') => (Exits x, s')
           end.

(** [try: body / except Exception as e: handler e] *)
Definition try_except_e {S A} (body : E S A) (handler : exn -> E S A) : E S A :=
  fun s => match body s with
           | (Finished (Raise e), s') => handler e s'
           | (Finished (Ok a), s') => (Finished (Ok a), s')
           | (Exits x, s') => (Exits x, s')
           end.

Definition io_e {T S A} (m : E S A) : E (T * S) A :=
  fun st => let '(r, s') := m st.2 in (r, (st.1, s')).

Definition with_local_e {L S A} (init : L) (body : E (L * S) A) : E S A :=
  fun s => let '(r, st) := body (init, s) in (r, st.2).

Notation "x <~ m ;; k" := (bind_e m (fun x => k))
  (at level 100, m at next level, right associativity) : py_scope.
Notation "m ;;~ k" := (bind_e m (fun _ => k))
  (at level 100, right associativity) : py_scope.

Section Exits.
Context {env : environment}.

(** [self.stt.transcribe] and [self.tts.synthesize], as methods that run
    on the attributes of [self.stt] and of [self.tts]. *)
Variable transcribe : string -> E (gmap string value * world) value.
Variable synthesize :
  string -> string -> gmap string value -> E (gmap string value * world) unit.

Definition call_stt_e {A} (m : E (gmap string value * world) A)
  : E (VoiceHandler * world) A :=
  fun st =>
    let self := st.1 in
    let '(r, st') := m (attributes_of (stt self), st.2) in
    (r, ({| stt := Object (class_of (stt self)) st'.1;
            tts := tts self;
            processor := processor self;
            defaults := defaults self |}, st'.2)).

Definition call_tts_e {A} (m : E (gmap string value * world) A)
  : E (VoiceHandler * world) A :=
  fun st =>
    let self := st.1 in
    let '(r, st') := m (attributes_of (tts self), st.2) in
    (r, ({| stt := stt self;
            tts := Object (class_of (tts self)) st'.1;
            processor := processor self;
            defaults := defaults self |}, st'.2)).

(** The two [try] statements and [test_connection], as in
    [VoiceHandler]. *)
Definition test_stt_e : E (gmap string bool * (VoiceHandler * world)) unit :=
  try_except_e
    (test_audio <~ lift (io (io (NamedTemporaryFile ".wav"))) ;;
     lift (io (io (wave_write test_audio 1 2 16000
                     (bytes_mul [x00; x00] 16000)))) ;;~
     _ <~ io_e (call_stt_e (transcribe test_audio)) ;;
     lift (set_local (<["stt" := true]>)) ;;~
     lift (io (io (unlink test_audio))))
    (fun e => lift (io (io (logger "ERROR" ("STT test failed: " ++ exc_str e))))).

Definition test_tts_e : E (gmap string bool * (VoiceHandler * world)) unit :=
  try_except_e
    (test_output <~ lift (io (io (NamedTemporaryFile ".ogg"))) ;;
     io_e (call_tts_e (synthesize "Test" test_output ∅)) ;;~
     lift (set_local (<["tts" := true]>)) ;;~
     lift (io (io (unlink test_output))))
    (fun e => lift (io (io (logger "ERROR" ("TTS test failed: " ++ exc_str e))))).

Definition test_connection_e : E (VoiceHandler * world) (gmap string bool) :=
  with_local_e ({[ "stt" := false; "tts" := false ]} : gmap string bool)
    (test_stt_e ;;~
     test_tts_e ;;~
     lift get_local).

(** How the call of [transcribe] ends in the first [try] statement run
    from [self] and [w]; [None] when the statement does not get that
    far, the temporary WAV file not having been written. *)
Definition stt_leg (self : VoiceHandler) (w : world) : option (outcome value) :=
  match NamedTemporaryFile ".wav" w with
  | (Ok test_audio, w1) =>
      match wave_write test_audio 1 2 16000 (bytes_mul [x00; x00] 16000) w1 with
      | (Ok _, w2) =>
          Some (transcribe test_audio (attributes_of (stt self), w2)).1
      | (Raise _, _) => None
      end
  | (Raise _, _) => None
  end.

(** How the call of [synthesize] ends in the second [try] statement run
    from [self] and [w]. *)
Definition tts_leg (self : VoiceHandler) (w : world) : option (outcome unit) :=
  match NamedTemporaryFile ".ogg" w with
  | (Ok test_output, w1) =>
      Some (synthesize "Test" test_output ∅ (attributes_of (tts self), w1)).1
  | (Raise _, _) => None
  end.

(** The handler and the world that the first [try] statement leaves. *)
Definition after_stt (self : VoiceHandler) (w : world) : VoiceHandler * world :=
  (test_stt_e ({[ "stt" := false; "tts" := false ]}, (self, w))).2.2.

End Exits.

(** The call was reached and returned. *)
Definition returned {A} (call : option (outcome A)) : bool :=
  match call with
  | Some (Finished (Ok _)) => true
  | _ => false
  end.

(** The methods of the classes of a handler, as providers that do not
    end the program. *)
Definition stt_of {env : environment} (self : VoiceHandler) (audio_path : string)
  : E (gmap string value * world) value :=
  lift (STTProvider.transcribe (class_of (stt self)) audio_path).

Definition tts_of {env : environment} (self : VoiceHandler)
    (text output_file : string) (kwargs : gmap string value)
  : E (gmap string value * world) unit :=
  lift (TTSProvider.synthesize (class_of (tts self)) text output_file kwargs).

(** A transcriber that ends the program, as [sys.exit(1)] does. *)
Definition exiting (audio_path : string)
  : E (gmap string value * world) value :=
  fun st => (Exits (SystemExit (VInt 1)), st).

(** *** More example worlds and environments *)

(** As [unreachable], with none of the libraries installed. *)
Definition nothing_installed : environment :=
  {| importable := fun _ => false;
     construct := fun _ _ _ => None;
     http_send := fun _ _ => Raise (Exc ConnectionError "Connection refused");
     speech_create := fun _ _ => Raise (Exc ConnectionError "Connection refused");
     library_call := fun _ _ => Raise (Exc ConnectionError "Connection refused");
     open_error := fun _ _ _ => None;
     write_error := fun _ _ _ => None;
     unlink_error := fun _ _ => None;
     run_process := fun _ _ =>
       CannotStart (Exc FileNotFoundError
                      "[Errno 2] No such file or directory: 'ffmpeg'");
     gettempdir := "/tmp";
     temp_candidate := fun n => pretty n |}.

(** A listing of two converted files, whatever is asked. *)
Definition two_converted (w : world) (directory pattern : string)
  : result (list string) :=
  Ok ["/tmp/converted_a.wav"; "/tmp/converted_b.wav"].

(** A world in which the second of them is all there is. *)
Definition second_only : world :=
  World {[ "/tmp/converted_b.wav" := [] ]} ∅ [] [] [].

(** A parser that reads [config] from whatever file it is given. *)
Definition parses_to (config : value) (source : list byte) : result value :=
  Ok config.

(** A world that holds a file [config.toml] and nothing else. *)
Definition with_config_file : world :=
  World {[ "config.toml" := [] ]} ∅ [] [] [].

(** A configuration that asks for Whisper and misspells the
    synthesizer. *)
Definition misspelt_config : value :=
  VDict [("stt", VDict [("provider", VStr "whisper")]);
         ("tts", VDict [("provider", VStr "kokorro")])].

(** A configuration for Whisper and a Kokoro server with a voice of its
    own. *)
Definition kokoro_config : value :=
  VDict [("stt", VDict [("provider", VStr "whisper")]);
         ("tts", VDict [("provider", VStr "kokoro");
                        ("voice", VStr "af_sky")])].

(** A configuration for Whisper and a Kokoro server that holds a string
    where the table of the defaults belongs. *)
Definition odd_config : value :=
  VDict [("stt", VDict [("provider", VStr "whisper")]);
         ("tts", VDict [("provider", VStr "kokoro")]);
         ("defaults", VStr "abc")].

(** A configuration for Whisper and a Kokoro server, nothing else. *)
Definition plain_config : value :=
  VDict [("stt", VDict [("provider", VStr "whisper")]);
         ("tts", VDict [("provider", VStr "kokoro")])].

(** The attributes of an [ElevenLabsTTS(api_key="key")]. *)
Definition elevenlabs_defaults : gmap string value :=
  {[ "api_key" := VStr "key";
     "voice_id" := VStr "default";
     "model" := VStr "eleven_multilingual_v2";
     "format" := VStr "mp3";
     "session" := VObj "requests.Session" [] ]}.

(** The reply of a server that lists one voice. *)
Definition one_voice : value :=
  VDict [("voices", VList [VDict [("voice_id", VStr "rachel");
                                  ("name", VStr "Rachel")]])].

(** As [replying 200 [x41; x42]], on a disk that is full after one more
    byte. *)
Definition disk_full : environment :=
  {| importable := fun _ => true;
     construct := fun _ _ _ => None;
     http_send := fun _ _ => Ok (Response 200 [x41; x42] None);
     speech_create := fun _ _ => Ok [x41; x42];
     library_call := fun _ _ => Ok (VDict [("text", VStr "")]);
     open_error := fun _ _ _ => None;
     write_error := fun _ _ _ =>
       Some (Exc OSError "[Errno 28] No space left on device", 1%nat);
     unlink_error := fun _ _ => None;
     run_process := fun _ _ =>
       CannotStart (Exc FileNotFoundError
                      "[Errno 2] No such file or directory: 'ffmpeg'");
     gettempdir := "/tmp";
     temp_candidate := fun n => pretty n |}.

(** As [with_ffmpeg], with an ffmpeg that fails on every input and
    writes the byte 0xFF, which is no UTF-8, to its standard error. *)
Definition garbling_ffmpeg : environment :=
  {| importable := fun _ => true;
     construct := fun _ _ _ => None;
     http_send := fun _ _ => Ok (Response 200 [] None);
     speech_create := fun _ _ => Ok [];
     library_call := fun _ _ => Ok (VDict [("text", VStr "")]);
     open_error := fun _ _ _ => None;
     write_error := fun _ _ _ => None;
     unlink_error := fun _ _ => None;
     run_process := fun w _ =>
       Exited 1 (String (ascii_of_nat 255) EmptyString) (files w);
     gettempdir := "/tmp";
     temp_candidate := fun n => pretty n |}.

(** The no-break space U+00A0. *)
Definition nbsp : string :=
  String (ascii_of_nat 194) (String (ascii_of_nat 160) EmptyString).

(** As [replying], with a model that answers every call with [answer]
    and ffmpeg installed. *)
Definition hearing (answer : value) : environment :=
  {| importable := fun _ => true;
     construct := fun _ _ _ => None;
     http_send := fun _ _ => Ok (Response 200 [] None);
     speech_create := fun _ _ => Ok [];
     library_call := fun _ _ => Ok answer;
     open_error := fun _ _ _ => None;
     write_error := fun _ _ _ => None;
     unlink_error := fun _ _ => None;
     run_process := fun w _ => Exited 0 "" (files w);
     gettempdir := "/tmp";
     temp_candidate := fun n => pretty n |}.

(** A faster-whisper model that hears nothing: no segment, and the
    information on the audio. *)
Definition loaded_model : environment :=
  hearing (VList [VList [];
                  VObj "TranscriptionInfo"
                    [("language", VStr "en");
                     ("language_probability", VFloat 1);
                     ("duration", VFloat 1)]]).

(** The letter U+00E9, two bytes in UTF-8, and [s * n]. *)
Definition e_acute : string :=
  String (ascii_of_nat 195) (String (ascii_of_nat 169) EmptyString).

Fixpoint str_mul (s : string) (n : nat) : string :=
  match n with
  | O => EmptyString
  | S n' => s ++ str_mul s n'
  end.

(** What a Whisper model answers that heard [hello] between a no-break
    space and a line end. *)
Definition padded_answer : value :=
  VDict [("text", VStr (nbsp ++ " hello" ++ nbsp ++ String (ascii_of_nat 10) ""));
         ("language", VStr "en")].

(** The same from a faster-whisper model: two segments, and the
    information on the audio. *)
Definition padded_segments : value :=
  VList [VList [VObj "Segment" [("text", VStr (nbsp ++ " hello"))];
                VObj "Segment" [("text", VStr ("world " ++ nbsp))]];
         VObj "TranscriptionInfo"
           [("language", VStr "en");
            ("language_probability", VFloat 1);
            ("duration", VFloat 1)]].

(** A configuration for Whisper and Qwen3. *)
Definition qwen3_config : value :=
  VDict [("stt", VDict [("provider", VStr "whisper")]);
         ("tts", VDict [("provider", VStr "qwen3")])].

(** *** Words for the statements *)

(** The world changed by removing files at most. *)
Definition only_deletes (w w' : world) : Prop :=
  files w' ⊆ files w
  /\ environ w' = environ w
  /\ sent w' = sent w
  /\ processes w' = processes w.

(** The bytes that the run of [cmd] wrote to its standard error, as the
    exception of a failed run holds them. *)
Definition captured_stderr {env : environment} (w : world) (cmd : list string)
  : string :=
  match run_process w cmd with
  | Exited _ stderr _ => stderr
  | CannotStart e => exc_stderr e
  end.

(** What a conversion that runs [cmd] to produce [target] may leave as
    [out]: one more process, [cmd]; nothing sent; the environment
    variables as they were; when it returns, [target], ffmpeg having
    exited with status 0 and left the files of [out]; when it raises,
    never a [CalledProcessError], but one of three: a [RuntimeError]
    after an ERROR record that is [error] and the captured stderr of the
    failed run, decoded; the [UnicodeDecodeError] of a failed run whose
    captured stderr is no UTF-8, with nothing logged; or the exception
    with which the process could not be started, nothing else having
    happened. *)
Definition conversion_outcome {env : environment} (cmd : list string)
    (target error : string) (w : world) (out : result string * world) : Prop :=
  processes out.2 = (processes w ++ [cmd])%list
  /\ sent out.2 = sent w
  /\ environ out.2 = environ w
  /\ match out.1 with
     | Ok p =>
         p = target
         /\ (exists stderr, run_process w cmd = Exited 0 stderr (files out.2))
     | Raise e =>
         exc_class e <> CalledProcessError
         /\ ((exc_class e = RuntimeError
              /\ exists detail,
                   decode (captured_stderr w cmd) = Ok detail
                   /\ log out.2
                      = (log w ++ [("ERROR", (error ++ detail)%string)])%list)
             \/ (exc_class e = UnicodeDecodeError
                 /\ decode (captured_stderr w cmd) = Raise e
                 /\ log out.2 = log w)
             \/ (run_process w cmd = CannotStart e
                 /\ out.2 = add_process cmd w))
     end.

(** The DEBUG records of [cleanup] for the files it removed. *)
Definition cleaned (removed : list string) : list (string * string) :=
  List.map (fun file => ("DEBUG", "Cleaned: " ++ file)) removed.

(** The file system [m] without the files [removed]. *)
Definition without (removed : list string) (m : gmap string (list byte))
  : gmap string (list byte) :=
  filter (fun kv => kv.1 ∉ removed) m.

(** The handler after a call into its transcriber that left the
    attributes [a] on it. *)
Definition with_stt_attributes (self : VoiceHandler) (a : gmap string value)
  : VoiceHandler :=
  {| stt := Object (class_of (stt self)) a;
     tts := tts self;
     processor := processor self;
     defaults := defaults self |}.

(** A run of a method from [st] to [st'] that only asked a backend: the
    attributes of the instance, the files, the environment variables and
    the processes are as before, and at most one call went out. *)
Definition only_asks (st st' : gmap string value * world) : Prop :=
  st'.1 = st.1
  /\ files st'.2 = files st.2
  /\ environ st'.2 = environ st.2
  /\ processes st'.2 = processes st.2
  /\ log st'.2 = log st.2
  /\ (sent st'.2 = sent st.2 \/ exists req, sent st'.2 = (sent st.2 ++ [req])%list).

(** The dictionary that [STTProvider.transcribe] promises. *)
Definition transcription (v : value) : Prop :=
  exists text language language_probability duration,
    v = VDict [("text", text);
               ("language", language);
               ("language_probability", language_probability);
               ("duration", duration)].

(** Every name that some constructor of the two provider modules takes
    as a parameter. *)
Definition constructor_parameters : list string :=
  ["self"; "base_url"; "voice"; "format"; "model_path"; "device"; "api_key";
   "model"; "voice_id"; "language"; "compute_type"].

(** [d] without its entry [provider], as keyword arguments. *)
Definition options (d : list (string * value)) : gmap string value :=
  list_to_map (List.filter (fun kv => negb (String.eqb kv.1 "provider")) d).

(** The file at [config_path] can be read and parses to [config]. *)
Definition parsed {env : environment} (toml_load : list byte -> result value)
    (w : world) (config_path : string) (config : value) : Prop :=
  importable "toml" = true
  /\ exists source,
       files w !! config_path = Some source
       /\ open_error w config_path "r" = None
       /\ toml_load source = Ok config.

(** The section [section_name] of [config] is a table that names the
    provider [provider_name]; [fields] are its entries. *)
Definition configured (config : value) (section_name provider_name : string)
    (fields : list (string * value)) : Prop :=
  subscript config section_name = Ok (VDict fields)
  /\ assoc "provider" fields = Some (VStr provider_name).

(** The entries that the reply [data] of a voice server lists under
    [voices]. *)
Definition listed_voices (data : value) : result (list value) :=
  match dict_get data "voices" (VList []) with
  | Ok voices => iterate voices
  | Raise e => Raise e
  end.

(** The bytes start with a white space character; [sp2] and [sp3]
    recognise those of two and of three bytes. *)
Definition space_front (sp2 : ascii -> ascii -> bool)
    (sp3 : ascii -> ascii -> ascii -> bool) (l : list ascii) : bool :=
  match l with
  | [] => false
  | c1 :: l1 =>
      is_space c1
      || match l1 with
         | [] => false
         | c2 :: l2 =>
             sp2 c1 c2
             || match l2 with
                | [] => false
                | c3 :: _ => sp3 c1 c2 c3
                end
         end
  end.

(** No white space character, of ASCII or beyond, at either end of
    [s]. *)
Definition trimmed (s : string) : Prop :=
  space_front is_space2 is_space3 (list_ascii_of_string s) = false
  /\ space_front is_space2_back is_space3_back
       (List.rev (list_ascii_of_string s)) = false.

(** [s] holds no slash: a file name, not a path. *)
Definition is_file_name (s : string) : Prop :=
  Forall (fun c => c <> "/"%char) (list_ascii_of_string s).

(** * Properties *)

(** ** The example instances are what the constructors build *)

Example kokoro_defaults_constructed :
  create Synthesizer (loaded (env := unreachable)) "kokoro" ∅ empty_world
  = (Ok (Object (KokoroTTS.class (env := unreachable)) kokoro_defaults),
     empty_world).
Proof. reflexivity. Qed.

Example local_handler_constructed :
  create Transcriber (loaded (env := unreachable)) "faster-whisper"
    {[ "model" := VStr "base"; "device" := VStr "cpu" ]} empty_world
  = (Ok (stt (local_handler (env := unreachable))), empty_world).
Proof. reflexivity. Qed.

Example whisper_handler_constructed :
  create Transcriber (loaded (env := replying 200 [] None)) "whisper" ∅
    empty_world
  = (Ok (stt (whisper_handler (env := replying 200 [] None))),
     World ∅ {[ "PYTHONIOENCODING" := "utf-8"; "KMP_DUPLICATE_LIB_OK" := "TRUE" ]}
           [] [] []).
Proof. reflexivity. Qed.

(** With a model that transcribes and a server that answers 200, both
    legs of the connection test succeed and the two temporary files are
    gone afterwards. *)
Example test_connection_both_up :
  let out := VoiceHandler.test_connection (env := replying 200 [] None)
               (whisper_handler (env := replying 200 [] None), empty_world) in
  out.1 = Ok {[ "stt" := true; "tts" := true ]}
  /\ files out.2.2 = ∅
  /\ log out.2.2 = [].
Proof. vm_compute. repeat split; reflexivity. Qed.

Example qwen3_is_never_constructed :
  create Synthesizer (loaded (env := unreachable)) "qwen3" ∅ empty_world
  = (Raise (Exc NotImplementedError
              "Qwen3 TTS implementation pending model release"),
     empty_world).
Proof. reflexivity. Qed.

Example openai_needs_its_key :
  create Synthesizer (loaded (env := unreachable)) "openai" ∅ empty_world
  = (Raise (Exc TypeError
              "OpenAITTS.__init__() missing 1 required positional argument: 'api_key'"),
     empty_world).
Proof. reflexivity. Qed.


(** ** Running the monad *)

Section MonadLaws.
Context {S A B : Type}.

Lemma bind_Ok (m : M S A) (k : A -> M S B) s a s1 :
  m s = (Ok a, s1) -> bind m k s = k a s1.
Proof. intros H. unfold bind. by rewrite H. Qed.

Lemma bind_Raise (m : M S A) (k : A -> M S B) s e s1 :
  m s = (Raise e, s1) -> bind m k s = (Raise e, s1).
Proof. intros H. unfold bind. by rewrite H. Qed.

Lemma bind_Ok_inv (m : M S A) (k : A -> M S B) s b s2 :
  bind m k s = (Ok b, s2) ->
  exists a s1, m s = (Ok a, s1) /\ k a s1 = (Ok b, s2).
Proof.
  unfold bind. destruct (m s) as [[a|e] s1]; intros H; [eauto | discriminate].
Qed.

Lemma try_except_Ok (body : M S A) handler s a s1 :
  body s = (Ok a, s1) -> try_except body handler s = (Ok a, s1).
Proof. intros H. unfold try_except. by rewrite H. Qed.

Lemma try_except_Raise (body : M S A) handler s e s1 :
  body s = (Raise e, s1) -> try_except body handler s = handler e s1.
Proof. intros H. unfold try_except. by rewrite H. Qed.
End MonadLaws.

(** ** What a constructor assigns *)

Lemma assigns_bind {A B} n1 n2 (m : method A) (k : A -> method B) :
  assigns n1 m -> (forall a, assigns n2 (k a)) -> assigns (n1 ++ n2) (bind m k).
Proof.
  intros Hm Hk st b st' Hrun n Hn.
  apply bind_Ok_inv in Hrun as (a & s1 & Hrun1 & Hrun2).
  eapply Hk; [exact Hrun2|].
  destruct Hn as [Hn|Hn].
  - left. eapply Hm; eauto.
  - apply elem_of_app in Hn as [Hn|Hn]; [left; eapply Hm; eauto | by right].
Qed.

Lemma assigns_setattr n v : assigns [n] (setattr n v).
Proof.
  intros st a st' Hrun n' Hn. unfold setattr in Hrun. simplify_eq. simpl.
  destruct (decide (n = n')) as [->|Hne].
  - rewrite lookup_insert_eq. eauto.
  - rewrite lookup_insert_ne by done. destruct Hn as [Hset|Hin]; [done|].
    apply list_elem_of_singleton in Hin. congruence.
Qed.

Lemma assigns_io {A} (m : M world A) : assigns [] (io m).
Proof.
  intros st a st' Hrun n Hn. unfold io in Hrun.
  destruct (m st.2) as [r w']. simplify_eq. simpl.
  destruct Hn as [Hn|Hn]; [done|set_solver].
Qed.

Lemma assigns_of_result {A} (r : result A) : assigns [] (of_result r).
Proof.
  intros st a st' Hrun n Hn. unfold of_result in Hrun. simplify_eq.
  destruct Hn as [Hn|Hn]; [done|set_solver].
Qed.

Lemma assigns_raise {A} e : assigns [] (raise (A := A) e).
Proof. intros st a st' Hrun. discriminate. Qed.

(** A guard that turns the caught exception into another one. *)
Lemma assigns_guard {A} classes (body : method A) e' names :
  assigns names body ->
  assigns names (try_except_of classes body (fun _ => raise e')).
Proof.
  intros Hb st a st' Hrun n Hn. unfold try_except_of in Hrun.
  destruct (body st) as [[a0|e] s1] eqn:E.
  - simplify_eq. eapply Hb; eauto.
  - case_bool_decide; discriminate.
Qed.

Lemma assigns_if {A} (b : bool) (m1 m2 : method A) names :
  assigns names m1 -> assigns names m2 ->
  assigns names (if b then m1 else m2).
Proof. by destruct b. Qed.

Lemma assigns_Forall {A} names (m : method A) w a st (wanted : list string) :
  assigns names m -> m (∅, w) = (Ok a, st) -> wanted ⊆ names ->
  Forall (fun n => is_Some (st.1 !! n)) wanted.
Proof.
  intros Hm Hrun Hsub. apply Forall_forall. intros n Hn.
  eapply Hm; [exact Hrun|]. right. by apply Hsub.
Qed.

Ltac assigns_steps :=
  repeat first
    [ eapply assigns_bind; [|intros ?]
    | eapply assigns_guard
    | eapply assigns_if
    | eapply assigns_setattr
    | eapply assigns_io
    | eapply assigns_of_result
    | eapply assigns_raise ].

Section Constructors.
Context {env : environment}.

Lemma KokoroTTS_init_assigns config :
  exists names, assigns names (KokoroTTS.__init__ config)
    /\ TTSProvider.attributes KokoroTTS.class ⊆ names.
Proof.
  eexists. split; [unfold KokoroTTS.__init__; assigns_steps|].
  simpl. set_solver.
Qed.

Lemma OpenAITTS_init_assigns config :
  exists names, assigns names (OpenAITTS.__init__ config)
    /\ TTSProvider.attributes OpenAITTS.class ⊆ names.
Proof.
  eexists. split; [unfold OpenAITTS.__init__; assigns_steps|].
  simpl. set_solver.
Qed.

Lemma ElevenLabsTTS_init_assigns config :
  exists names, assigns names (ElevenLabsTTS.__init__ config)
    /\ TTSProvider.attributes ElevenLabsTTS.class ⊆ names.
Proof.
  eexists. split; [unfold ElevenLabsTTS.__init__; assigns_steps|].
  simpl. set_solver.
Qed.

(** [Qwen3TTS.__init__] never returns: it ends in a [raise]. *)
Lemma Qwen3TTS_init_raises config st :
  exists e st', Qwen3TTS.__init__ config st = (Raise e, st').
Proof.
  unfold Qwen3TTS.__init__, bind, of_result, setattr, raise.
  destruct (bind_args _ _ _); eauto.
Qed.

Lemma WhisperSTT_init_assigns config :
  exists names, assigns names (WhisperSTT.__init__ config)
    /\ STTProvider.attributes WhisperSTT.class ⊆ names.
Proof.
  eexists. split; [unfold WhisperSTT.__init__; assigns_steps|].
  simpl. set_solver.
Qed.

Lemma FasterWhisperSTT_init_assigns config :
  exists names, assigns names (FasterWhisperSTT.__init__ config)
    /\ STTProvider.attributes FasterWhisperSTT.class ⊆ names.
Proof.
  eexists. split; [unfold FasterWhisperSTT.__init__; assigns_steps|].
  simpl. set_solver.
Qed.

Lemma OpenAIWhisperSTT_init_assigns config :
  exists names, assigns names (OpenAIWhisperSTT.__init__ config)
    /\ STTProvider.attributes OpenAIWhisperSTT.class ⊆ names.
Proof.
  eexists. split; [unfold OpenAIWhisperSTT.__init__; assigns_steps|].
  simpl. set_solver.
Qed.

Lemma GoogleCloudSTT_init_assigns config :
  exists names, assigns names (GoogleCloudSTT.__init__ config)
    /\ STTProvider.attributes GoogleCloudSTT.class ⊆ names.
Proof.
  eexists. split; [unfold GoogleCloudSTT.__init__; assigns_steps|].
  simpl. set_solver.
Qed.

End Constructors.

(** ** The tables after import *)

Section Loaded.
Context {env : environment}.

Lemma loaded_stt name cls :
  _stt_providers loaded !! name = Some cls ->
  cls = WhisperSTT.class \/ cls = FasterWhisperSTT.class
  \/ cls = OpenAIWhisperSTT.class \/ cls = GoogleCloudSTT.class.
Proof.
  unfold loaded, tts_providers_module, stt_providers_module. simpl.
  rewrite !lookup_insert, lookup_empty.
  repeat case_decide; intros ?; simplify_eq; tauto.
Qed.

Lemma loaded_tts name cls :
  _tts_providers loaded !! name = Some cls ->
  cls = KokoroTTS.class \/ cls = Qwen3TTS.class
  \/ cls = OpenAITTS.class \/ cls = ElevenLabsTTS.class.
Proof.
  unfold loaded, tts_providers_module, stt_providers_module. simpl.
  rewrite !lookup_insert, lookup_empty.
  repeat case_decide; intros ?; simplify_eq; tauto.
Qed.

(** A constructor of a loaded class that returns has assigned every
    attribute of the class. *)
Lemma loaded_stt_init name cls config w u st :
  _stt_providers loaded !! name = Some cls ->
  STTProvider.__init__ cls config (∅, w) = (Ok u, st) ->
  Forall (fun a => is_Some (st.1 !! a)) (STTProvider.attributes cls).
Proof.
  intros Hcls Hrun.
  destruct (loaded_stt _ _ Hcls) as [-> | [-> | [-> | ->]]].
  - destruct (WhisperSTT_init_assigns config) as (names & Ha & Hsub).
    simpl in Hrun. eapply assigns_Forall; [exact Ha | exact Hrun | exact Hsub].
  - destruct (FasterWhisperSTT_init_assigns config) as (names & Ha & Hsub).
    simpl in Hrun. eapply assigns_Forall; [exact Ha | exact Hrun | exact Hsub].
  - destruct (OpenAIWhisperSTT_init_assigns config) as (names & Ha & Hsub).
    simpl in Hrun. eapply assigns_Forall; [exact Ha | exact Hrun | exact Hsub].
  - destruct (GoogleCloudSTT_init_assigns config) as (names & Ha & Hsub).
    simpl in Hrun. eapply assigns_Forall; [exact Ha | exact Hrun | exact Hsub].
Qed.

Lemma loaded_tts_init name cls config w u st :
  _tts_providers loaded !! name = Some cls ->
  TTSProvider.__init__ cls config (∅, w) = (Ok u, st) ->
  Forall (fun a => is_Some (st.1 !! a)) (TTSProvider.attributes cls).
Proof.
  intros Hcls Hrun.
  destruct (loaded_tts _ _ Hcls) as [-> | [-> | [-> | ->]]].
  - destruct (KokoroTTS_init_assigns config) as (names & Ha & Hsub).
    simpl in Hrun. eapply assigns_Forall; [exact Ha | exact Hrun | exact Hsub].
  - destruct (Qwen3TTS_init_raises config (∅, w)) as (e & st' & Hraise).
    simpl in Hrun. congruence.
  - destruct (OpenAITTS_init_assigns config) as (names & Ha & Hsub).
    simpl in Hrun. eapply assigns_Forall; [exact Ha | exact Hrun | exact Hsub].
  - destruct (ElevenLabsTTS_init_assigns config) as (names & Ha & Hsub).
    simpl in Hrun. eapply assigns_Forall; [exact Ha | exact Hrun | exact Hsub].
Qed.

End Loaded.

(** ** C1: [create] returns a constructed instance or raises *)

(** C1.  For the tables as the two provider modules load them, and for
    every category, name, configuration and world, [create] does one of
    three things, decided by the run of the registered constructor.
    With no class under the name it raises the [ValueError] of an unknown
    provider and leaves the world as it was.  When the constructor raises,
    [create] raises that same exception at once, in the world the
    constructor left, and hands back no object.  When the constructor
    returns, [create] returns an instance of the registered class whose
    attribute dictionary is the one the constructor left, in which every
    attribute that the class's [__init__] assigns is set. *)
Theorem create_initialised_or_raises {env : environment}
    (C : category) (name : string) (config : gmap string value) (w : world) :
  match constructor_run C loaded name config w with
  | None =>
      create C loaded name config w
      = (Raise (Exc ValueError (unknown_message C name)), w)
  | Some (Raise e, st) =>
      create C loaded name config w = (Raise e, st.2)
  | Some (Ok _, st) =>
      exists o : provider C,
        create C loaded name config w = (Ok o, st.2)
        /\ instance_attributes o = st.1
        /\ instance_of loaded name o
        /\ initialised o
  end.
Proof.
  destruct C; unfold constructor_run, create, ProviderFactory.create_stt,
    ProviderFactory.create_tts, instantiate.
  - destruct (_stt_providers loaded !! name) as [cls|] eqn:Hcls; simpl; [|done].
    destruct (STTProvider.__init__ cls config (∅, w)) as [[u|e] [self w']] eqn:Hrun;
      simpl; [|done].
    exists (Object cls self). repeat split; try done.
    simpl. exact (loaded_stt_init _ _ _ _ _ _ Hcls Hrun).
  - destruct (_tts_providers loaded !! name) as [cls|] eqn:Hcls; simpl; [|done].
    destruct (TTSProvider.__init__ cls config (∅, w)) as [[u|e] [self w']] eqn:Hrun;
      simpl; [|done].
    exists (Object cls self). repeat split; try done.
    simpl. exact (loaded_tts_init _ _ _ _ _ _ Hcls Hrun).
Qed.

(** ** C2: an unknown name *)

Lemma append_empty_r (s : string) : s ++ "" = s.
Proof.
  induction s as [|c s IH]; [reflexivity|].
  change (String c (s ++ "") = String c s). by rewrite IH.
Qed.

Lemma includes_suffix (prefix s : string) : includes s (prefix ++ s).
Proof. exists prefix, "". by rewrite append_empty_r. Qed.

(** C2.  For every category, every state of the tables, every name that
    is not in the table of the category and every configuration,
    [create] raises [ValueError] (the code's unknown-provider error)
    without touching the world, and the message of the error contains the
    name that was offered. *)
Theorem create_unknown_provider_fails
    (C : category) (cls : ProviderFactory) (name : string)
    (config : gmap string value) (w : world)
    (Habsent : registered C cls name = false) :
  exists e,
    create C cls name config w = (Raise e, w)
    /\ exc_class e = ValueError
    /\ includes name (exc_str e).
Proof.
  exists (Exc ValueError (unknown_message C name)).
  split; [|split; [done|]].
  - destruct C; simpl in *; unfold ProviderFactory.create_stt,
      ProviderFactory.create_tts.
    + apply bool_decide_eq_false in Habsent.
      destruct (_stt_providers cls !! name) eqn:E; [|done].
      exfalso. apply Habsent. eauto.
    + apply bool_decide_eq_false in Habsent.
      destruct (_tts_providers cls !! name) eqn:E; [|done].
      exfalso. apply Habsent. eauto.
  - destruct C; simpl.
    + apply (includes_suffix "Unknown STT provider: ").
    + apply (includes_suffix "Unknown TTS provider: ").
Qed.

Lemma create_unknown_provider_fails_witness :
  registered Transcriber (loaded (env := unreachable)) "does-not-exist" = false
  /\ exists e,
       create Transcriber (loaded (env := unreachable)) "does-not-exist" ∅
              empty_world
       = (Raise e, empty_world)
       /\ exc_class e = ValueError
       /\ includes "does-not-exist" (exc_str e).
Proof.
  split; [vm_compute; reflexivity|].
  apply create_unknown_provider_fails. vm_compute; reflexivity.
Defined.

(** ** C8: streaming transcription *)




(** The declared result is an [AsyncGenerator]; a caller that iterates
    over the result with [async for] gets a [TypeError], the body not
    having run. *)
Lemma transcribe_stream_is_no_generator
    (cls : STTClass) (audio_stream : value)
    (self : gmap string value) (w : world) :
  exists msg,
    async_for (STTProvider.transcribe_stream cls audio_stream) (self, w)
    = (Raise (Exc TypeError msg), (self, w)).
Proof. unfold async_for, raise. eauto. Qed.

(** ** C9: registration *)

(** C9.  Registering under a name that is already taken replaces the
    entry (the last writer wins, and registering the same class twice is
    registering it once); after a registration [create] under that name
    runs the constructor registered last and every other name is served
    as before; and the two tables are apart: a registration in one
    category changes nothing of what [create] does in the other, for the
    same name or any other. *)
Theorem register_overwrites_and_tables_independent
    (cls : ProviderFactory) (name other : string)
    (c1 c2 : STTClass) (t1 t2 : TTSClass)
    (config : gmap string value) :
  let reg_stt := ProviderFactory.register_stt in
  let reg_tts := ProviderFactory.register_tts in
  reg_stt name c2 (reg_stt name c1 cls) = reg_stt name c2 cls
  /\ reg_tts name t2 (reg_tts name t1 cls) = reg_tts name t2 cls
  /\ reg_stt name c1 (reg_stt name c1 cls) = reg_stt name c1 cls
  /\ reg_tts name t1 (reg_tts name t1 cls) = reg_tts name t1 cls
  /\ create Transcriber (reg_stt name c2 (reg_stt name c1 cls)) other config
     = (if decide (other = name)
        then instantiate c2 (STTProvider.__init__ c2) config
        else create Transcriber cls other config)
  /\ create Synthesizer (reg_tts name t2 (reg_tts name t1 cls)) other config
     = (if decide (other = name)
        then instantiate t2 (TTSProvider.__init__ t2) config
        else create Synthesizer cls other config)
  /\ create Synthesizer (reg_stt name c1 cls) other config
     = create Synthesizer cls other config
  /\ create Transcriber (reg_tts name t1 cls) other config
     = create Transcriber cls other config
  /\ _tts_providers (reg_stt name c1 cls) = _tts_providers cls
  /\ _stt_providers (reg_tts name t1 cls) = _stt_providers cls.
Proof.
  unfold ProviderFactory.register_stt, ProviderFactory.register_tts; simpl.
  repeat split.
  - by rewrite insert_insert_eq.
  - by rewrite insert_insert_eq.
  - by rewrite insert_insert_eq.
  - by rewrite insert_insert_eq.
  - unfold ProviderFactory.create_stt; simpl.
    rewrite insert_insert_eq, lookup_insert.
    destruct (decide (name = other)) as [->|Hne].
    + by rewrite decide_True.
    + by rewrite decide_False by congruence.
  - unfold ProviderFactory.create_tts; simpl.
    rewrite insert_insert_eq, lookup_insert.
    destruct (decide (name = other)) as [->|Hne].
    + by rewrite decide_True.
    + by rewrite decide_False by congruence.
Qed.

(** ** C3: the connection test *)

Lemma results_of_legs (b1 b2 : bool) :
  (if b2 then <["tts" := true]> else id)
    ((if b1 then <["stt" := true]> else id)
       ({[ "stt" := false; "tts" := false ]} : gmap string bool))
  = {[ "stt" := b1; "tts" := b2 ]}.
Proof. destruct b1, b2; vm_compute; reflexivity. Qed.

Section ConnectionTest.
Context {env : environment}.

(** The first [try] statement always completes; it sets
    [results["stt"]] only if [transcribe] returned. *)
Lemma test_stt_run (results : gmap string bool) (self : VoiceHandler) (w : world) :
  exists (b : bool) self' w',
    VoiceHandler.test_stt (results, (self, w))
    = (Ok tt, ((if b then <["stt" := true]> else id) results, (self', w')))
    /\ class_of (tts self') = class_of (tts self)
    /\ ((forall path,
            always_fails (STTProvider.transcribe (class_of (stt self)) path))
        -> b = false).
Proof.
  unfold VoiceHandler.test_stt, try_except, bind, io, set_local,
    VoiceHandler.call_stt, logger, modify. simpl.
  destruct (NamedTemporaryFile ".wav" w) as [[p|e] w1]; simpl;
    [|exists false; eauto 10].
  destruct (wave_write p 1 2 16000 _ w1) as [[[]|e] w2]; simpl;
    [|exists false; eauto 10].
  destruct (STTProvider.transcribe (class_of (stt self)) p
              (attributes_of (stt self), w2)) as [[v|e] [a3 w3]] eqn:E; simpl;
    [|exists false; eauto 10].
  assert (Hcontra : (forall path,
            always_fails (STTProvider.transcribe (class_of (stt self)) path))
          -> true = false).
  { intros Hf. destruct (Hf p (attributes_of (stt self), w2)) as (e & st' & Hr).
    congruence. }
  destruct (unlink p w3) as [[[]|e] w4]; simpl; exists true; eauto 10.
Qed.

(** The second [try] statement always completes; it sets
    [results["tts"]] only if [synthesize] returned. *)
Lemma test_tts_run (results : gmap string bool) (self : VoiceHandler) (w : world) :
  exists (b : bool) self' w',
    VoiceHandler.test_tts (results, (self, w))
    = (Ok tt, ((if b then <["tts" := true]> else id) results, (self', w')))
    /\ ((forall text output_file kwargs,
            always_fails (TTSProvider.synthesize (class_of (tts self))
                            text output_file kwargs))
        -> b = false).
Proof.
  unfold VoiceHandler.test_tts, try_except, bind, io, set_local,
    VoiceHandler.call_tts, logger, modify. simpl.
  destruct (NamedTemporaryFile ".ogg" w) as [[p|e] w1]; simpl;
    [|exists false; eauto 10].
  destruct (TTSProvider.synthesize (class_of (tts self)) "Test" p ∅
              (attributes_of (tts self), w1)) as [[v|e] [a2 w2]] eqn:E; simpl;
    [|exists false; eauto 10].
  assert (Hcontra : (forall text output_file kwargs,
            always_fails (TTSProvider.synthesize (class_of (tts self))
                            text output_file kwargs))
          -> true = false).
  { intros Hf.
    destruct (Hf "Test" p ∅ (attributes_of (tts self), w1)) as (e & st' & Hr).
    congruence. }
  destruct (unlink p w2) as [[[]|e] w3]; simpl; exists true; eauto 10.
Qed.

End ConnectionTest.

Section ProvidersThatMayExit.
Context {env : environment}.
Variable transcribe : string -> E (gmap string value * world) value.
Variable synthesize :
  string -> string -> gmap string value -> E (gmap string value * world) unit.

(** The first [try] statement raises nothing: it ends the program when
    [transcribe] does, and otherwise completes, having set
    [results["stt"]] if and only if [transcribe] returned. *)
Lemma test_stt_e_run (results : gmap string bool) (self : VoiceHandler) (w : world) :
  match stt_leg transcribe self w with
  | Some (Exits x) =>
      (test_stt_e transcribe (results, (self, w))).1 = Exits x
  | call =>
      exists self' w',
        test_stt_e transcribe (results, (self, w))
        = (Finished (Ok tt),
           ((if returned call then <["stt" := true]> else id) results,
            (self', w')))
        /\ tts self' = tts self
  end.
Proof.
  unfold stt_leg, test_stt_e, try_except_e, bind_e, lift, io_e, io, set_local,
    call_stt_e, logger, modify. simpl.
  destruct (NamedTemporaryFile ".wav" w) as [[p|e] w1]; simpl; [|eauto 10].
  destruct (wave_write p 1 2 16000 _ w1) as [[[]|e] w2]; simpl; [|eauto 10].
  destruct (transcribe p (attributes_of (stt self), w2))
    as [[[v|e]|x] [a3 w3]]; simpl; [|eauto 10|reflexivity].
  destruct (unlink p w3) as [[[]|e] w4]; simpl; eauto 10.
Qed.

Lemma test_tts_e_run (results : gmap string bool) (self : VoiceHandler) (w : world) :
  match tts_leg synthesize self w with
  | Some (Exits x) =>
      (test_tts_e synthesize (results, (self, w))).1 = Exits x
  | call =>
      exists self' w',
        test_tts_e synthesize (results, (self, w))
        = (Finished (Ok tt),
           ((if returned call then <["tts" := true]> else id) results,
            (self', w')))
  end.
Proof.
  unfold tts_leg, test_tts_e, try_except_e, bind_e, lift, io_e, io, set_local,
    call_tts_e, logger, modify. simpl.
  destruct (NamedTemporaryFile ".ogg" w) as [[p|e] w1]; simpl; [|eauto 10].
  destruct (synthesize "Test" p ∅ (attributes_of (tts self), w1))
    as [[[v|e]|x] [a3 w3]]; simpl; [|eauto 10|reflexivity].
  destruct (unlink p w3) as [[[]|e] w4]; simpl; eauto 10.
Qed.

End ProvidersThatMayExit.

(** [test_connection] raises nothing.  It ends the program when a
    provider does; otherwise it returns the dictionary of the two legs. *)
Lemma test_connection_e_run {env : environment}
    (transcribe : string -> E (gmap string value * world) value)
    (synthesize :
       string -> string -> gmap string value -> E (gmap string value * world) unit)
    (self : VoiceHandler) (w : world) :
  let first := stt_leg transcribe self w in
  let second :=
    tts_leg synthesize (after_stt transcribe self w).1
      (after_stt transcribe self w).2 in
  (test_connection_e transcribe synthesize (self, w)).1
  = match first, second with
    | Some (Exits x), _ => Exits x
    | _, Some (Exits x) => Exits x
    | _, _ =>
        Finished (Ok {[ "stt" := returned first; "tts" := returned second ]})
    end.
Proof.
  intros first second. subst first second.
  unfold test_connection_e, with_local_e, after_stt.
  pose proof (test_stt_e_run transcribe
                {[ "stt" := false; "tts" := false ]} self w) as H1.
  unfold bind_e at 1.
  destruct (stt_leg transcribe self w) as [[r1|x1]|] eqn:E1;
    [| destruct (test_stt_e transcribe _) as [[r|x] s]; simpl in *; subst;
       congruence |];
    destruct H1 as (self1 & w1 & -> & _); cbn [fst snd];
    unfold bind_e at 1;
    match goal with
    | |- context [test_tts_e synthesize (?R, _)] =>
        pose proof (test_tts_e_run synthesize R self1 w1) as H2
    end;
    (destruct (tts_leg synthesize self1 w1) as [[r2|x2]|] eqn:E2;
     [| destruct (test_tts_e synthesize _) as [[r|x] s]; simpl in *; subst;
        try destruct r1; congruence |];
     destruct H2 as (self2 & w2 & ->); unfold lift, get_local; cbn [fst snd];
     rewrite results_of_legs; by try destruct r1).
Qed.

(** With the methods of the classes of the handler for providers, the
    connection test is [VoiceHandler.test_connection]. *)
Lemma test_stt_e_lift {env : environment} (self : VoiceHandler)
    (st : gmap string bool * (VoiceHandler * world)) :
  class_of (stt st.2.1) = class_of (stt self) ->
  test_stt_e (stt_of self) st = lift VoiceHandler.test_stt st.
Proof.
  destruct st as [results [self0 w]]. simpl. intros Hcls.
  unfold stt_of.
  unfold test_stt_e, VoiceHandler.test_stt, try_except_e, try_except, bind_e,
    bind, lift, io_e, io, set_local, call_stt_e, VoiceHandler.call_stt,
    logger, modify. rewrite <- Hcls. simpl.
  destruct (NamedTemporaryFile ".wav" w) as [[p|e] w1]; simpl; [|reflexivity].
  destruct (wave_write p 1 2 16000 _ w1) as [[[]|e] w2]; simpl; [|reflexivity].
  destruct (STTProvider.transcribe (class_of (stt self0)) p _)
    as [[v|e] [a3 w3]]; simpl; [|reflexivity].
  destruct (unlink p w3) as [[[]|e] w4]; reflexivity.
Qed.

Lemma test_tts_e_lift {env : environment} (self : VoiceHandler)
    (st : gmap string bool * (VoiceHandler * world)) :
  class_of (tts st.2.1) = class_of (tts self) ->
  test_tts_e (tts_of self) st = lift VoiceHandler.test_tts st.
Proof.
  destruct st as [results [self0 w]]. simpl. intros Hcls.
  unfold tts_of.
  unfold test_tts_e, VoiceHandler.test_tts, try_except_e, try_except, bind_e,
    bind, lift, io_e, io, set_local, call_tts_e, VoiceHandler.call_tts,
    logger, modify. rewrite <- Hcls. simpl.
  destruct (NamedTemporaryFile ".ogg" w) as [[p|e] w1]; simpl; [|reflexivity].
  destruct (TTSProvider.synthesize (class_of (tts self0)) "Test" p ∅ _)
    as [[v|e] [a3 w3]]; simpl; [|reflexivity].
  destruct (unlink p w3) as [[[]|e] w4]; reflexivity.
Qed.

Lemma test_stt_keeps_tts {env : environment}
    (st : gmap string bool * (VoiceHandler * world)) :
  tts (VoiceHandler.test_stt st).2.2.1 = tts st.2.1.
Proof.
  destruct st as [results [self w]].
  unfold VoiceHandler.test_stt, try_except, bind, io, set_local,
    VoiceHandler.call_stt, logger, modify. simpl.
  destruct (NamedTemporaryFile ".wav" w) as [[p|e] w1]; simpl; [|reflexivity].
  destruct (wave_write p 1 2 16000 _ w1) as [[[]|e] w2]; simpl; [|reflexivity].
  destruct (STTProvider.transcribe (class_of (stt self)) p _)
    as [[v|e] [a3 w3]]; simpl; [|reflexivity].
  destruct (unlink p w3) as [[[]|e] w4]; reflexivity.
Qed.

Lemma test_connection_e_lift {env : environment} (self : VoiceHandler) (w : world) :
  test_connection_e (stt_of self) (tts_of self) (self, w)
  = lift VoiceHandler.test_connection (self, w).
Proof.
  unfold test_connection_e, VoiceHandler.test_connection, with_local_e,
    with_local, bind_e, bind.
  rewrite test_stt_e_lift by reflexivity.
  pose proof (test_stt_keeps_tts
                ({[ "stt" := false; "tts" := false ]}, (self, w))) as Htts.
  unfold lift.
  destruct (VoiceHandler.test_stt _) as [[[]|e] st1]; [|reflexivity].
  rewrite test_tts_e_lift by (simpl in Htts; by rewrite Htts).
  unfold lift.
  destruct (VoiceHandler.test_tts st1) as [[[]|e] st2]; reflexivity.
Qed.




(** ** C6: conversion without ffmpeg *)

(** C6.  When the probe at construction finds no ffmpeg, the constructor
    returns a processor whose [ffmpeg_available] is false; from then on,
    in every environment (the flag is read, the probe is not run again),
    for every input path, platform, output path and world,
    [convert_for_platform] returns the input path and leaves the world
    as it was, and [convert_for_stt] raises [RuntimeError] (the code's
    tool-unavailable error) after logging, having started no process. *)
Theorem missing_ffmpeg_degrades_platform_and_fails_stt
    {env0 : environment} (temp_dir : option string) (w0 : world)
    (Hmissing : ffmpeg_missing (env := env0) w0) :
  exists self w0',
    AudioProcessor.__init__ (env := env0) temp_dir w0 = (Ok self, w0')
    /\ ffmpeg_available self = false
    /\ forall (env : environment) (input_path platform : string)
              (output_path : option string) (w : world),
         AudioProcessor.convert_for_platform (env := env) self input_path
           platform output_path w
         = (Ok input_path, w)
         /\ AudioProcessor.convert_for_stt (env := env) self input_path
              output_path w
            = (Raise (Exc RuntimeError "FFmpeg required for audio conversion"),
               add_log "ERROR" "FFmpeg not available for conversion" w).
Proof.
  assert (Hrun : exists w0',
             AudioProcessor.__init__ (env := env0) temp_dir w0
             = (Ok {| temp_dir := match temp_dir with
                                  | Some d => if String.eqb d "" then gettempdir else d
                                  | None => gettempdir
                                  end;
                      ffmpeg_available := false |}, w0')).
  { unfold ffmpeg_missing in Hmissing.
    unfold AudioProcessor.__init__, bind, try_except_of, subprocess_run, ret,
      logger, modify.
    destruct (run_process w0 ["ffmpeg"; "-version"]) as [e|rc err fs].
    - eexists. rewrite Hmissing. rewrite bool_decide_true by set_solver.
      reflexivity.
    - assert (Hrc : (rc =? 0) = false) by (by apply Z.eqb_neq).
      eexists. rewrite Hrc. reflexivity. }
  destruct Hrun as (w0' & Hrun).
  do 2 eexists. split; [exact Hrun|]. split; [reflexivity|].
  intros env input_path platform output_path w. split; reflexivity.
Qed.

Lemma missing_ffmpeg_degrades_platform_and_fails_stt_witness :
  ffmpeg_missing (env := unreachable) empty_world
  /\ exists self w0',
       AudioProcessor.__init__ (env := unreachable) None empty_world
       = (Ok self, w0')
       /\ ffmpeg_available self = false
       /\ forall (env : environment) (input_path platform : string)
                 (output_path : option string) (w : world),
            AudioProcessor.convert_for_platform (env := env) self input_path
              platform output_path w
            = (Ok input_path, w)
            /\ AudioProcessor.convert_for_stt (env := env) self input_path
                 output_path w
               = (Raise (Exc RuntimeError "FFmpeg required for audio conversion"),
                  add_log "ERROR" "FFmpeg not available for conversion" w).
Proof.
  split; [reflexivity|].
  apply (missing_ffmpeg_degrades_platform_and_fails_stt (env0 := unreachable)).
  reflexivity.
Defined.

(** ** C7: listing the voices *)

Section Voices.
Context {env : environment}.

(** The handler's [get_voices] in terms of the adapter's. *)
Lemma VoiceHandler_get_voices_run (self : VoiceHandler) (w : world) :
  VoiceHandler.get_voices (self, w)
  = match TTSProvider.get_voices (class_of (tts self))
            (attributes_of (tts self), w) with
    | (Ok voices, st') => (Ok voices, (with_tts_attributes self st'.1, st'.2))
    | (Raise e, st') =>
        (Ok (VList []),
         (with_tts_attributes self st'.1,
          add_log "ERROR" ("Failed to get voices: " ++ exc_str e) st'.2))
    end.
Proof.
  unfold VoiceHandler.get_voices, try_except, VoiceHandler.call_tts,
    with_tts_attributes. simpl.
  destruct (TTSProvider.get_voices _ _) as [[v|e] [a w']]; reflexivity.
Qed.

Lemma KokoroTTS_get_voices_unreachable (self : gmap string value) (w : world)
    (base_url : value) (e : exn) :
  is_Some (self !! "session") ->
  self !! "base_url" = Some base_url ->
  http_send w (HttpGet (py_str base_url ++ "/audio/voices") []) = Raise e ->
  KokoroTTS.get_voices (self, w)
  = (Raise e, (self, add_sent (HttpGet (py_str base_url ++ "/audio/voices") []) w)).
Proof.
  intros [session Hsession] Hbase Hdown.
  unfold KokoroTTS.get_voices, bind, getattr, io, http. simpl.
  rewrite Hsession. simpl. rewrite Hbase. simpl. by rewrite Hdown.
Qed.

Lemma ElevenLabsTTS_get_voices_unreachable (self : gmap string value) (w : world)
    (api_key : value) (e : exn) :
  is_Some (self !! "session") ->
  self !! "api_key" = Some api_key ->
  http_send w (HttpGet "https://api.elevenlabs.io/v1/voices"
                 [("xi-api-key", api_key)]) = Raise e ->
  ElevenLabsTTS.get_voices (self, w)
  = (Raise e, (self, add_sent (HttpGet "https://api.elevenlabs.io/v1/voices"
                                 [("xi-api-key", api_key)]) w)).
Proof.
  intros [session Hsession] Hkey Hdown.
  unfold ElevenLabsTTS.get_voices, bind, getattr, io, http. simpl.
  rewrite Hsession. simpl. rewrite Hkey. simpl. by rewrite Hdown.
Qed.

End Voices.



(** ** Running [synthesize] *)

Lemma not_extended {A} (l : list A) (x : A) : l <> (l ++ [x])%list.
Proof.
  intros H. apply (f_equal length) in H. rewrite length_app in H. simpl in H. lia.
Qed.

Lemma last_inj {A} (l : list A) (x y : A) : (l ++ [x] = l ++ [y])%list -> x = y.
Proof. intros H. apply app_inv_head in H. congruence. Qed.

Lemma raise_for_status_error (r : response) :
  400 <= status_code r < 600 ->
  exists e, raise_for_status r = Raise e /\ exc_class e = HTTPError.
Proof.
  intros [Hlo Hhi]. unfold raise_for_status.
  destruct (Z.leb_spec 400 (status_code r)); [|lia].
  destruct (Z.ltb_spec (status_code r) 500); simpl; [eauto|].
  destruct (Z.leb_spec 500 (status_code r)); [|lia].
  destruct (Z.ltb_spec (status_code r) 600); simpl; [eauto|lia].
Qed.

Section Synthesize.
Context {env : environment}.

(** The request that [KokoroTTS.synthesize] posts, and what follows. *)
Lemma KokoroTTS_synthesize_run (self : gmap string value) (w : world)
    (text output_file : string) (kwargs : gmap string value)
    (voice format session base_url : value) :
  bind_call "KokoroTTS.synthesize" ["text"; "output_file"] kwargs = Ok tt ->
  self !! "voice" = Some voice ->
  self !! "format" = Some format ->
  self !! "session" = Some session ->
  self !! "base_url" = Some base_url ->
  let req := HttpPost (py_str base_url ++ "/audio/speech") []
               [("model", VStr "kokoro");
                ("input", VStr text);
                ("voice", kwargs_get kwargs "voice" voice);
                ("response_format", kwargs_get kwargs "format" format)] false in
  KokoroTTS.synthesize text output_file kwargs (self, w)
  = match http_send w req with
    | Raise e => (Raise e, (self, add_sent req w))
    | Ok response =>
        match raise_for_status response with
        | Raise e => (Raise e, (self, add_sent req w))
        | Ok _ =>
            match open_error (add_sent req w) output_file "wb" with
            | Some e => (Raise e, (self, add_sent req w))
            | None =>
                match write_error (add_sent req w) output_file
                        (content response) with
                | Some (e, n) =>
                    (Raise e,
                     (self,
                      set_files
                        (<[output_file := take n (content response)]> (files w))
                        (add_sent req w)))
                | None =>
                    (Ok tt,
                     (self,
                      set_files (<[output_file := content response]> (files w))
                        (add_sent req w)))
                end
            end
        end
    end.
Proof.
  intros Hbind Hvoice Hformat Hsession Hbase req.
  unfold KokoroTTS.synthesize, bind, getattr, io, http, of_result, write_file.
  rewrite Hbind. simpl. rewrite Hvoice. simpl. rewrite Hformat. simpl.
  rewrite Hsession. simpl. rewrite Hbase. simpl. fold req.
  destruct (http_send w req) as [response|e]; simpl; [|done].
  destruct (raise_for_status response) as [[]|e]; simpl; [|done].
  destruct (open_error (add_sent req w) output_file "wb"); [done|].
  by destruct (write_error _ output_file _) as [[e n]|].
Qed.

(** A run of [KokoroTTS.synthesize] that sends anything has bound its
    arguments and found its attributes. *)
Lemma KokoroTTS_synthesize_cases text output_file kwargs self w :
  sent (KokoroTTS.synthesize text output_file kwargs (self, w)).2.2 = sent w
  \/ exists voice format session base_url,
       bind_call "KokoroTTS.synthesize" ["text"; "output_file"] kwargs = Ok tt
       /\ self !! "voice" = Some voice /\ self !! "format" = Some format
       /\ self !! "session" = Some session /\ self !! "base_url" = Some base_url.
Proof.
  unfold KokoroTTS.synthesize, bind, getattr, io, http, of_result, write_file.
  destruct (bind_call _ _ kwargs) as [[]|e]; simpl; [|by left].
  destruct (self !! "voice"); simpl; [|by left].
  destruct (self !! "format"); simpl; [|by left].
  destruct (self !! "session"); simpl; [|by left].
  destruct (self !! "base_url"); simpl; [|by left].
  right. eauto 20.
Qed.

Lemma KokoroTTS_request text output_file kwargs self w req :
  sent (KokoroTTS.synthesize text output_file kwargs (self, w)).2.2
  = (sent w ++ [req])%list ->
  exists voice format session base_url,
    bind_call "KokoroTTS.synthesize" ["text"; "output_file"] kwargs = Ok tt
    /\ self !! "voice" = Some voice /\ self !! "format" = Some format
    /\ self !! "session" = Some session /\ self !! "base_url" = Some base_url
    /\ req = HttpPost (py_str base_url ++ "/audio/speech") []
               [("model", VStr "kokoro");
                ("input", VStr text);
                ("voice", kwargs_get kwargs "voice" voice);
                ("response_format", kwargs_get kwargs "format" format)] false.
Proof.
  intros Hsent.
  destruct (KokoroTTS_synthesize_cases text output_file kwargs self w)
    as [Hnone | (voice & format & session & base_url & Hb & Hv & Hf & Hs & Hu)].
  { rewrite Hnone in Hsent. by apply not_extended in Hsent. }
  exists voice, format, session, base_url. repeat (split; [done|]).
  rewrite (KokoroTTS_synthesize_run self w text output_file kwargs
             voice format session base_url) in Hsent by done.
  destruct (http_send w _) as [response|e]; simpl in Hsent;
    [|by apply last_inj in Hsent].
  destruct (raise_for_status response) as [[]|e]; simpl in Hsent;
    [|by apply last_inj in Hsent].
  destruct (open_error _ output_file "wb"); simpl in Hsent;
    [by apply last_inj in Hsent|].
  destruct (write_error _ output_file _) as [[e n]|]; simpl in Hsent;
    by apply last_inj in Hsent.
Qed.

(** The request that [ElevenLabsTTS.synthesize] posts, and what follows. *)
Lemma ElevenLabsTTS_synthesize_run (self : gmap string value) (w : world)
    (text output_file : string) (kwargs : gmap string value)
    (voice_id session api_key model format : value) :
  bind_call "ElevenLabsTTS.synthesize" ["text"; "output_file"] kwargs = Ok tt ->
  self !! "voice_id" = Some voice_id ->
  self !! "session" = Some session ->
  self !! "api_key" = Some api_key ->
  self !! "model" = Some model ->
  self !! "format" = Some format ->
  let req := HttpPost
               ("https://api.elevenlabs.io/v1/text-to-speech/"
                  ++ py_str (kwargs_get kwargs "voice_id" voice_id))
               [("xi-api-key", api_key);
                ("Content-Type", VStr "application/json")]
               [("text", VStr text);
                ("model_id", model);
                ("output_format", format)] false in
  ElevenLabsTTS.synthesize text output_file kwargs (self, w)
  = match http_send w req with
    | Raise e => (Raise e, (self, add_sent req w))
    | Ok response =>
        match raise_for_status response with
        | Raise e => (Raise e, (self, add_sent req w))
        | Ok _ =>
            match open_error (add_sent req w) output_file "wb" with
            | Some e => (Raise e, (self, add_sent req w))
            | None =>
                match write_error (add_sent req w) output_file
                        (content response) with
                | Some (e, n) =>
                    (Raise e,
                     (self,
                      set_files
                        (<[output_file := take n (content response)]> (files w))
                        (add_sent req w)))
                | None =>
                    (Ok tt,
                     (self,
                      set_files (<[output_file := content response]> (files w))
                        (add_sent req w)))
                end
            end
        end
    end.
Proof.
  intros Hbind Hvoice Hsession Hkey Hmodel Hformat req.
  unfold ElevenLabsTTS.synthesize, bind, getattr, io, http, of_result, write_file.
  rewrite Hbind. simpl. rewrite Hvoice. simpl. rewrite Hsession. simpl.
  rewrite Hkey. simpl. rewrite Hmodel. simpl. rewrite Hformat. simpl. fold req.
  destruct (http_send w req) as [response|e]; simpl; [|done].
  destruct (raise_for_status response) as [[]|e]; simpl; [|done].
  destruct (open_error (add_sent req w) output_file "wb"); [done|].
  by destruct (write_error _ output_file _) as [[e n]|].
Qed.

Lemma ElevenLabsTTS_synthesize_cases text output_file kwargs self w :
  sent (ElevenLabsTTS.synthesize text output_file kwargs (self, w)).2.2 = sent w
  \/ exists voice_id session api_key model format,
       bind_call "ElevenLabsTTS.synthesize" ["text"; "output_file"] kwargs = Ok tt
       /\ self !! "voice_id" = Some voice_id /\ self !! "session" = Some session
       /\ self !! "api_key" = Some api_key /\ self !! "model" = Some model
       /\ self !! "format" = Some format.
Proof.
  unfold ElevenLabsTTS.synthesize, bind, getattr, io, http, of_result, write_file.
  destruct (bind_call _ _ kwargs) as [[]|e]; simpl; [|by left].
  destruct (self !! "voice_id"); simpl; [|by left].
  destruct (self !! "session"); simpl; [|by left].
  destruct (self !! "api_key"); simpl; [|by left].
  destruct (self !! "model"); simpl; [|by left].
  destruct (self !! "format"); simpl; [|by left].
  right. eauto 20.
Qed.

Lemma ElevenLabsTTS_request text output_file kwargs self w req :
  sent (ElevenLabsTTS.synthesize text output_file kwargs (self, w)).2.2
  = (sent w ++ [req])%list ->
  exists voice_id session api_key model format,
    bind_call "ElevenLabsTTS.synthesize" ["text"; "output_file"] kwargs = Ok tt
    /\ self !! "voice_id" = Some voice_id /\ self !! "session" = Some session
    /\ self !! "api_key" = Some api_key /\ self !! "model" = Some model
    /\ self !! "format" = Some format
    /\ req = HttpPost
               ("https://api.elevenlabs.io/v1/text-to-speech/"
                  ++ py_str (kwargs_get kwargs "voice_id" voice_id))
               [("xi-api-key", api_key);
                ("Content-Type", VStr "application/json")]
               [("text", VStr text);
                ("model_id", model);
                ("output_format", format)] false.
Proof.
  intros Hsent.
  destruct (ElevenLabsTTS_synthesize_cases text output_file kwargs self w)
    as [Hnone | (voice_id & session & api_key & model & format
                 & Hb & Hv & Hs & Hk & Hm & Hf)].
  { rewrite Hnone in Hsent. by apply not_extended in Hsent. }
  exists voice_id, session, api_key, model, format. repeat (split; [done|]).
  rewrite (ElevenLabsTTS_synthesize_run self w text output_file kwargs
             voice_id session api_key model format) in Hsent by done.
  destruct (http_send w _) as [response|e]; simpl in Hsent;
    [|by apply last_inj in Hsent].
  destruct (raise_for_status response) as [[]|e]; simpl in Hsent;
    [|by apply last_inj in Hsent].
  destruct (open_error _ output_file "wb"); simpl in Hsent;
    [by apply last_inj in Hsent|].
  destruct (write_error _ output_file _) as [[e n]|]; simpl in Hsent;
    by apply last_inj in Hsent.
Qed.

(** The call that [OpenAITTS.synthesize] makes, and what follows. *)
Lemma OpenAITTS_synthesize_run (self : gmap string value) (w : world)
    (text output_file : string) (kwargs : gmap string value)
    (voice model format client : value) :
  bind_call "OpenAITTS.synthesize" ["text"; "output_file"] kwargs = Ok tt ->
  self !! "voice" = Some voice ->
  self !! "model" = Some model ->
  self !! "format" = Some format ->
  self !! "client" = Some client ->
  let req := OpenAISpeech client
               [("model", kwargs_get kwargs "model" model);
                ("voice", kwargs_get kwargs "voice" voice);
                ("input", VStr text);
                ("response_format", kwargs_get kwargs "format" format)] in
  OpenAITTS.synthesize text output_file kwargs (self, w)
  = match speech_create w req with
    | Raise e => (Raise e, (self, add_sent req w))
    | Ok audio =>
        match open_error (add_sent req w) output_file "wb" with
        | Some e => (Raise e, (self, add_sent req w))
        | None =>
            match write_error (add_sent req w) output_file audio with
            | Some (e, n) =>
                (Raise e,
                 (self, set_files (<[output_file := take n audio]> (files w))
                                  (add_sent req w)))
            | None =>
                (Ok tt,
                 (self, set_files (<[output_file := audio]> (files w))
                                  (add_sent req w)))
            end
        end
    end.
Proof.
  intros Hbind Hvoice Hmodel Hformat Hclient req.
  unfold OpenAITTS.synthesize, bind, getattr, io, speech, of_result, write_file.
  rewrite Hbind. simpl. rewrite Hvoice. simpl. rewrite Hmodel. simpl.
  rewrite Hformat. simpl. rewrite Hclient. simpl. fold req.
  destruct (speech_create w req) as [audio|e]; simpl; [|done].
  destruct (open_error (add_sent req w) output_file "wb"); [done|].
  by destruct (write_error _ output_file _) as [[e n]|].
Qed.

Lemma OpenAITTS_synthesize_cases text output_file kwargs self w :
  sent (OpenAITTS.synthesize text output_file kwargs (self, w)).2.2 = sent w
  \/ exists voice model format client,
       bind_call "OpenAITTS.synthesize" ["text"; "output_file"] kwargs = Ok tt
       /\ self !! "voice" = Some voice /\ self !! "model" = Some model
       /\ self !! "format" = Some format /\ self !! "client" = Some client.
Proof.
  unfold OpenAITTS.synthesize, bind, getattr, io, speech, of_result, write_file.
  destruct (bind_call _ _ kwargs) as [[]|e]; simpl; [|by left].
  destruct (self !! "voice"); simpl; [|by left].
  destruct (self !! "model"); simpl; [|by left].
  destruct (self !! "format"); simpl; [|by left].
  destruct (self !! "client"); simpl; [|by left].
  right. eauto 20.
Qed.

Lemma OpenAITTS_request text output_file kwargs self w req :
  sent (OpenAITTS.synthesize text output_file kwargs (self, w)).2.2
  = (sent w ++ [req])%list ->
  exists voice model format client,
    bind_call "OpenAITTS.synthesize" ["text"; "output_file"] kwargs = Ok tt
    /\ self !! "voice" = Some voice /\ self !! "model" = Some model
    /\ self !! "format" = Some format /\ self !! "client" = Some client
    /\ req = OpenAISpeech client
               [("model", kwargs_get kwargs "model" model);
                ("voice", kwargs_get kwargs "voice" voice);
                ("input", VStr text);
                ("response_format", kwargs_get kwargs "format" format)].
Proof.
  intros Hsent.
  destruct (OpenAITTS_synthesize_cases text output_file kwargs self w)
    as [Hnone | (voice & model & format & client & Hb & Hv & Hm & Hf & Hc)].
  { rewrite Hnone in Hsent. by apply not_extended in Hsent. }
  exists voice, model, format, client. repeat (split; [done|]).
  rewrite (OpenAITTS_synthesize_run self w text output_file kwargs
             voice model format client) in Hsent by done.
  destruct (speech_create w _) as [audio|e]; simpl in Hsent;
    [|by apply last_inj in Hsent].
  destruct (open_error _ output_file "wb"); simpl in Hsent;
    [by apply last_inj in Hsent|].
  destruct (write_error _ output_file _) as [[e n]|]; simpl in Hsent;
    by apply last_inj in Hsent.
Qed.

(** *** The footprint of a run *)

Lemma KokoroTTS_footprint text output_file kwargs st :
  synthesize_footprint text output_file st
    (KokoroTTS.synthesize text output_file kwargs st).
Proof.
  destruct st as [self w].
  unfold synthesize_footprint, KokoroTTS.synthesize, bind, getattr, io, http,
    of_result, write_file.
  destruct (bind_call _ _ kwargs) as [[]|e]; simpl; [|by auto].
  destruct (self !! "voice"); simpl; [|by auto].
  destruct (self !! "format"); simpl; [|by auto].
  destruct (self !! "session"); simpl; [|by auto].
  destruct (self !! "base_url"); simpl; [|by auto].
  destruct (http_send w _) as [response|e] eqn:Hsend; simpl; [|by auto].
  destruct (raise_for_status response) as [[]|e]; simpl; [|by auto].
  destruct (open_error _ output_file "wb"); simpl; [by auto|].
  destruct (write_error _ output_file _) as [[e n]|]; simpl;
    (split; [done|]); [right; eexists _, _, n | eexists _, _];
    unfold backend_audio; rewrite Hsend; done.
Qed.

Lemma ElevenLabsTTS_footprint text output_file kwargs st :
  synthesize_footprint text output_file st
    (ElevenLabsTTS.synthesize text output_file kwargs st).
Proof.
  destruct st as [self w].
  unfold synthesize_footprint, ElevenLabsTTS.synthesize, bind, getattr, io, http,
    of_result, write_file.
  destruct (bind_call _ _ kwargs) as [[]|e]; simpl; [|by auto].
  destruct (self !! "voice_id"); simpl; [|by auto].
  destruct (self !! "session"); simpl; [|by auto].
  destruct (self !! "api_key"); simpl; [|by auto].
  destruct (self !! "model"); simpl; [|by auto].
  destruct (self !! "format"); simpl; [|by auto].
  destruct (http_send w _) as [response|e] eqn:Hsend; simpl; [|by auto].
  destruct (raise_for_status response) as [[]|e]; simpl; [|by auto].
  destruct (open_error _ output_file "wb"); simpl; [by auto|].
  destruct (write_error _ output_file _) as [[e n]|]; simpl;
    (split; [done|]); [right; eexists _, _, n | eexists _, _];
    unfold backend_audio; rewrite Hsend; done.
Qed.

Lemma OpenAITTS_footprint text output_file kwargs st :
  synthesize_footprint text output_file st
    (OpenAITTS.synthesize text output_file kwargs st).
Proof.
  destruct st as [self w].
  unfold synthesize_footprint, OpenAITTS.synthesize, bind, getattr, io, speech,
    of_result, write_file.
  destruct (bind_call _ _ kwargs) as [[]|e]; simpl; [|by auto].
  destruct (self !! "voice"); simpl; [|by auto].
  destruct (self !! "model"); simpl; [|by auto].
  destruct (self !! "format"); simpl; [|by auto].
  destruct (self !! "client"); simpl; [|by auto].
  destruct (speech_create w _) as [audio|e] eqn:Hsend; simpl; [|by auto].
  destruct (open_error _ output_file "wb"); simpl; [by auto|].
  destruct (write_error _ output_file _) as [[e n]|]; simpl;
    (split; [done|]); [right; eexists _, _, n | eexists _, _];
    unfold backend_audio; rewrite Hsend; done.
Qed.

Lemma Qwen3TTS_footprint text output_file kwargs st :
  synthesize_footprint text output_file st
    (Qwen3TTS.synthesize text output_file kwargs st).
Proof.
  destruct st as [self w].
  unfold synthesize_footprint, Qwen3TTS.synthesize, bind, of_result, raise.
  destruct (bind_call _ _ kwargs) as [[]|e]; simpl; by auto.
Qed.

Lemma loaded_footprint name cls text output_file kwargs st :
  _tts_providers loaded !! name = Some cls ->
  synthesize_footprint text output_file st
    (TTSProvider.synthesize cls text output_file kwargs st).
Proof.
  intros Hcls. destruct (loaded_tts _ _ Hcls) as [-> | [-> | [-> | ->]]]; simpl.
  - apply KokoroTTS_footprint.
  - apply Qwen3TTS_footprint.
  - apply OpenAITTS_footprint.
  - apply ElevenLabsTTS_footprint.
Qed.

End Synthesize.

(** ** C4: empty text *)



(** On a disk that is full after one byte, the call raises and leaves
    the first byte of the audio at the output path. *)
Lemma failed_write_leaves_a_prefix :
  let out := KokoroTTS.synthesize (env := disk_full)
               "" "out.ogg" ∅ (kokoro_defaults, empty_world) in
  out.1 = Raise (Exc OSError "[Errno 28] No space left on device")
  /\ files empty_world !! "out.ogg" = None
  /\ files out.2.2 !! "out.ogg" = Some [x41].
Proof. vm_compute. repeat split; reflexivity. Qed.


(** ** C10: a failure status writes nothing *)

(** C10, as the code has it.  For the two adapters that post over HTTP
    (Kokoro and ElevenLabs), for every run of [synthesize] in which a
    request went out and the backend answered it with a client-error or
    server-error status (400 to 599, the statuses [raise_for_status]
    rejects), the run raises [HTTPError], the attributes of the instance
    are as before, and the file system is as before: the output file is
    neither created nor modified. *)
Theorem http_error_status_writes_nothing {env : environment}
    (name : string) (cls : TTSClass) (text output_file : string)
    (kwargs self : gmap string value) (w : world)
    (req : request) (reply : response)
    (Hname : name = "kokoro" \/ name = "elevenlabs")
    (Hcls : _tts_providers loaded !! name = Some cls)
    (Hsent : sent (TTSProvider.synthesize cls text output_file kwargs (self, w)).2.2
             = (sent w ++ [req])%list)
    (Hreply : http_send w req = Ok reply)
    (Hstatus : 400 <= status_code reply < 600) :
  let out := TTSProvider.synthesize cls text output_file kwargs (self, w) in
  (exists e, out.1 = Raise e /\ exc_class e = HTTPError)
  /\ out.2.1 = self
  /\ files out.2.2 = files w.
Proof.
  destruct (raise_for_status_error reply Hstatus) as (e & Hraise & Hclass).
  destruct Hname as [-> | ->].
  - assert (cls = KokoroTTS.class) as ->.
    { revert Hcls. unfold loaded, tts_providers_module, stt_providers_module.
      simpl. rewrite !lookup_insert. simpl. congruence. }
    simpl in *.
    destruct (KokoroTTS_request _ _ _ _ _ _ Hsent)
      as (voice & format & session & base_url & Hbind & Hv & Hf & Hs & Hb & ->).
    rewrite (KokoroTTS_synthesize_run self w text output_file kwargs
               voice format session base_url) by done.
    rewrite Hreply, Hraise. simpl. eauto.
  - assert (cls = ElevenLabsTTS.class) as ->.
    { revert Hcls. unfold loaded, tts_providers_module, stt_providers_module.
      simpl. rewrite !lookup_insert. simpl. congruence. }
    simpl in *.
    destruct (ElevenLabsTTS_request _ _ _ _ _ _ Hsent)
      as (voice_id & session & api_key & model & format
          & Hbind & Hv & Hs & Hk & Hm & Hf & ->).
    rewrite (ElevenLabsTTS_synthesize_run self w text output_file kwargs
               voice_id session api_key model format) by done.
    rewrite Hreply, Hraise. simpl. eauto.
Qed.

Lemma http_error_status_writes_nothing_witness :
  let env := replying 503 [x41] None in
  let out := TTSProvider.synthesize (KokoroTTS.class (env := env))
               "hello" "out.ogg" ∅ (kokoro_defaults, empty_world) in
  (exists e, out.1 = Raise e /\ exc_class e = HTTPError)
  /\ out.2.1 = kokoro_defaults
  /\ files out.2.2 = files empty_world.
Proof.
  intros env.
  apply (http_error_status_writes_nothing (env := env) "kokoro"
           KokoroTTS.class "hello" "out.ogg" ∅ kokoro_defaults empty_world
           hello_request (Response 503 [x41] None)).
  - left; reflexivity.
  - reflexivity.
  - vm_compute; reflexivity.
  - reflexivity.
  - simpl; lia.
Defined.

(** The claim fails at a status that is neither a success nor an error
    for [raise_for_status]: the reply 304 is not a 2xx status, and still
    [synthesize] returns normally and writes its body to the output
    file, absent before. *)
Lemma not_modified_reply_is_written :
  let env := replying 304 [x41] None in
  let out := KokoroTTS.synthesize (env := env)
               "hello" "out.ogg" ∅ (kokoro_defaults, empty_world) in
  http_send (environment := env) empty_world hello_request
  = Ok (Response 304 [x41] None)
  /\ sent out.2.2 = [hello_request]
  /\ (200 <=? 304) && (304 <? 300) = false
  /\ out.1 = Ok tt
  /\ files empty_world !! "out.ogg" = None
  /\ files out.2.2 !! "out.ogg" = Some [x41].
Proof. vm_compute. repeat split; reflexivity. Qed.

(** ** C5: overrides *)

Lemma with_tts_attributes_same (self : VoiceHandler) :
  with_tts_attributes self (attributes_of (tts self)) = self.
Proof. destruct self as [s [c a] p d]. reflexivity. Qed.

Lemma synthesize_kwargs_lookup (voice format : value) (key : string) :
  VoiceHandler.synthesize_kwargs voice format !! key
  = if decide (key = "voice") then (if is_None voice then None else Some voice)
    else if decide (key = "format")
         then (if is_None format then None else Some format)
         else None.
Proof.
  unfold VoiceHandler.synthesize_kwargs.
  destruct (is_None voice), (is_None format); simpl;
    rewrite ?lookup_insert, ?lookup_empty;
    repeat case_decide; congruence.
Qed.

(** The handler's [synthesize] in terms of the adapter's. *)
Lemma VoiceHandler_synthesize_run (self : VoiceHandler) (w : world)
    (text output_file : string) (voice format : value) :
  VoiceHandler.synthesize text output_file voice format (self, w)
  = match TTSProvider.synthesize (class_of (tts self)) text output_file
            (VoiceHandler.synthesize_kwargs voice format) (attributes_of (tts self), w) with
    | (Ok _, st') =>
        (Ok tt,
         (with_tts_attributes self st'.1,
          add_log "INFO" ("Synthesized: " ++ take_chars 50 text ++ "... -> "
                            ++ output_file) st'.2))
    | (Raise e, st') =>
        (Raise e,
         (with_tts_attributes self st'.1,
          add_log "ERROR" ("Synthesis failed: " ++ exc_str e) st'.2))
    end.
Proof.
  unfold VoiceHandler.synthesize, try_except, bind, VoiceHandler.call_tts, io,
    logger, modify, raise, with_tts_attributes. simpl.
  destruct (TTSProvider.synthesize _ _ _ _ _) as [[[]|e] [a w']]; reflexivity.
Qed.

Section Overrides.
Context {env : environment}.

(** A handler on a loaded synthesizer is the same handler after
    [synthesize], and the requests sent are those of the adapter. *)
Lemma VoiceHandler_synthesize_loaded (self : VoiceHandler) (name : string)
    (w : world) (text output_file : string) (voice format : value) :
  _tts_providers loaded !! name = Some (class_of (tts self)) ->
  (VoiceHandler.synthesize text output_file voice format (self, w)).2.1 = self
  /\ sent (VoiceHandler.synthesize text output_file voice format (self, w)).2.2
     = sent (TTSProvider.synthesize (class_of (tts self)) text output_file
               (VoiceHandler.synthesize_kwargs voice format) (attributes_of (tts self), w)).2.2.
Proof.
  intros Hcls. rewrite VoiceHandler_synthesize_run.
  pose proof (loaded_footprint name _ text output_file
                (VoiceHandler.synthesize_kwargs voice format) (attributes_of (tts self), w) Hcls)
    as [Hself _].
  destruct (TTSProvider.synthesize _ _ _ _ _) as [[[]|e] [a w']];
    simpl in *; subst a; by rewrite with_tts_attributes_same.
Qed.

(** The voice and the format in the request of an adapter that takes
    both as overrides. *)
Lemma loaded_request_overrides (name : string) (cls : TTSClass)
    (text output_file : string) (kwargs self : gmap string value)
    (w : world) (req : request) :
  name = "kokoro" \/ name = "openai" ->
  _tts_providers loaded !! name = Some cls ->
  sent (TTSProvider.synthesize cls text output_file kwargs (self, w)).2.2
  = (sent w ++ [req])%list ->
  request_voice req
  = match kwargs !! "voice" with
    | Some v => Some v
    | None => self !! "voice"
    end
  /\ request_format req
     = match kwargs !! "format" with
       | Some v => Some v
       | None => self !! "format"
       end.
Proof.
  intros [-> | ->] Hcls Hsent.
  - assert (cls = KokoroTTS.class) as ->.
    { revert Hcls. unfold loaded, tts_providers_module, stt_providers_module.
      simpl. rewrite !lookup_insert. simpl. congruence. }
    destruct (KokoroTTS_request _ _ _ _ _ _ Hsent)
      as (voice & format & session & base_url & Hbind & Hv & Hf & Hs & Hb & ->).
    simpl. unfold kwargs_get. rewrite Hv, Hf.
    by destruct (kwargs !! "voice"), (kwargs !! "format").
  - assert (cls = OpenAITTS.class) as ->.
    { revert Hcls. unfold loaded, tts_providers_module, stt_providers_module.
      simpl. rewrite !lookup_insert. simpl. congruence. }
    destruct (OpenAITTS_request _ _ _ _ _ _ Hsent)
      as (voice & model & format & client & Hbind & Hv & Hm & Hf & Hc & ->).
    simpl. unfold kwargs_get. rewrite Hv, Hf.
    by destruct (kwargs !! "voice"), (kwargs !! "format").
Qed.

End Overrides.

(** C5.  The handler builds the keyword dictionary from the arguments
    that are not [None] and from nothing else, so that for a [None]
    argument the adapter falls back on its own attribute.  For a handler
    on any loaded synthesizer class, a [synthesize] with the voice [X]
    followed by a [synthesize] with no override leaves the handler, and
    with it the adapter's attributes, exactly as they were after each
    call; and for the adapters that take a voice and a format (Kokoro,
    OpenAI) the request of the first call asks for the voice [X] and the
    configured format, while the request of the second asks for the
    adapter's configured [voice] and [format]. *)
Theorem override_is_per_call {env : environment}
    (self : VoiceHandler) (name : string) (text p p2 : string)
    (X : value) (w : world)
    (Hcls : _tts_providers loaded !! name = Some (class_of (tts self)))
    (HX : is_None X = false) :
  let run1 := VoiceHandler.synthesize text p X VNone (self, w) in
  let run2 := VoiceHandler.synthesize text p2 VNone VNone run1.2 in
  (forall voice format key,
      VoiceHandler.synthesize_kwargs voice format !! key
      = if decide (key = "voice")
        then (if is_None voice then None else Some voice)
        else if decide (key = "format")
             then (if is_None format then None else Some format)
             else None)
  /\ run1.2.1 = self
  /\ run2.2.1 = self
  /\ (name = "kokoro" \/ name = "openai" ->
      (forall req1, sent run1.2.2 = (sent w ++ [req1])%list ->
                    request_voice req1 = Some X
                    /\ request_format req1 = attributes_of (tts self) !! "format")
      /\ (forall req2, sent run2.2.2 = (sent run1.2.2 ++ [req2])%list ->
                       request_voice req2 = attributes_of (tts self) !! "voice"
                       /\ request_format req2
                          = attributes_of (tts self) !! "format")).
Proof.
  intros run1 run2.
  destruct (VoiceHandler_synthesize_loaded self name w text p X VNone Hcls)
    as [Hself1 Hsent1].
  fold run1 in Hself1, Hsent1.
  assert (Hrun1 : run1.2 = (self, run1.2.2)).
  { rewrite <- Hself1 at 1. by destruct run1 as [r [h w1]]. }
  destruct (VoiceHandler_synthesize_loaded self name run1.2.2 text p2 VNone VNone Hcls)
    as [Hself2 Hsent2].
  rewrite <- Hrun1 in Hself2, Hsent2. fold run2 in Hself2, Hsent2.
  split; [intros; apply synthesize_kwargs_lookup|].
  split; [exact Hself1|]. split; [exact Hself2|].
  intros Hname. split.
  - intros req1 Hreq. rewrite Hsent1 in Hreq.
    destruct (loaded_request_overrides name _ _ _ _ _ _ _ Hname Hcls Hreq)
      as [-> ->].
    rewrite !synthesize_kwargs_lookup. simpl. by rewrite HX.
  - intros req2 Hreq. rewrite Hsent2 in Hreq.
    destruct (loaded_request_overrides name _ _ _ _ _ _ _ Hname Hcls Hreq)
      as [-> ->].
    by rewrite !synthesize_kwargs_lookup.
Qed.

Lemma override_is_per_call_witness :
  (VoiceHandler.synthesize "hi" "a.ogg" (VStr "X") VNone
     (local_handler (env := unreachable), empty_world)).2.1
  = local_handler (env := unreachable)
  /\ sent (VoiceHandler.synthesize "hi" "b.ogg" VNone VNone
             (VoiceHandler.synthesize "hi" "a.ogg" (VStr "X") VNone
                (local_handler (env := unreachable), empty_world)).2).2.2
     = [override_request "X"; override_request "af_bella"]
  /\ request_voice (override_request "X") = Some (VStr "X")
  /\ request_voice (override_request "af_bella") = Some (VStr "af_bella").
Proof.
  destruct (override_is_per_call (env := unreachable)
              (local_handler (env := unreachable)) "kokoro"
              "hi" "a.ogg" "b.ogg" (VStr "X") empty_world)
    as (_ & Hself1 & Hself2 & Hvoice); [reflexivity | reflexivity |].
  destruct (Hvoice (or_introl eq_refl)) as [Hfirst Hsecond].
  split; [exact Hself1|].
  split; [vm_compute; reflexivity|].
  split.
  - apply Hfirst; vm_compute; reflexivity.
  - destruct (Hsecond (override_request "af_bella")) as [-> _];
      [vm_compute; reflexivity | reflexivity].
Defined.

(** * More of the code *)

(** ** The probe for ffmpeg *)

Section Probe.
Context {env : environment}.

(** The probe of the constructor and the module-level probe in terms of
    what the process does. *)
Lemma probe_run (w : world) :
  check_ffmpeg w
  = match run_process w ["ffmpeg"; "-version"] with
    | CannotStart e =>
        if bool_decide (exc_class e ∈ [CalledProcessError; FileNotFoundError])
        then (Ok false, add_process ["ffmpeg"; "-version"] w)
        else (Raise e, add_process ["ffmpeg"; "-version"] w)
    | Exited returncode stderr files_after =>
        (Ok (returncode =? 0),
         set_files files_after (add_process ["ffmpeg"; "-version"] w))
    end.
Proof.
  unfold check_ffmpeg, try_except_of, bind, subprocess_run, ret.
  destruct (run_process w _) as [e|rc err fs]; simpl; [done|].
  destruct (rc =? 0); simpl; done.
Qed.

Lemma AudioProcessor_init_run (temp_dir : option string) (w : world) :
  AudioProcessor.__init__ temp_dir w
  = match check_ffmpeg w with
    | (Ok available, w') =>
        (Ok {| temp_dir := match temp_dir with
                           | Some d => if String.eqb d "" then gettempdir else d
                           | None => gettempdir
                           end;
               ffmpeg_available := available |},
         if available then w'
         else add_log "WARNING"
                "FFmpeg not found. Install it for audio conversion." w')
    | (Raise e, w') => (Raise e, w')
    end.
Proof.
  unfold AudioProcessor.__init__, check_ffmpeg, try_except_of, bind,
    subprocess_run, ret, logger, modify.
  destruct (run_process w _) as [e|rc err fs]; simpl.
  - case_bool_decide; done.
  - destruct (rc =? 0); simpl; done.
Qed.

End Probe.

(** X1.  The module-level [check_ffmpeg] and the probe of
    [AudioProcessor.__init__] agree in every world: when [check_ffmpeg]
    returns [b], the constructor returns a processor whose
    [ffmpeg_available] is [b]; when [check_ffmpeg] raises (the program
    is there and cannot be started: neither exception of the [except]
    clause), the constructor raises the same exception and there is no
    processor.  [b] is true exactly when [ffmpeg -version] exits with
    status 0.  [check_ffmpeg] logs nothing; the constructor logs one
    warning exactly when the flag is false. *)
Theorem check_ffmpeg_agrees_with_constructor {env : environment}
    (temp_dir : option string) (w : world) :
  match check_ffmpeg w with
  | (Ok b, w') =>
      (exists self,
          AudioProcessor.__init__ temp_dir w
          = (Ok self,
             if b then w'
             else add_log "WARNING"
                    "FFmpeg not found. Install it for audio conversion." w')
          /\ ffmpeg_available self = b)
      /\ (b = true <->
          exists stderr files_after,
            run_process w ["ffmpeg"; "-version"] = Exited 0 stderr files_after)
      /\ log w' = log w
  | (Raise e, w') =>
      AudioProcessor.__init__ temp_dir w = (Raise e, w')
      /\ run_process w ["ffmpeg"; "-version"] = CannotStart e
      /\ exc_class e <> CalledProcessError
      /\ exc_class e <> FileNotFoundError
  end.
Proof.
  rewrite AudioProcessor_init_run, probe_run.
  destruct (run_process w _) as [e|rc err fs] eqn:E.
  - case_bool_decide as Hc.
    + split; [eauto|]. split; [|done].
      split; [done|]. intros (? & ? & ?). done.
    + repeat split; try done; intros Heq; apply Hc; rewrite Heq; set_solver.
  - split; [eauto|]. split; [|done]. split.
    + intros Hrc. apply Z.eqb_eq in Hrc. subst. eauto.
    + intros (? & ? & ?). by simplify_eq.
Qed.

(** ** Conversions with ffmpeg *)

Lemma append_cons (c : ascii) (s1 s2 : string) :
  String c s1 ++ s2 = String c (s1 ++ s2).
Proof. reflexivity. Qed.

Lemma append_assoc (s1 s2 s3 : string) : (s1 ++ s2) ++ s3 = s1 ++ (s2 ++ s3).
Proof.
  induction s1 as [|c s1 IH]; [reflexivity|].
  rewrite !append_cons. by rewrite IH.
Qed.

(** On a file name, [basename_aux] adds the name to what it holds. *)
Lemma basename_aux_file_name (name acc : string) :
  is_file_name name -> basename_aux name acc = acc ++ name.
Proof.
  unfold is_file_name. revert acc.
  induction name as [|c name IH]; intros acc Hname; simpl.
  - by rewrite append_empty_r.
  - simpl in Hname. apply Forall_cons in Hname as [Hc Hname].
    destruct (Ascii.eqb_spec c "/"%char) as [->|_]; [done|].
    rewrite IH by done. by rewrite append_assoc.
Qed.

(** What is held before a slash is dropped. *)
Lemma basename_aux_slash (directory rest acc : string) :
  basename_aux (directory ++ "/" ++ rest) acc = basename_aux rest "".
Proof.
  revert acc. induction directory as [|c directory IH]; intros acc.
  - reflexivity.
  - rewrite append_cons. simpl. destruct (Ascii.eqb c "/"); apply IH.
Qed.

Lemma basename_in_directory (directory name : string) :
  is_file_name name -> basename (directory ++ "/" ++ name) = name.
Proof.
  intros Hname. unfold basename.
  rewrite basename_aux_slash. by rewrite basename_aux_file_name.
Qed.

Section Conversion.
Context {env : environment}.

(** The [try] statement that both conversions end in. *)
Lemma ffmpeg_run (cmd : list string) (output_path info error : string)
    (w : world) :
  try_except_of [CalledProcessError]
    (_ <- subprocess_run cmd true ;;
     logger "INFO" info ;;;
     ret output_path)
    (fun e =>
       detail <- of_result (decode (exc_stderr e)) ;;
       logger "ERROR" (error ++ detail) ;;;
       raise (Exc RuntimeError ("Audio conversion failed: " ++ exc_str e))) w
  = match run_process w cmd with
    | CannotStart e =>
        if bool_decide (exc_class e ∈ [CalledProcessError]) then
          match decode (exc_stderr e) with
          | Ok detail =>
              (Raise (Exc RuntimeError
                        ("Audio conversion failed: " ++ exc_str e)),
               add_log "ERROR" (error ++ detail) (add_process cmd w))
          | Raise e' => (Raise e', add_process cmd w)
          end
        else (Raise e, add_process cmd w)
    | Exited returncode stderr files_after =>
        let w' := set_files files_after (add_process cmd w) in
        if returncode =? 0 then (Ok output_path, add_log "INFO" info w')
        else
          match decode stderr with
          | Ok detail =>
              (Raise (Exc RuntimeError
                        ("Audio conversion failed: Command '"
                           ++ repr_command cmd
                           ++ "' returned non-zero exit status "
                           ++ pretty returncode ++ ".")),
               add_log "ERROR" (error ++ detail) w')
          | Raise e' => (Raise e', w')
          end
    end.
Proof.
  unfold try_except_of, bind, subprocess_run, ret, logger, modify, raise,
    of_result.
  destruct (run_process w cmd) as [e|rc err fs]; simpl.
  - case_bool_decide; [|done]. by destruct (decode (exc_stderr e)).
  - destruct (rc =? 0); simpl; [done|]. by destruct (decode err).
Qed.

Lemma decode_raises (b : string) (e : exn) :
  decode b = Raise e -> exc_class e = UnicodeDecodeError.
Proof. unfold decode. destruct (utf8 _); intros H; by simplify_eq. Qed.

(** What the [try] statement leaves, whatever ffmpeg does. *)
Lemma ffmpeg_run_outcome (cmd : list string) (output_path info error : string)
    (w : world) :
  conversion_outcome cmd output_path error w
    (try_except_of [CalledProcessError]
       (_ <- subprocess_run cmd true ;;
        logger "INFO" info ;;;
        ret output_path)
       (fun e =>
          detail <- of_result (decode (exc_stderr e)) ;;
          logger "ERROR" (error ++ detail) ;;;
          raise (Exc RuntimeError ("Audio conversion failed: " ++ exc_str e))) w).
Proof.
  unfold conversion_outcome, captured_stderr. rewrite ffmpeg_run.
  destruct (run_process w cmd) as [e|rc err fs] eqn:E.
  - case_bool_decide as Hc; simpl.
    + destruct (decode (exc_stderr e)) as [detail|e'] eqn:Hd; simpl.
      * repeat split; try done. left. eauto.
      * pose proof (decode_raises _ _ Hd) as Hcls.
        repeat split; try done; [by rewrite Hcls|]. right. left. done.
    + repeat split; try done.
      * intros Heq. apply Hc. rewrite Heq. set_solver.
      * by do 2 right.
  - simpl. destruct (Z.eqb_spec rc 0) as [->|Hrc]; simpl.
    + repeat split; eauto.
    + destruct (decode err) as [detail|e'] eqn:Hd; simpl.
      * repeat split; try done. left. eauto.
      * pose proof (decode_raises _ _ Hd) as Hcls.
        repeat split; try done; [by rewrite Hcls|]. right. left. done.
Qed.

End Conversion.

(** X2.  On a processor that found ffmpeg, [convert_for_stt] and
    [convert_for_platform] start exactly one process, the ffmpeg command
    of the method, send nothing and leave [os.environ] alone.  When they
    return, they return the output path (the one given, or the generated
    one), ffmpeg has exited with status 0, and the file system is as
    ffmpeg left it.  They never let a [CalledProcessError] out: a run of
    ffmpeg that fails surfaces as a [RuntimeError], after one ERROR
    record that is the method's prefix followed by the captured stderr,
    if these bytes are UTF-8; if they are not, decoding them for the
    record raises, and the run surfaces as that [UnicodeDecodeError]
    with nothing logged.  Any other exception is the one with which the
    process could not be started (ffmpeg removed since construction,
    say), passed on unchanged with nothing logged.  Every platform other
    than the exact string [telegram] gets the MP3 command. *)
Theorem conversion_runs_ffmpeg_once {env : environment}
    (temp_dir : string) (input_path platform : string)
    (output_path : option string) (w : world) :
  let self := {| temp_dir := temp_dir; ffmpeg_available := true |} in
  let stt_path :=
    default (path_join temp_dir ("converted_" ++ basename input_path ++ ".wav"))
            output_path in
  let telegram := bool_decide (platform = "telegram") in
  let platform_path :=
    default (path_join temp_dir
               ("response_" ++ basename input_path
                  ++ (if telegram then ".ogg" else ".mp3")))
            output_path in
  conversion_outcome
    ["ffmpeg"; "-i"; input_path; "-ar"; "16000"; "-ac"; "1";
     "-c:a"; "pcm_s16le"; "-y"; stt_path]
    stt_path "Conversion failed: " w
    (AudioProcessor.convert_for_stt self input_path output_path w)
  /\ conversion_outcome
       (if telegram
        then ["ffmpeg"; "-i"; input_path; "-c:a"; "libopus"; "-b:a"; "64k";
              "-y"; platform_path]
        else ["ffmpeg"; "-i"; input_path; "-codec:a"; "libmp3lame"; "-b:a";
              "128k"; "-y"; platform_path])
       platform_path "Platform conversion failed: " w
       (AudioProcessor.convert_for_platform self input_path platform
          output_path w).
Proof.
  intros self stt_path telegram platform_path. split.
  - unfold AudioProcessor.convert_for_stt. simpl.
    subst stt_path. destruct output_path; apply ffmpeg_run_outcome.
  - unfold AudioProcessor.convert_for_platform. simpl.
    subst platform_path telegram.
    destruct (String.eqb_spec platform "telegram") as [->|Hne].
    + destruct output_path; apply ffmpeg_run_outcome.
    + rewrite bool_decide_false by done.
      destruct output_path; apply ffmpeg_run_outcome.
Qed.

(** An ffmpeg that fails and writes a byte that is no UTF-8: the
    conversion raises [UnicodeDecodeError], and no ERROR record is
    written. *)
Lemma undecodable_stderr_is_not_logged :
  let out := AudioProcessor.convert_for_stt (env := garbling_ffmpeg)
               {| temp_dir := "/tmp"; ffmpeg_available := true |}
               "voice.ogg" None empty_world in
  (exists e, out.1 = Raise e /\ exc_class e = UnicodeDecodeError)
  /\ log out.2 = [].
Proof. vm_compute. eauto. Qed.

(** X3.  The output name that [convert_for_stt] and
    [convert_for_platform] generate depends on the file name of the
    input only, not on its directory: two inputs with the same file
    name in different directories are converted into the same output
    file (which ffmpeg, run with [-y], overwrites). *)
Theorem generated_output_name_ignores_directory {env : environment}
    (self : AudioProcessor) (directory1 directory2 name platform : string)
    (w : world) (Hself : ffmpeg_available self = true)
    (Hname : is_file_name name) (Hrun : forall cmd, exists stderr files_after,
        run_process w cmd = Exited 0 stderr files_after) :
  (AudioProcessor.convert_for_stt self (directory1 ++ "/" ++ name) None w).1
  = Ok (path_join (temp_dir self) ("converted_" ++ name ++ ".wav"))
  /\ (AudioProcessor.convert_for_stt self (directory2 ++ "/" ++ name) None w).1
     = (AudioProcessor.convert_for_stt self (directory1 ++ "/" ++ name) None w).1
  /\ (AudioProcessor.convert_for_platform self (directory2 ++ "/" ++ name)
        platform None w).1
     = (AudioProcessor.convert_for_platform self (directory1 ++ "/" ++ name)
          platform None w).1.
Proof.
  assert (Hstt : forall directory,
             (AudioProcessor.convert_for_stt self (directory ++ "/" ++ name)
                None w).1
             = Ok (path_join (temp_dir self) ("converted_" ++ name ++ ".wav"))).
  { intros directory. unfold AudioProcessor.convert_for_stt.
    rewrite Hself. simpl. rewrite ffmpeg_run.
    match goal with
    | |- context [run_process w ?cmd] => destruct (Hrun cmd) as (err & fs & ->)
    end.
    simpl. by rewrite basename_in_directory. }
  assert (Hplatform : forall directory,
             (AudioProcessor.convert_for_platform self (directory ++ "/" ++ name)
                platform None w).1
             = Ok (path_join (temp_dir self)
                     ("response_" ++ name
                        ++ "." ++ (if String.eqb platform "telegram"
                                   then "ogg" else "mp3")))).
  { intros directory. unfold AudioProcessor.convert_for_platform.
    rewrite Hself. simpl. rewrite ffmpeg_run.
    rewrite basename_in_directory by done.
    destruct (String.eqb platform "telegram");
      match goal with
      | |- context [run_process w ?cmd] => destruct (Hrun cmd) as (err & fs & ->)
      end; reflexivity. }
  split; [apply Hstt|]. split.
  - by rewrite !Hstt.
  - by rewrite !Hplatform.
Qed.

Lemma generated_output_name_ignores_directory_witness :
  (AudioProcessor.convert_for_stt (env := with_ffmpeg)
     {| temp_dir := "/tmp"; ffmpeg_available := true |}
     ("/chat/alice" ++ "/" ++ "voice.ogg") None empty_world).1
  = Ok "/tmp/converted_voice.ogg.wav"
  /\ (AudioProcessor.convert_for_stt (env := with_ffmpeg)
        {| temp_dir := "/tmp"; ffmpeg_available := true |}
        ("/chat/bob" ++ "/" ++ "voice.ogg") None empty_world).1
     = (AudioProcessor.convert_for_stt (env := with_ffmpeg)
          {| temp_dir := "/tmp"; ffmpeg_available := true |}
          ("/chat/alice" ++ "/" ++ "voice.ogg") None empty_world).1.
Proof.
  destruct (generated_output_name_ignores_directory (env := with_ffmpeg)
              {| temp_dir := "/tmp"; ffmpeg_available := true |}
              "/chat/alice" "/chat/bob" "voice.ogg" "telegram" empty_world)
    as (H1 & H2 & _).
  - reflexivity.
  - unfold is_file_name. simpl. repeat constructor; discriminate.
  - intros cmd. by exists "", ∅.
  - split; [exact H1 | exact H2].
Defined.

(** ** Cleaning the temporary directory *)

Lemma only_deletes_refl (w : world) : only_deletes w w.
Proof. by unfold only_deletes. Qed.

Lemma only_deletes_trans (w1 w2 w3 : world) :
  only_deletes w1 w2 -> only_deletes w2 w3 -> only_deletes w1 w3.
Proof.
  intros (Hf1 & He1 & Hs1 & Hp1) (Hf2 & He2 & Hs2 & Hp2).
  repeat split; [by etrans | congruence..].
Qed.

(** A loop keeps what every round keeps. *)
Lemma for_each_invariant {S A} (R : S -> S -> Prop) (l : list A)
    (body : A -> M S unit) :
  (forall s, R s s) ->
  (forall s1 s2 s3, R s1 s2 -> R s2 s3 -> R s1 s3) ->
  (forall x s, R s (body x s).2) ->
  forall s, R s (for_each l body s).2.
Proof.
  intros Hrefl Htrans Hbody. induction l as [|x l IH]; intros s; simpl.
  - apply Hrefl.
  - unfold bind. specialize (Hbody x s).
    destruct (body x s) as [[[]|e] s1]; simpl in *; [|done].
    eapply Htrans; [exact Hbody | apply IH].
Qed.

Lemma for_each_cons {S A} (x : A) (l : list A) (body : A -> M S unit) (s : S) :
  for_each (x :: l) body s
  = match body x s with
    | (Ok _, s') => for_each l body s'
    | (Raise e, s') => (Raise e, s')
    end.
Proof. reflexivity. Qed.

Section CleanupFacts.
Context {env : environment}.
Variable glob : world -> string -> string -> result (list string).

Lemma unlink_only_deletes (file : string) (w : world) :
  only_deletes w (unlink file w).2.
Proof.
  unfold unlink.
  destruct (files w !! file) eqn:E; [|apply only_deletes_refl].
  destruct (unlink_error w file); [apply only_deletes_refl|].
  repeat split; simpl. apply delete_subseteq.
Qed.

Lemma remove_only_deletes (file : string) (w : world) :
  only_deletes w
    ((unlink file ;;; logger "DEBUG" ("Cleaned: " ++ file)) w).2.
Proof.
  unfold bind. pose proof (unlink_only_deletes file w) as H.
  destruct (unlink file w) as [[[]|e] w1]; simpl in *; [|done].
  destruct H as (? & ? & ? & ?). by repeat split.
Qed.

Lemma remove_all_only_deletes (found : list string) (w : world) :
  only_deletes w
    (for_each found
       (fun file => unlink file ;;; logger "DEBUG" ("Cleaned: " ++ file)) w).2.
Proof.
  apply (for_each_invariant only_deletes);
    [apply only_deletes_refl | apply only_deletes_trans |].
  intros file s. apply remove_only_deletes.
Qed.

Lemma glob_remove_only_deletes (directory pattern : string) (w : world) :
  only_deletes w
    ((found <- path_glob glob directory pattern ;;
      for_each found
        (fun file => unlink file ;;; logger "DEBUG" ("Cleaned: " ++ file))) w).2.
Proof.
  unfold bind, path_glob.
  destruct (glob w directory pattern) as [found|e]; simpl;
    [apply remove_all_only_deletes | apply only_deletes_refl].
Qed.

(** One round of the inner loop, on a file that is there and may be
    removed. *)
Lemma remove_run (file : string) (w : world) :
  (unlink file ;;; logger "DEBUG" ("Cleaned: " ++ file)) w
  = match (unlink file w).1 with
    | Ok _ => (Ok tt, add_log "DEBUG" ("Cleaned: " ++ file)
                        (set_files (delete file (files w)) w))
    | Raise e => (Raise e, w)
    end.
Proof.
  unfold bind, unlink, logger, modify.
  destruct (files w !! file); [|done].
  destruct (unlink_error w file); done.
Qed.

Lemma without_nil (m : gmap string (list byte)) : without [] m = m.
Proof.
  unfold without. apply map_filter_id. intros i x _. simpl. set_solver.
Qed.

Lemma without_cons (file : string) (removed : list string)
    (m : gmap string (list byte)) :
  without removed (delete file m) = without (file :: removed) m.
Proof.
  unfold without. apply map_eq. intros i.
  rewrite !map_lookup_filter.
  destruct (decide (i = file)) as [->|Hne].
  - rewrite lookup_delete_eq. simpl.
    destruct (m !! file); simpl; [|done].
    rewrite option_guard_False; [done|]. simpl. set_solver.
  - rewrite lookup_delete_ne by done.
    destruct (m !! i); simpl; [|done].
    destruct (decide (i ∈ removed)) as [Hin|Hout].
    + rewrite !option_guard_False; [done|simpl..].
      * intros Hn. apply Hn. by right.
      * by intros Hn.
    + rewrite !option_guard_True; [done|simpl..].
      * intros [?|?]%elem_of_cons; done.
      * done.
Qed.

(** The inner loop removes the files in order and stops at the first
    that cannot be removed. *)
Lemma remove_all_run (found : list string) (w : world) :
  let out := for_each found
               (fun file => unlink file ;;; logger "DEBUG" ("Cleaned: " ++ file))
               w in
  (out.1 = Ok tt
   /\ files out.2 = without found (files w)
   /\ log out.2 = (log w ++ cleaned found)%list)
  \/ exists removed file rest e,
       found = (removed ++ file :: rest)%list
       /\ out.1 = Raise e
       /\ files out.2 = without removed (files w)
       /\ log out.2 = (log w ++ cleaned removed)%list.
Proof.
  revert w. induction found as [|file found IH]; intros w; cbv zeta.
  - left. simpl. rewrite without_nil. unfold cleaned. simpl. by rewrite app_nil_r.
  - rewrite for_each_cons, remove_run.
    destruct (unlink file w).1 as [[]|e] eqn:E.
    + specialize (IH (add_log "DEBUG" ("Cleaned: " ++ file)
                        (set_files (delete file (files w)) w))).
      cbv zeta in IH.
      destruct IH as [(Hok & Hfiles & Hlog)
                     | (removed & f & rest & e & -> & Hraise & Hfiles & Hlog)].
      * left. split; [done|]. split.
        -- rewrite Hfiles. apply without_cons.
        -- rewrite Hlog. unfold cleaned. simpl. by rewrite <- app_assoc.
      * right. exists (file :: removed), f, rest, e.
        split; [done|]. split; [done|]. split.
        -- rewrite Hfiles. apply without_cons.
        -- rewrite Hlog. unfold cleaned. simpl. by rewrite <- app_assoc.
    + right. exists [], file, found, e. simpl.
      rewrite without_nil. unfold cleaned. simpl. by rewrite app_nil_r.
Qed.

End CleanupFacts.

(** X4.  [cleanup] never raises, whatever the pattern, the directory
    listing and the file system do, and it only ever removes files: it
    creates and changes no file, starts no process, sends nothing and
    leaves [os.environ] alone.  An empty pattern is the same call as no
    pattern. *)
Theorem cleanup_only_deletes {env : environment}
    (glob : world -> string -> string -> result (list string))
    (self : AudioProcessor) (pattern : option string) (w : world) :
  (exists w',
      AudioProcessor_cleanup glob self pattern w = (Ok tt, w')
      /\ only_deletes w w')
  /\ AudioProcessor_cleanup glob self (Some "") w
     = AudioProcessor_cleanup glob self None w.
Proof.
  split; [|reflexivity].
  unfold AudioProcessor_cleanup, try_except.
  match goal with
  | |- context [(if ?c then ?a else ?b) w] =>
      assert (Hbody : only_deletes w ((if c then a else b) w).2);
      [|destruct ((if c then a else b) w) as [[[]|e] w1]; simpl in *]
  end.
  - destruct (match pattern with Some p => truthy (VStr p) | None => false end).
    + apply glob_remove_only_deletes.
    + apply (for_each_invariant only_deletes);
        [apply only_deletes_refl | apply only_deletes_trans |].
      intros p s. apply glob_remove_only_deletes.
  - eauto.
  - eexists. split; [reflexivity|].
    destruct Hbody as (? & ? & ? & ?). by repeat split.
Qed.



(** ** Transcribing *)

(** Split on the innermost value that the run of a method looks at. *)
Ltac run_step :=
  match goal with
  | |- context [match ?x with _ => _ end] =>
      lazymatch x with
      | context [match _ with _ => _ end] => fail
      | _ => destruct x eqn:?; simpl
      end
  end.

Lemma pair_with_snd {A B} (p : A * B) (a : A) : p.1 = a -> p = (a, p.2).
Proof. destruct p. by intros <-. Qed.

(** *** [str.strip] *)

Section Strip.
Variable sp2 : ascii -> ascii -> bool.
Variable sp3 : ascii -> ascii -> ascii -> bool.

(** What [strip_front] leaves does not start with white space. *)
Lemma strip_front_front (l : list ascii) :
  space_front sp2 sp3 (strip_front sp2 sp3 l) = false.
Proof.
  remember (length l) as n eqn:Hn. revert l Hn.
  induction n as [n IH] using lt_wf_ind. intros l ->.
  destruct l as [|c1 l1]; [done|]. simpl.
  destruct (is_space c1) eqn:E1; [apply (IH (length l1)); simpl; [lia|done]|].
  destruct l1 as [|c2 l2]; [simpl; by rewrite E1|].
  destruct (sp2 c1 c2) eqn:E2; [apply (IH (length l2)); simpl; [lia|done]|].
  destruct l2 as [|c3 l3]; [simpl; by rewrite E1, E2|].
  destruct (sp3 c1 c2 c3) eqn:E3; [apply (IH (length l3)); simpl; [lia|done]|].
  simpl. by rewrite E1, E2, E3.
Qed.

(** [strip_front] drops a prefix. *)
Lemma strip_front_suffix (l : list ascii) :
  exists dropped, l = (dropped ++ strip_front sp2 sp3 l)%list.
Proof.
  remember (length l) as n eqn:Hn. revert l Hn.
  induction n as [n IH] using lt_wf_ind. intros l ->.
  destruct l as [|c1 l1]; [by exists []|]. simpl.
  destruct (is_space c1).
  { destruct (IH (length l1) ltac:(simpl; lia) l1 eq_refl) as (d & Hd).
    exists (c1 :: d). simpl. by rewrite <- Hd. }
  destruct l1 as [|c2 l2]; [by exists []|].
  destruct (sp2 c1 c2).
  { destruct (IH (length l2) ltac:(simpl; lia) l2 eq_refl) as (d & Hd).
    exists (c1 :: c2 :: d). simpl. by rewrite <- Hd. }
  destruct l2 as [|c3 l3]; [by exists []|].
  destruct (sp3 c1 c2 c3); [|by exists []].
  destruct (IH (length l3) ltac:(simpl; lia) l3 eq_refl) as (d & Hd).
  exists (c1 :: c2 :: c3 :: d). simpl. by rewrite <- Hd.
Qed.

(** White space at the front of a prefix is white space at the front. *)
Lemma space_front_prefix (a b : list ascii) :
  space_front sp2 sp3 (a ++ b) = false -> space_front sp2 sp3 a = false.
Proof.
  destruct a as [|c1 [|c2 [|c3 a]]]; simpl; [done| | |done]; intros H.
  - apply orb_false_iff in H as [-> _]. done.
  - apply orb_false_iff in H as [-> H]. simpl.
    destruct b; [done|]. apply orb_false_iff in H as [-> _]. done.
Qed.

End Strip.

Lemma strip_trimmed (s : string) : trimmed (strip s).
Proof.
  unfold trimmed, strip, rstrip, lstrip.
  rewrite list_ascii_of_string_of_list_ascii.
  set (front := strip_front is_space2 is_space3 (list_ascii_of_string s)).
  split.
  - destruct (strip_front_suffix is_space2_back is_space3_back (List.rev front))
      as (dropped & Hsuffix).
    apply (f_equal (@List.rev ascii)) in Hsuffix.
    rewrite rev_involutive, rev_app_distr in Hsuffix.
    apply (space_front_prefix _ _ _ (List.rev dropped)).
    rewrite <- Hsuffix. apply strip_front_front.
  - rewrite rev_involutive. apply strip_front_front.
Qed.

Section Transcribers.
Context {env : environment}.

Lemma WhisperSTT_transcribe_only_asks (audio_path : string)
    (st : gmap string value * world) :
  only_asks st (WhisperSTT.transcribe audio_path st).2.
Proof.
  destruct st as [self w].
  unfold only_asks, WhisperSTT.transcribe, bind, getattr, io, library,
    of_result, ret. simpl.
  repeat run_step; simpl; repeat split; eauto.
Qed.

Lemma FasterWhisperSTT_transcribe_only_asks (audio_path : string)
    (st : gmap string value * world) :
  only_asks st (FasterWhisperSTT.transcribe audio_path st).2.
Proof.
  destruct st as [self w].
  unfold only_asks, FasterWhisperSTT.transcribe, bind, getattr, io, library,
    of_result, ret. simpl.
  repeat run_step; simpl; repeat split; eauto.
Qed.

Lemma OpenAIWhisperSTT_transcribe_only_asks (audio_path : string)
    (st : gmap string value * world) :
  only_asks st (OpenAIWhisperSTT.transcribe audio_path st).2.
Proof.
  destruct st as [self w].
  unfold only_asks, OpenAIWhisperSTT.transcribe, bind, getattr, io, library,
    read_file, of_result, ret. simpl.
  repeat run_step; simpl; repeat split; eauto.
Qed.

(** [GoogleCloudSTT.transcribe] never returns, and calls no backend. *)
Lemma GoogleCloudSTT_transcribe_raises (audio_path : string)
    (st : gmap string value * world) :
  exists e, GoogleCloudSTT.transcribe audio_path st = (Raise e, st).
Proof.
  destruct st as [self w].
  unfold GoogleCloudSTT.transcribe, bind, io, read_file, raise. simpl.
  repeat run_step; eauto.
Qed.

Lemma WhisperSTT_transcribe_result audio_path st v st' :
  WhisperSTT.transcribe audio_path st = (Ok v, st') ->
  transcription v
  /\ exists s, subscript v "text" = Ok (VStr s) /\ trimmed s.
Proof.
  unfold WhisperSTT.transcribe. intros Hrun.
  repeat (apply bind_Ok_inv in Hrun as (? & ? & ? & Hrun)).
  unfold ret in Hrun. simplify_eq.
  split; [unfold transcription; eauto 10|].
  match goal with
  | H : of_result (str_strip ?t) _ = _ |- _ =>
      unfold of_result, str_strip in H; destruct t; simplify_eq
  end.
  eexists. split; [reflexivity | apply strip_trimmed].
Qed.

Lemma FasterWhisperSTT_transcribe_result audio_path st v st' :
  FasterWhisperSTT.transcribe audio_path st = (Ok v, st') ->
  transcription v
  /\ exists s, subscript v "text" = Ok (VStr s) /\ trimmed s.
Proof.
  unfold FasterWhisperSTT.transcribe. intros Hrun.
  repeat (apply bind_Ok_inv in Hrun as (? & ? & ? & Hrun)).
  unfold ret in Hrun. simplify_eq.
  split; [unfold transcription; eauto 10|].
  eexists. split; [reflexivity | apply strip_trimmed].
Qed.

Lemma OpenAIWhisperSTT_transcribe_result audio_path st v st' :
  OpenAIWhisperSTT.transcribe audio_path st = (Ok v, st') ->
  transcription v.
Proof.
  unfold OpenAIWhisperSTT.transcribe. intros Hrun.
  repeat (apply bind_Ok_inv in Hrun as (? & ? & ? & Hrun)).
  unfold ret in Hrun. simplify_eq.
  unfold transcription; eauto 10.
Qed.

(** The handler's [transcribe] in terms of the adapter's. *)
Lemma VoiceHandler_transcribe_run (self : VoiceHandler) (w : world)
    (audio_path : string) :
  VoiceHandler_transcribe audio_path (self, w)
  = let '(r, st') := STTProvider.transcribe (class_of (stt self)) audio_path
                       (attributes_of (stt self), w) in
    let failed e :=
      (Raise e,
       (with_stt_attributes self st'.1,
        add_log "ERROR" ("Transcription failed: " ++ exc_str e) st'.2)) in
    match r with
    | Raise e => failed e
    | Ok result =>
        match subscript result "text" with
        | Raise e => failed e
        | Ok text =>
            match slice_to 50 text with
            | Raise e => failed e
            | Ok preview =>
                (Ok text,
                 (with_stt_attributes self st'.1,
                  add_log "INFO" ("Transcribed: " ++ py_str preview ++ "...")
                    st'.2))
            end
        end
    end.
Proof.
  unfold VoiceHandler_transcribe, try_except, bind, VoiceHandler.call_stt,
    with_stt_attributes, of_result, io, logger, modify, raise. simpl.
  destruct (STTProvider.transcribe _ _ _) as [[result|e] [a w']]; simpl; [|done].
  destruct (subscript result "text") as [text|e]; simpl; [|done].
  destruct (slice_to 50 text) as [preview|e]; simpl; done.
Qed.

End Transcribers.

Section TranscribeFacts.
Context {env : environment}.

(** A transcriber of the table as loaded only asks its backend. *)
Lemma loaded_transcribe_only_asks name cls audio_path st :
  _stt_providers loaded !! name = Some cls ->
  only_asks st (STTProvider.transcribe cls audio_path st).2.
Proof.
  intros Hcls. destruct (loaded_stt _ _ Hcls) as [-> | [-> | [-> | ->]]]; simpl.
  - apply WhisperSTT_transcribe_only_asks.
  - apply FasterWhisperSTT_transcribe_only_asks.
  - apply OpenAIWhisperSTT_transcribe_only_asks.
  - destruct (GoogleCloudSTT_transcribe_raises audio_path st) as (e & ->).
    unfold only_asks. simpl. repeat split; eauto.
Qed.

Lemma loaded_transcribe_result name cls audio_path st v st' :
  _stt_providers loaded !! name = Some cls ->
  STTProvider.transcribe cls audio_path st = (Ok v, st') ->
  transcription v.
Proof.
  intros Hcls Hrun.
  destruct (loaded_stt _ _ Hcls) as [-> | [-> | [-> | ->]]]; simpl in Hrun.
  - by apply WhisperSTT_transcribe_result in Hrun as [? _].
  - by apply FasterWhisperSTT_transcribe_result in Hrun as [? _].
  - by apply OpenAIWhisperSTT_transcribe_result in Hrun.
  - destruct (GoogleCloudSTT_transcribe_raises audio_path st) as (e & He).
    congruence.
Qed.

End TranscribeFacts.

(** X6.  [VoiceHandler.transcribe] hands on what its provider does and
    adds exactly one log record.  When the provider's [transcribe]
    raises, the same exception is raised again after an ERROR record
    with its message.  When the provider returns a result whose [text]
    is a string, that string is returned, after an INFO record with its
    first 50 characters.  Whenever the handler returns a value, it is
    the [text] entry of the provider's result; a result without the
    entry is a [KeyError], not an empty text. *)
Theorem transcribe_hands_on_text_and_failure
    (self : VoiceHandler) (w : world) (audio_path : string) :
  let provider := STTProvider.transcribe (class_of (stt self)) audio_path
                    (attributes_of (stt self), w) in
  let out := VoiceHandler_transcribe audio_path (self, w) in
  (forall e, provider.1 = Raise e ->
     out = (Raise e,
            (with_stt_attributes self provider.2.1,
             add_log "ERROR" ("Transcription failed: " ++ exc_str e)
               provider.2.2)))
  /\ (forall result s,
        provider.1 = Ok result -> subscript result "text" = Ok (VStr s) ->
        out = (Ok (VStr s),
               (with_stt_attributes self provider.2.1,
                add_log "INFO" ("Transcribed: " ++ take_chars 50 s ++ "...")
                  provider.2.2)))
  /\ (forall v, out.1 = Ok v ->
        exists result, provider.1 = Ok result /\ subscript result "text" = Ok v)
  /\ (forall fields,
        provider.1 = Ok (VDict fields) -> assoc "text" fields = None ->
        out.1 = Raise (Exc KeyError "'text'"))
  /\ (exists level message,
        log out.2.2 = (log provider.2.2 ++ [(level, message)])%list).
Proof.
  intros provider out. subst out. rewrite VoiceHandler_transcribe_run.
  fold provider. destruct provider as [[result|e] [a w']]; simpl.
  - split; [done|]. split; [|split; [|split]].
    + intros r s [= <-] Hs. rewrite Hs. reflexivity.
    + intros v. destruct (subscript result "text") as [text|e] eqn:Htext;
        simpl; [|done].
      destruct (slice_to 50 text); simpl; [|done].
      intros [= <-]. eauto.
    + intros fields [= ->] Hnone. simpl. by rewrite Hnone.
    + destruct (subscript result "text") as [text|e]; simpl; [|eauto].
      destruct (slice_to 50 text); simpl; eauto.
  - split; [by intros ? [= <-]|]. repeat split; try done. eauto.
Qed.

(** The record holds 50 characters, not 50 bytes: of a transcript of
    sixty letters of two bytes each, the first fifty are logged. *)
Lemma preview_counts_characters :
  let env := hearing (VDict [("text", VStr (str_mul e_acute 60))]) in
  let out := VoiceHandler_transcribe "a.wav"
               (whisper_handler (env := env), empty_world) in
  out.1 = Ok (VStr (str_mul e_acute 60))
  /\ log out.2.2 = [("INFO", "Transcribed: " ++ str_mul e_acute 50 ++ "...")].
Proof. vm_compute. split; reflexivity. Qed.

(** X7.  [process_voice_message] is [transcribe] on the input: the
    output path and the platform change nothing.  On a handler whose
    transcriber is one of the registered classes it leaves every file
    as it was (so nothing is written to the output path), starts no
    process, leaves the transcriber and the synthesizer as they were,
    and sends at most one request. *)
Theorem process_voice_message_only_transcribes {env : environment}
    (self : VoiceHandler) (name input_audio output_audio platform : string)
    (w : world)
    (Hloaded : _stt_providers loaded !! name = Some (class_of (stt self))) :
  let out := VoiceHandler_process_voice_message input_audio output_audio
               platform (self, w) in
  out = VoiceHandler_transcribe input_audio (self, w)
  /\ files out.2.2 = files w
  /\ processes out.2.2 = processes w
  /\ out.2.1 = self
  /\ (sent out.2.2 = sent w \/ exists req, sent out.2.2 = (sent w ++ [req])%list).
Proof.
  intros out.
  assert (Hsame : out = VoiceHandler_transcribe input_audio (self, w)).
  { subst out. unfold VoiceHandler_process_voice_message, bind, ret.
    by destruct (VoiceHandler_transcribe input_audio (self, w)) as [[v|e] st]. }
  split; [exact Hsame|]. rewrite Hsame, VoiceHandler_transcribe_run.
  pose proof (loaded_transcribe_only_asks name _ input_audio
                (attributes_of (stt self), w) Hloaded)
    as (Hattrs & Hfiles & _ & Hprocesses & _ & Hsent).
  destruct (STTProvider.transcribe _ _ _) as [r [a w']]. simpl in *.
  assert (Hself : with_stt_attributes self a = self).
  { subst a. by destruct self as [[] ? ? ?]. }
  destruct r as [result|e]; simpl; [|by rewrite Hself].
  destruct (subscript result "text") as [text|e]; simpl; [|by rewrite Hself].
  destruct (slice_to 50 text); simpl; by rewrite Hself.
Qed.

Lemma process_voice_message_only_transcribes_witness :
  VoiceHandler_process_voice_message
    "in.ogg" "out.ogg" "telegram" (local_handler (env := unreachable), empty_world)
  = VoiceHandler_transcribe "in.ogg"
      (local_handler (env := unreachable), empty_world)
  /\ files (VoiceHandler_process_voice_message
              "in.ogg" "out.ogg" "telegram"
              (local_handler (env := unreachable), empty_world)).2.2
     = files empty_world.
Proof.
  destruct (process_voice_message_only_transcribes (env := unreachable)
              (local_handler (env := unreachable)) "faster-whisper"
              "in.ogg" "out.ogg" "telegram" empty_world)
    as (Hsame & Hfiles & _).
  - reflexivity.
  - split; [exact Hsame | exact Hfiles].
Defined.

(** X8.  Every transcriber of the table as the module loads it keeps
    the interface's promise when it returns: the result is a dictionary
    with exactly the entries [text], [language], [language_probability]
    and [duration], in this order.  Returning or raising, [transcribe]
    only asks its backend: the attributes of the instance, the files,
    the environment variables, the processes and the log are as before,
    and at most one call went out. *)
Theorem loaded_transcribers_keep_the_contract {env : environment}
    (name : string) (cls : STTClass) (audio_path : string)
    (st : gmap string value * world)
    (Hloaded : _stt_providers loaded !! name = Some cls) :
  let out := STTProvider.transcribe cls audio_path st in
  only_asks st out.2
  /\ match out.1 with
     | Ok v => transcription v
     | Raise _ => True
     end.
Proof.
  intros out. split.
  - by apply (loaded_transcribe_only_asks name).
  - subst out. destruct (STTProvider.transcribe cls audio_path st) as [[v|e] st'] eqn:E;
      [|done].
    by apply (loaded_transcribe_result name cls audio_path st v st').
Qed.

Lemma loaded_transcribers_keep_the_contract_witness :
  only_asks (attributes_of (stt (whisper_handler (env := replying 200 [] None))),
             empty_world)
    (WhisperSTT.transcribe (env := replying 200 [] None) "a.wav"
       (attributes_of (stt (whisper_handler (env := replying 200 [] None))),
        empty_world)).2
  /\ transcription (VDict [("text", VStr ""); ("language", VStr "en");
                           ("language_probability", VFloat 1);
                           ("duration", VInt 0)]).
Proof.
  exact (loaded_transcribers_keep_the_contract (env := replying 200 [] None)
           "whisper" WhisperSTT.class "a.wav"
           (attributes_of (stt (whisper_handler (env := replying 200 [] None))),
            empty_world) eq_refl).
Defined.

(** X9.  The two local transcribers return trimmed text: when
    [VoiceHandler.transcribe] returns on a handler whose transcriber is
    a [WhisperSTT] or a [FasterWhisperSTT], whatever the model answered,
    the value is a string with no white space character at either end,
    of ASCII or of the rest of Unicode (the no-break space, the line
    separator and the like, which [str.strip] removes as well).  (The
    string may be empty: silence is no error.) *)
Theorem local_transcription_is_trimmed {env : environment}
    (self : VoiceHandler) (w : world) (audio_path : string) (v : value)
    (st' : VoiceHandler * world)
    (Hlocal : class_of (stt self) = WhisperSTT.class
              \/ class_of (stt self) = FasterWhisperSTT.class)
    (Hrun : VoiceHandler_transcribe audio_path (self, w) = (Ok v, st')) :
  exists s, v = VStr s /\ trimmed s.
Proof.
  rewrite VoiceHandler_transcribe_run in Hrun.
  destruct (STTProvider.transcribe _ _ _) as [[result|e] st1] eqn:E;
    simpl in Hrun; [|done].
  assert (Htext : exists s, subscript result "text" = Ok (VStr s) /\ trimmed s).
  { destruct Hlocal as [Hc|Hc]; rewrite Hc in E; simpl in E.
    - by apply WhisperSTT_transcribe_result in E as [_ ?].
    - by apply FasterWhisperSTT_transcribe_result in E as [_ ?]. }
  destruct Htext as (s & Hs & Htrim). rewrite Hs in Hrun. simpl in Hrun.
  simplify_eq. eauto.
Qed.

Lemma local_transcription_is_trimmed_witness :
  let env := hearing padded_answer in
  (VoiceHandler_transcribe "a.wav"
     (whisper_handler (env := env), empty_world)).1
  = Ok (VStr "hello")
  /\ exists s, VStr "hello" = VStr s /\ trimmed s.
Proof.
  intros env. split; [reflexivity|].
  apply (local_transcription_is_trimmed (env := env)
           (whisper_handler (env := env)) empty_world "a.wav"
           (VStr "hello")
           (VoiceHandler_transcribe "a.wav"
              (whisper_handler (env := env), empty_world)).2).
  - left. reflexivity.
  - apply pair_with_snd. reflexivity.
Defined.

(** X10.  A [GoogleCloudSTT] can be constructed and never transcribes:
    [transcribe] raises for every instance, path and world (the missing
    file's error, or the [NameError] on [speech], a name that only
    [__init__] binds) and has then called no backend and changed
    nothing.  So on every handler built on it, in every environment,
    [transcribe] raises and [test_connection] reports [stt: False]. *)
Theorem GoogleCloudSTT_never_transcribes {env : environment}
    (attributes : gmap string value) (tts_provider : object TTSClass)
    (audio_processor : option AudioProcessor)
    (defaults : value) (audio_path : string) (w : world) :
  let self := VoiceHandler.__init__ (Object GoogleCloudSTT.class attributes)
                tts_provider audio_processor defaults in
  (exists e,
      GoogleCloudSTT.transcribe audio_path (attributes, w)
      = (Raise e, (attributes, w))
      /\ (exc_class e = NameError \/ files w !! audio_path = None
          \/ open_error w audio_path "rb" = Some e))
  /\ (exists e st', VoiceHandler_transcribe audio_path (self, w) = (Raise e, st'))
  /\ (exists (b_tts : bool) st',
        VoiceHandler.test_connection (self, w)
        = (Ok ({[ "stt" := false; "tts" := b_tts ]} : gmap string bool), st')).
Proof.
  intros self. split; [|split].
  - unfold GoogleCloudSTT.transcribe, bind, io, read_file, raise. simpl.
    destruct (files w !! audio_path) eqn:Hfile; simpl; [|eauto 10].
    destruct (open_error w audio_path "rb") eqn:Hopen; simpl; eauto 10.
  - rewrite VoiceHandler_transcribe_run. simpl.
    destruct (GoogleCloudSTT_transcribe_raises audio_path (attributes, w))
      as (e & ->). simpl. eauto.
  - unfold VoiceHandler.test_connection, with_local.
    destruct (test_stt_run {[ "stt" := false; "tts" := false ]} self w)
      as (b1 & self1 & w1 & Hrun1 & _ & Hstt).
    assert (Hb1 : b1 = false).
    { apply Hstt. intros path st. simpl.
      destruct (GoogleCloudSTT_transcribe_raises path st) as (e & He). eauto. }
    subst b1.
    destruct (test_tts_run
                (id ({[ "stt" := false; "tts" := false ]} : gmap string bool))
                self1 w1)
      as (b2 & self2 & w2 & Hrun2 & _).
    exists b2, (self2, w2).
    rewrite (bind_Ok _ _ _ _ _ Hrun1), (bind_Ok _ _ _ _ _ Hrun2).
    unfold get_local. simpl.
    by rewrite <- (results_of_legs false b2).
Qed.

(** ** Configuration keys *)

(** A key that is no parameter of the signature goes to the keyword
    dictionary and changes nothing else of the binding. *)
Lemma bind_args_insert_unknown (fname : string)
    (params : list (string * option value)) (config : gmap string value)
    (k : string) (v : value) :
  k <> "self" -> k ∉ params.*1 ->
  bind_args fname params (<[k := v]> config)
  = match bind_args fname params config with
    | Ok (locals, kwargs) => Ok (locals, <[k := v]> kwargs)
    | Raise e => Raise e
    end.
Proof.
  intros Hself Hk. unfold bind_args.
  rewrite lookup_insert_ne by done.
  destruct (bool_decide (is_Some (config !! "self"))); [done|].
  assert (Hlook : forall p, In p params -> <[k := v]> config !! p.1 = config !! p.1).
  { intros p Hp. apply lookup_insert_ne. intros ->. apply Hk.
    apply list_elem_of_fmap. exists p. split; [done|]. by apply list_elem_of_In. }
  assert (Hmissing :
            List.filter (fun p => match p.2, <[k := v]> config !! p.1 with
                                  | None, None => true
                                  | _, _ => false
                                  end) params
            = List.filter (fun p => match p.2, config !! p.1 with
                                    | None, None => true
                                    | _, _ => false
                                    end) params).
  { apply filter_ext_in. intros p Hp. by rewrite Hlook. }
  rewrite Hmissing. clear Hmissing.
  destruct (List.filter _ params) as [|[p d] rest]; [|done].
  f_equal. f_equal.
  - f_equal. apply map_ext_in. intros p Hp. by rewrite Hlook.
  - by apply (map_filter_insert_True (fun kv : string * value => kv.1 ∉ params.*1)).
Qed.

Section UnknownKeys.
Context {env : environment}.
Variables (k : string) (v : value).
Hypothesis Hk : k ∉ constructor_parameters.

Ltac in_parameters :=
  unfold constructor_parameters in *; simpl in *;
  rewrite ?elem_of_cons, ?elem_of_nil in *; tauto.

Ltac unknown_key :=
  unfold bind, of_result;
  rewrite bind_args_insert_unknown;
  [ destruct (bind_args _ _ _) as [[locals kwargs]|e]; reflexivity
  | intros ->; apply Hk; in_parameters
  | intros Hin; apply Hk; in_parameters ].

Lemma KokoroTTS_init_unknown_key config st :
  KokoroTTS.__init__ (<[k := v]> config) st = KokoroTTS.__init__ config st.
Proof. unfold KokoroTTS.__init__. unknown_key. Qed.

Lemma Qwen3TTS_init_unknown_key config st :
  Qwen3TTS.__init__ (<[k := v]> config) st = Qwen3TTS.__init__ config st.
Proof. unfold Qwen3TTS.__init__. unknown_key. Qed.

Lemma OpenAITTS_init_unknown_key config st :
  OpenAITTS.__init__ (<[k := v]> config) st = OpenAITTS.__init__ config st.
Proof. unfold OpenAITTS.__init__. unknown_key. Qed.

Lemma ElevenLabsTTS_init_unknown_key config st :
  ElevenLabsTTS.__init__ (<[k := v]> config) st
  = ElevenLabsTTS.__init__ config st.
Proof. unfold ElevenLabsTTS.__init__. unknown_key. Qed.

Lemma WhisperSTT_init_unknown_key config st :
  WhisperSTT.__init__ (<[k := v]> config) st = WhisperSTT.__init__ config st.
Proof. unfold WhisperSTT.__init__. unknown_key. Qed.

Lemma OpenAIWhisperSTT_init_unknown_key config st :
  OpenAIWhisperSTT.__init__ (<[k := v]> config) st
  = OpenAIWhisperSTT.__init__ config st.
Proof. unfold OpenAIWhisperSTT.__init__. unknown_key. Qed.

Lemma GoogleCloudSTT_init_unknown_key config st :
  GoogleCloudSTT.__init__ (<[k := v]> config) st
  = GoogleCloudSTT.__init__ config st.
Proof. unfold GoogleCloudSTT.__init__. unknown_key. Qed.

(** [FasterWhisperSTT.__init__] hands the key on to the model. *)
Lemma FasterWhisperSTT_init_unknown_key config st st' :
  FasterWhisperSTT.__init__ (<[k := v]> config) st = (Ok tt, st') ->
  exists args,
    st'.1 !! "model" = Some (VObj "faster_whisper.WhisperModel" args)
    /\ (k, v) ∈ args.
Proof.
  unfold FasterWhisperSTT.__init__. intros Hrun.
  apply bind_Ok_inv in Hrun as (args & st1 & Hargs & Hrun).
  apply bind_Ok_inv in Hrun as (? & st2 & _ & Hrun).
  apply bind_Ok_inv in Hrun as (model & st3 & Hmodel & Hrun).
  unfold of_result in Hargs.
  rewrite bind_args_insert_unknown in Hargs;
    [| intros ->; apply Hk; in_parameters | intros Hin; apply Hk; in_parameters ].
  destruct (bind_args _ _ config) as [[locals kwargs]|e]; [|done].
  injection Hargs as <- <-.
  unfold io, new_object in Hmodel. simpl in Hmodel.
  destruct (construct _ _ _); [done|]. injection Hmodel as <- <-.
  unfold setattr in Hrun. injection Hrun as <-. simpl.
  eexists. split; [apply lookup_insert_eq|].
  rewrite !elem_of_cons. do 3 right.
  apply elem_of_map_to_list. apply lookup_insert_eq.
Qed.

End UnknownKeys.

(** X11.  A configuration key that no constructor names (a misspelt
    option, say) is silently ignored: every synthesizer class of the
    table as loaded and the Whisper, OpenAI and Google transcriber
    classes construct exactly as without the key, in every state, with
    the same result, the same attributes and the same effects.  Only
    [FasterWhisperSTT] looks at such a key: it hands it on to
    [WhisperModel], among the arguments of the model it keeps. *)
Theorem unknown_configuration_keys_are_ignored {env : environment}
    (k : string) (v : value) (config : gmap string value)
    (st : gmap string value * world)
    (Hk : k ∉ constructor_parameters) :
  (forall name cls,
      _tts_providers loaded !! name = Some cls ->
      TTSProvider.__init__ cls (<[k := v]> config) st
      = TTSProvider.__init__ cls config st)
  /\ (forall cls,
        cls ∈ [WhisperSTT.class; OpenAIWhisperSTT.class; GoogleCloudSTT.class] ->
        STTProvider.__init__ cls (<[k := v]> config) st
        = STTProvider.__init__ cls config st)
  /\ (forall st',
        FasterWhisperSTT.__init__ (<[k := v]> config) st = (Ok tt, st') ->
        exists args,
          st'.1 !! "model" = Some (VObj "faster_whisper.WhisperModel" args)
          /\ (k, v) ∈ args).
Proof.
  split; [|split].
  - intros name cls Hcls.
    destruct (loaded_tts _ _ Hcls) as [-> | [-> | [-> | ->]]]; simpl.
    + by apply KokoroTTS_init_unknown_key.
    + by apply Qwen3TTS_init_unknown_key.
    + by apply OpenAITTS_init_unknown_key.
    + by apply ElevenLabsTTS_init_unknown_key.
  - intros cls Hcls. rewrite !elem_of_cons, elem_of_nil in Hcls.
    destruct Hcls as [-> | [-> | [-> | []]]]; simpl.
    + by apply WhisperSTT_init_unknown_key.
    + by apply OpenAIWhisperSTT_init_unknown_key.
    + by apply GoogleCloudSTT_init_unknown_key.
  - intros st'. by apply FasterWhisperSTT_init_unknown_key.
Qed.

Lemma unknown_configuration_keys_are_ignored_witness :
  KokoroTTS.__init__ (env := unreachable) (<["voise" := VStr "af_sky"]> ∅)
    (∅, empty_world)
  = KokoroTTS.__init__ (env := unreachable) ∅ (∅, empty_world).
Proof.
  assert (Hk : "voise" ∉ constructor_parameters).
  { unfold constructor_parameters. rewrite !not_elem_of_cons.
    repeat split; [discriminate..|apply not_elem_of_nil]. }
  exact (proj1 (unknown_configuration_keys_are_ignored (env := unreachable)
                  "voise" (VStr "af_sky") ∅ (∅, empty_world) Hk)
           "kokoro" KokoroTTS.class eq_refl).
Defined.

(** ** What a constructor leaves behind when it fails *)

(** X12.  Constructing a [WhisperSTT] changes the environment of the
    process, whether or not the construction succeeds: once the
    arguments are bound (only a key [self] in the configuration prevents
    that), [PYTHONIOENCODING] and [KMP_DUPLICATE_LIB_OK] are set and
    stay set, also when the constructor then raises because whisper is
    not installed or the model cannot be loaded.  Nothing else of the
    world changes. *)
Theorem WhisperSTT_sets_environment_even_on_failure {env : environment}
    (config : gmap string value) (w : world)
    (Hself : config !! "self" = None) :
  let out := create Transcriber loaded "whisper" config w in
  environ out.2
  = <["KMP_DUPLICATE_LIB_OK" := "TRUE"]>
      (<["PYTHONIOENCODING" := "utf-8"]> (environ w))
  /\ files out.2 = files w
  /\ sent out.2 = sent w
  /\ processes out.2 = processes w
  /\ log out.2 = log w.
Proof.
  intros out. subst out. simpl.
  unfold ProviderFactory.create_stt, loaded, tts_providers_module,
    stt_providers_module. simpl.
  rewrite lookup_insert_ne by done. rewrite lookup_insert_ne by done.
  rewrite lookup_insert_ne by done. rewrite lookup_insert_eq.
  unfold instantiate. simpl.
  unfold WhisperSTT.__init__, bind, of_result, bind_args.
  rewrite bool_decide_false by (rewrite Hself; by intros [? ?]).
  simpl.
  unfold io, modify, try_except_of, import_module, setattr, new_object, raise,
    ret. simpl.
  destruct (importable "whisper"); simpl; [|done].
  destruct (truthy _); simpl; destruct (construct _ _ _); done.
Qed.

Lemma WhisperSTT_sets_environment_even_on_failure_witness :
  (create Transcriber (loaded (env := nothing_installed)) "whisper" ∅
     empty_world).1
  = Raise (Exc ImportError "whisper not installed. Run: pip install openai-whisper")
  /\ environ (create Transcriber (loaded (env := nothing_installed)) "whisper" ∅
                empty_world).2
     = <["KMP_DUPLICATE_LIB_OK" := "TRUE"]>
         (<["PYTHONIOENCODING" := "utf-8"]> (environ empty_world)).
Proof.
  split; [reflexivity|].
  exact (proj1 (WhisperSTT_sets_environment_even_on_failure
                  (env := nothing_installed) ∅ empty_world eq_refl)).
Defined.

(** ** From a configuration file to a handler *)

Lemma of_result_Ok_inv {S A} (r : result A) (s s' : S) (a : A) :
  of_result r s = (Ok a, s') -> r = Ok a /\ s' = s.
Proof. unfold of_result. by intros [= -> ->]. Qed.

Lemma value_pop_Ok_inv (section0 : value) (name : value)
    (rest : list (string * value)) :
  (exists copy, value_copy section0 = Ok copy
                /\ value_pop copy "provider" = Ok (name, rest)) ->
  exists d, section0 = VDict d
            /\ assoc "provider" d = Some name
            /\ (list_to_map rest : gmap string value) = options d.
Proof.
  intros (copy & Hcopy & Hpop).
  destruct section0 as [| | | | |l|d|]; simpl in Hcopy; simplify_eq;
    simpl in Hpop; simplify_eq.
  destruct (assoc "provider" d) eqn:E; simplify_eq. eauto.
Qed.

Lemma provider_key_Ok_inv (kind : string) (name : value) (s : string) :
  provider_key kind name = Ok s -> name = VStr s.
Proof. destruct name; simpl; intros; by simplify_eq. Qed.

(** The first value of an association list is what its table holds. *)
Lemma list_to_map_assoc (k : string) (l : list (string * value)) :
  (list_to_map l : gmap string value) !! k = assoc k l.
Proof.
  induction l as [|[k' x] l IH]; simpl; [apply lookup_empty|].
  destruct (String.eqb_spec k k') as [->|Hne].
  - apply lookup_insert_eq.
  - by rewrite lookup_insert_ne.
Qed.

Lemma options_lookup (d : list (string * value)) (k : string) :
  options d !! k = if decide (k = "provider") then None else assoc k d.
Proof.
  unfold options. rewrite list_to_map_assoc.
  induction d as [|[k' x] d IH]; simpl; [by case_decide|].
  destruct (String.eqb_spec k' "provider") as [->|Hk']; simpl.
  - rewrite IH. case_decide as Hk; [done|].
    by destruct (String.eqb_spec k "provider").
  - rewrite IH. destruct (String.eqb_spec k k') as [->|Hne]; [|done].
    by rewrite decide_False.
Qed.

Section FromConfig.
Context {env : environment}.
Variable toml_load : list byte -> result value.

Lemma import_guard_Ok_inv (name : string) (e : exn) (w w' : world) (u : unit) :
  try_except_of [ImportError] (import_module name) (fun _ => raise e) w
  = (Ok u, w') -> w' = w.
Proof.
  unfold try_except_of, import_module, raise, ret.
  destruct (importable name); simpl; [by intros [= _ ->]|done].
Qed.

Lemma read_text_Ok_inv (path : string) (w w' : world) (data : list byte) :
  read_text path w = (Ok data, w') -> files w !! path = Some data /\ w' = w.
Proof.
  unfold read_text. destruct (files w !! path); [|done].
  destruct (open_error w path "r"); [done|]. by intros [= -> ->].
Qed.

(** What a call of [from_config] that returns has gone through. *)
Lemma from_config_Ok_inv (factory : ProviderFactory) (config_path : string)
    (audio_processor : option AudioProcessor) (w w' : world)
    (r : VoiceHandler) :
  VoiceHandler_from_config toml_load factory config_path audio_processor w
  = (Ok r, w') ->
  exists source config stt_fields stt_name tts_fields tts_name
         stt_provider tts_provider w1 defaults,
    files w !! config_path = Some source
    /\ toml_load source = Ok config
    /\ subscript config "stt" = Ok (VDict stt_fields)
    /\ assoc "provider" stt_fields = Some (VStr stt_name)
    /\ ProviderFactory.create_stt factory stt_name (options stt_fields) w
       = (Ok stt_provider, w1)
    /\ subscript config "tts" = Ok (VDict tts_fields)
    /\ assoc "provider" tts_fields = Some (VStr tts_name)
    /\ ProviderFactory.create_tts factory tts_name (options tts_fields) w1
       = (Ok tts_provider, w')
    /\ dict_get config "defaults" (VDict []) = Ok defaults
    /\ r = VoiceHandler.__init__ stt_provider tts_provider audio_processor
             defaults.
Proof.
  unfold VoiceHandler_from_config. intros Hrun.
  apply bind_Ok_inv in Hrun as (? & w0 & Himport & Hrun).
  apply import_guard_Ok_inv in Himport as ->.
  apply bind_Ok_inv in Hrun as (source & ? & Hread & Hrun).
  apply read_text_Ok_inv in Hread as [Hfile ->].
  apply bind_Ok_inv in Hrun as (config & ? & [Hconfig ->]%of_result_Ok_inv & Hrun).
  apply bind_Ok_inv in Hrun
    as (stt_section & ? & [Hstt_section ->]%of_result_Ok_inv & Hrun).
  apply bind_Ok_inv in Hrun
    as (stt_config & ? & [Hstt_copy ->]%of_result_Ok_inv & Hrun).
  apply bind_Ok_inv in Hrun
    as ([stt_name stt_rest] & ? & [Hstt_pop ->]%of_result_Ok_inv & Hrun).
  apply bind_Ok_inv in Hrun
    as (stt_key & ? & [Hstt_key ->]%of_result_Ok_inv & Hrun).
  apply bind_Ok_inv in Hrun as (stt_provider & w1 & Hstt & Hrun).
  apply bind_Ok_inv in Hrun
    as (tts_section & ? & [Htts_section ->]%of_result_Ok_inv & Hrun).
  apply bind_Ok_inv in Hrun
    as (tts_config & ? & [Htts_copy ->]%of_result_Ok_inv & Hrun).
  apply bind_Ok_inv in Hrun
    as ([tts_name tts_rest] & ? & [Htts_pop ->]%of_result_Ok_inv & Hrun).
  apply bind_Ok_inv in Hrun
    as (tts_key & ? & [Htts_key ->]%of_result_Ok_inv & Hrun).
  apply bind_Ok_inv in Hrun as (tts_provider & w2 & Htts & Hrun).
  apply bind_Ok_inv in Hrun
    as (defaults & ? & [Hdefaults ->]%of_result_Ok_inv & Hrun).
  unfold ret in Hrun. injection Hrun as <- <-.
  simpl in *.
  apply provider_key_Ok_inv in Hstt_key as ->.
  apply provider_key_Ok_inv in Htts_key as ->.
  destruct (value_pop_Ok_inv stt_section (VStr stt_key) stt_rest)
    as (stt_fields & -> & Hstt_name & Hstt_options); [eauto|].
  destruct (value_pop_Ok_inv tts_section (VStr tts_key) tts_rest)
    as (tts_fields & -> & Htts_name & Htts_options); [eauto|].
  rewrite Hstt_options in Hstt. rewrite Htts_options in Htts.
  exists source, config, stt_fields, stt_key, tts_fields, tts_key,
    stt_provider, tts_provider, w1, defaults.
  done.
Qed.

(** What [create_stt] and [create_tts] return is what the constructor
    of the registered class left on a fresh object. *)
Lemma create_stt_Ok_inv (factory : ProviderFactory) name config w o w' :
  ProviderFactory.create_stt factory name config w = (Ok o, w') ->
  exists u,
    _stt_providers factory !! name = Some (class_of o)
    /\ STTProvider.__init__ (class_of o) config (∅, w)
       = (Ok u, (attributes_of o, w')).
Proof.
  unfold ProviderFactory.create_stt, instantiate, raise.
  destruct (_stt_providers factory !! name) as [cls|]; [|done].
  destruct (STTProvider.__init__ cls config (∅, w)) as [[u|e] [a w1]] eqn:E;
    intros [= <- <-]; eauto.
Qed.

Lemma create_tts_Ok_inv (factory : ProviderFactory) name config w o w' :
  ProviderFactory.create_tts factory name config w = (Ok o, w') ->
  exists u,
    _tts_providers factory !! name = Some (class_of o)
    /\ TTSProvider.__init__ (class_of o) config (∅, w)
       = (Ok u, (attributes_of o, w')).
Proof.
  unfold ProviderFactory.create_tts, instantiate, raise.
  destruct (_tts_providers factory !! name) as [cls|]; [|done].
  destruct (TTSProvider.__init__ cls config (∅, w)) as [[u|e] [a w1]] eqn:E;
    intros [= <- <-]; eauto.
Qed.

End FromConfig.

(** X13.  With the tables as the modules load them, the handler that
    [from_config] returns is complete: its transcriber and its
    synthesizer are instances of the classes registered under the
    [provider] names of the sections [stt] and [tts] of the file, with
    every attribute of their constructors assigned; its processor is the
    one given; its defaults are the value that the file holds under
    [defaults], table or not, if that value is true, and the empty table
    if it is not or if the file has no such key. *)
Theorem from_config_builds_complete_handler {env : environment}
    (toml_load : list byte -> result value) (config_path : string)
    (audio_processor : option AudioProcessor) (w w' : world)
    (self : VoiceHandler)
    (Hrun : VoiceHandler_from_config toml_load loaded config_path
              audio_processor w = (Ok self, w')) :
  exists source config stt_fields stt_name tts_fields tts_name held,
    files w !! config_path = Some source
    /\ toml_load source = Ok config
    /\ subscript config "stt" = Ok (VDict stt_fields)
    /\ assoc "provider" stt_fields = Some (VStr stt_name)
    /\ subscript config "tts" = Ok (VDict tts_fields)
    /\ assoc "provider" tts_fields = Some (VStr tts_name)
    /\ instance_of (C := Transcriber) loaded stt_name (stt self)
    /\ initialised (C := Transcriber) (stt self)
    /\ instance_of (C := Synthesizer) loaded tts_name (tts self)
    /\ initialised (C := Synthesizer) (tts self)
    /\ processor self = audio_processor
    /\ dict_get config "defaults" (VDict []) = Ok held
    /\ defaults self = (if truthy held then held else VDict []).
Proof.
  apply from_config_Ok_inv in Hrun
    as (source & config & stt_fields & stt_name & tts_fields & tts_name
        & stt_provider & tts_provider & w1 & defaults_value
        & Hfile & Hconfig & Hstt_section & Hstt_name & Hstt
        & Htts_section & Htts_name & Htts & Hdefaults & ->).
  apply create_stt_Ok_inv in Hstt as (u1 & Hstt_cls & Hstt_init).
  apply create_tts_Ok_inv in Htts as (u2 & Htts_cls & Htts_init).
  exists source, config, stt_fields, stt_name, tts_fields, tts_name,
    defaults_value.
  assert (Hstt_initialised : initialised (C := Transcriber) stt_provider).
  { simpl. by apply (loaded_stt_init stt_name _ _ _ _ _ Hstt_cls Hstt_init). }
  assert (Htts_initialised : initialised (C := Synthesizer) tts_provider).
  { simpl. by apply (loaded_tts_init tts_name _ _ _ _ _ Htts_cls Htts_init). }
  simpl. repeat (split; [done|]). done.
Qed.

(** A file that holds the string [abc] under [defaults]: the handler
    holds the string. *)
Lemma from_config_builds_complete_handler_witness :
  let env := replying 200 [] None in
  let self := VoiceHandler.__init__
                (stt (whisper_handler (env := env)))
                (tts (whisper_handler (env := env))) None (VStr "abc") in
  (VoiceHandler_from_config (env := env) (parses_to odd_config)
     (loaded (env := env)) "config.toml" None with_config_file).1
  = Ok self
  /\ exists source config stt_fields stt_name tts_fields tts_name held,
       files with_config_file !! "config.toml" = Some source
       /\ parses_to odd_config source = Ok config
       /\ subscript config "stt" = Ok (VDict stt_fields)
       /\ assoc "provider" stt_fields = Some (VStr stt_name)
       /\ subscript config "tts" = Ok (VDict tts_fields)
       /\ assoc "provider" tts_fields = Some (VStr tts_name)
       /\ instance_of (C := Transcriber) (loaded (env := env))
            stt_name (stt self)
       /\ initialised (C := Transcriber) (stt self)
       /\ instance_of (C := Synthesizer) (loaded (env := env))
            tts_name (tts self)
       /\ initialised (C := Synthesizer) (tts self)
       /\ processor self = None
       /\ dict_get config "defaults" (VDict []) = Ok held
       /\ defaults self = (if truthy held then held else VDict []).
Proof.
  intros env self. split; [reflexivity|].
  apply (from_config_builds_complete_handler (env := env)
           (parses_to odd_config) "config.toml" None with_config_file
           (World {[ "config.toml" := [] ]}
              {[ "PYTHONIOENCODING" := "utf-8"; "KMP_DUPLICATE_LIB_OK" := "TRUE" ]}
              [] [] [])).
  reflexivity.
Defined.

(** On that handler the questions on the defaults raise: a string has
    no [get]. *)
Lemma defaults_that_are_no_table :
  let self := VoiceHandler.__init__
                (stt (whisper_handler (env := unreachable)))
                (tts (whisper_handler (env := unreachable))) None (VStr "abc") in
  defaults self = VStr "abc"
  /\ exists e,
       VoiceHandler.should_send_voice_to_text_message self = Raise e
       /\ exc_class e = AttributeError.
Proof. vm_compute. eauto. Qed.

Section FromConfigRun.
Context {env : environment}.
Variable toml_load : list byte -> result value.

(** [from_config] up to the construction of the transcriber. *)
Lemma from_config_run (factory : ProviderFactory) (config_path : string)
    (audio_processor : option AudioProcessor) (w : world) (config : value)
    (stt_name : string) (stt_fields : list (string * value)) :
  parsed toml_load w config_path config ->
  configured config "stt" stt_name stt_fields ->
  VoiceHandler_from_config toml_load factory config_path audio_processor w
  = (stt <- ProviderFactory.create_stt factory stt_name (options stt_fields) ;;
     tts_section <- of_result (subscript config "tts") ;;
     tts_config <- of_result (value_copy tts_section) ;;
     tts_popped <- of_result (value_pop tts_config "provider") ;;
     tts_provider_name <- of_result (provider_key "TTS" tts_popped.1) ;;
     tts <- ProviderFactory.create_tts factory tts_provider_name
              (list_to_map tts_popped.2) ;;
     defaults <- of_result (dict_get config "defaults" (VDict [])) ;;
     ret (VoiceHandler.__init__ stt tts audio_processor defaults)) w.
Proof.
  intros (Himport & source & Hfile & Hopen & Hconfig) (Hsection & Hname).
  unfold VoiceHandler_from_config.
  unfold bind at 1. unfold try_except_of, import_module. rewrite Himport. simpl.
  unfold bind at 1. unfold read_text. rewrite Hfile, Hopen.
  unfold bind at 1. unfold of_result at 1. rewrite Hconfig.
  unfold bind at 1. unfold of_result at 1. rewrite Hsection.
  unfold bind at 1. unfold of_result at 1. simpl.
  unfold bind at 1. unfold of_result at 1. simpl. rewrite Hname.
  unfold bind at 1. unfold of_result at 1. simpl.
  reflexivity.
Qed.

End FromConfigRun.

(** X14.  [from_config] constructs the transcriber before it looks at
    the section [tts], and undoes nothing: when the file is read, its
    section [stt] names a provider whose construction succeeds, and the
    section [tts] names a provider that is not registered, the call
    raises the [ValueError] of the unknown synthesizer, and the world is
    the one the constructor of the transcriber left (the model loaded,
    the environment variables set); the transcriber itself is lost. *)
Theorem from_config_constructs_transcriber_first {env : environment}
    (toml_load : list byte -> result value) (factory : ProviderFactory)
    (config_path : string) (audio_processor : option AudioProcessor)
    (w w1 : world) (config : value) (stt_name tts_name : string)
    (stt_fields tts_fields : list (string * value))
    (stt_provider : object STTClass)
    (Hparsed : parsed toml_load w config_path config)
    (Hstt : configured config "stt" stt_name stt_fields)
    (Hconstructed : ProviderFactory.create_stt factory stt_name
                      (options stt_fields) w = (Ok stt_provider, w1))
    (Htts : configured config "tts" tts_name tts_fields)
    (Hunknown : _tts_providers factory !! tts_name = None) :
  VoiceHandler_from_config toml_load factory config_path audio_processor w
  = (Raise (Exc ValueError ("Unknown TTS provider: " ++ tts_name)), w1).
Proof.
  rewrite (from_config_run toml_load factory config_path audio_processor w
             config stt_name stt_fields Hparsed Hstt).
  destruct Htts as (Hsection & Hname).
  rewrite (bind_Ok _ _ _ _ _ Hconstructed).
  unfold bind, of_result. rewrite Hsection. simpl. rewrite Hname. simpl.
  unfold ProviderFactory.create_tts. by rewrite Hunknown.
Qed.

Lemma from_config_constructs_transcriber_first_witness :
  VoiceHandler_from_config (env := replying 200 [] None)
    (parses_to misspelt_config) (loaded (env := replying 200 [] None))
    "config.toml" None with_config_file
  = (Raise (Exc ValueError ("Unknown TTS provider: " ++ "kokorro")),
     World {[ "config.toml" := [] ]}
       {[ "PYTHONIOENCODING" := "utf-8"; "KMP_DUPLICATE_LIB_OK" := "TRUE" ]}
       [] [] []).
Proof.
  apply (from_config_constructs_transcriber_first (env := replying 200 [] None)
           (parses_to misspelt_config) (loaded (env := replying 200 [] None))
           "config.toml" None with_config_file _ misspelt_config
           "whisper" "kokorro" [("provider", VStr "whisper")]
           [("provider", VStr "kokorro")]
           (stt (whisper_handler (env := replying 200 [] None)))).
  - split; [reflexivity|]. exists []. by repeat split.
  - by split.
  - reflexivity.
  - by split.
  - reflexivity.
Defined.

Section KokoroOptions.
Context {env : environment}.

(** What [KokoroTTS.__init__] leaves on a fresh object when it returns. *)
Lemma KokoroTTS_init_attributes (config : gmap string value) (w w' : world)
    (u : unit) (a : gmap string value) :
  KokoroTTS.__init__ config (∅, w) = (Ok u, (a, w')) ->
  a !! "base_url"
  = Some (default (VStr "http://localhost:8880/v1") (config !! "base_url"))
  /\ a !! "voice" = Some (default (VStr "af_bella") (config !! "voice"))
  /\ a !! "format" = Some (default (VStr "ogg") (config !! "format"))
  /\ a !! "session" = Some (VObj "requests.Session" [])
  /\ w' = w.
Proof.
  unfold KokoroTTS.__init__, bind, of_result, bind_args.
  destruct (bool_decide (is_Some (config !! "self"))); [done|]. simpl.
  unfold try_except_of, io, import_module, new_object, setattr, raise, ret.
  simpl.
  destruct (importable "requests"); simpl; [|done].
  destruct (construct w "requests.Session" []); simpl; [done|].
  intros [= _ <- <-]. done.
Qed.

End KokoroOptions.

(** X15.  The options of the section [tts] reach the synthesizer: on a
    handler that [from_config] built from a file whose section [tts]
    names the provider [kokoro], the attributes [base_url], [voice] and
    [format] of the synthesizer are the entries of the section under
    these names, and the defaults of the constructor for the entries
    that the section leaves out. *)
Theorem from_config_hands_options_to_kokoro {env : environment}
    (toml_load : list byte -> result value) (config_path : string)
    (audio_processor : option AudioProcessor) (w w' : world)
    (self : VoiceHandler) (config : value) (fields : list (string * value))
    (Hparsed : parsed toml_load w config_path config)
    (Htts : configured config "tts" "kokoro" fields)
    (Hrun : VoiceHandler_from_config toml_load loaded config_path
              audio_processor w = (Ok self, w')) :
  class_of (tts self) = KokoroTTS.class
  /\ attributes_of (tts self) !! "base_url"
     = Some (default (VStr "http://localhost:8880/v1") (assoc "base_url" fields))
  /\ attributes_of (tts self) !! "voice"
     = Some (default (VStr "af_bella") (assoc "voice" fields))
  /\ attributes_of (tts self) !! "format"
     = Some (default (VStr "ogg") (assoc "format" fields)).
Proof.
  apply from_config_Ok_inv in Hrun
    as (source & config' & stt_fields & stt_name & tts_fields & tts_name
        & stt_provider & tts_provider & w1 & defaults_value
        & Hfile & Hconfig & _ & _ & _
        & Htts_section & Htts_name & Hcreate & _ & ->).
  destruct Hparsed as (_ & source' & Hfile' & _ & Hconfig').
  destruct Htts as (Hsection & Hname).
  assert (source' = source) as -> by congruence.
  assert (config' = config) as -> by congruence.
  assert (tts_fields = fields) as -> by congruence.
  assert (tts_name = "kokoro") as -> by congruence.
  simpl.
  apply create_tts_Ok_inv in Hcreate as (u & Hcls & Hinit).
  assert (Hclass : class_of tts_provider = KokoroTTS.class).
  { assert (Hkokoro : _tts_providers loaded !! "kokoro" = Some KokoroTTS.class)
      by reflexivity.
    congruence. }
  rewrite Hclass in Hinit. simpl in Hinit.
  apply KokoroTTS_init_attributes in Hinit as (Hbase & Hvoice & Hformat & _ & _).
  rewrite !options_lookup in Hbase, Hvoice, Hformat.
  done.
Qed.

Lemma from_config_hands_options_to_kokoro_witness :
  class_of (tts (with_tts_attributes (whisper_handler (env := replying 200 [] None))
                   (<["voice" := VStr "af_sky"]> kokoro_defaults)))
  = KokoroTTS.class (env := replying 200 [] None)
  /\ (<["voice" := VStr "af_sky"]> kokoro_defaults) !! "voice"
     = Some (VStr "af_sky").
Proof.
  destruct (from_config_hands_options_to_kokoro (env := replying 200 [] None)
              (parses_to kokoro_config) "config.toml" None with_config_file
              (World {[ "config.toml" := [] ]}
                 {[ "PYTHONIOENCODING" := "utf-8";
                    "KMP_DUPLICATE_LIB_OK" := "TRUE" ]} [] [] [])
              (with_tts_attributes (whisper_handler (env := replying 200 [] None))
                 (<["voice" := VStr "af_sky"]> kokoro_defaults))
              kokoro_config
              [("provider", VStr "kokoro"); ("voice", VStr "af_sky")])
    as (Hclass & _ & Hvoice & _).
  - split; [reflexivity|]. exists []. by repeat split.
  - by split.
  - reflexivity.
  - split; [exact Hclass | exact Hvoice].
Defined.

(** ** What the ElevenLabs adapter reads *)

Lemma bind_call_synthesize_kwargs (fname : string) (voice format : value) :
  bind_call fname ["text"; "output_file"]
    (VoiceHandler.synthesize_kwargs voice format) = Ok tt.
Proof.
  unfold bind_call. simpl. rewrite !synthesize_kwargs_lookup. reflexivity.
Qed.

Lemma traverse_Forall2 {A B} (f : A -> result B) (l : list A) (ys : list B) :
  traverse f l = Ok ys -> Forall2 (fun x y => f x = Ok y) l ys.
Proof.
  revert ys. induction l as [|x l IH]; intros ys; simpl.
  - intros [= <-]. constructor.
  - destruct (f x) as [y|e] eqn:E; [|done].
    destruct (traverse f l) as [ys'|e]; [|done].
    intros [= <-]. constructor; [done | by apply IH].
Qed.

Section ElevenLabs.
Context {env : environment}.

(** [ElevenLabsTTS.synthesize] reads one key of its keyword arguments. *)
Lemma ElevenLabsTTS_synthesize_reads_voice_id (text output_file : string)
    (kwargs : gmap string value) (st : gmap string value * world) :
  bind_call "ElevenLabsTTS.synthesize" ["text"; "output_file"] kwargs = Ok tt ->
  kwargs !! "voice_id" = None ->
  ElevenLabsTTS.synthesize text output_file kwargs st
  = ElevenLabsTTS.synthesize text output_file ∅ st.
Proof.
  intros Hbind Hvoice.
  unfold ElevenLabsTTS.synthesize, bind, of_result, kwargs_get.
  rewrite Hbind, Hvoice. reflexivity.
Qed.

End ElevenLabs.

(** X16.  Through the handler, an ElevenLabs synthesizer cannot be given
    another voice or format: the handler passes its overrides as
    [voice] and [format], the adapter reads [voice_id] and its own
    [format] attribute.  For every handler on an [ElevenLabsTTS],
    [synthesize] with any voice and format does exactly what it does
    without them: same request, same file, same log, same result. *)
Theorem elevenlabs_ignores_handler_overrides {env : environment}
    (stt_provider : object STTClass) (attributes : gmap string value)
    (audio_processor : option AudioProcessor)
    (defaults : value)
    (text output_file : string) (voice format : value) (w : world) :
  let self := VoiceHandler.__init__ stt_provider
                (Object ElevenLabsTTS.class attributes)
                audio_processor defaults in
  VoiceHandler.synthesize text output_file voice format (self, w)
  = VoiceHandler.synthesize text output_file VNone VNone (self, w).
Proof.
  intros self. rewrite !VoiceHandler_synthesize_run. simpl.
  rewrite (ElevenLabsTTS_synthesize_reads_voice_id text output_file
             (VoiceHandler.synthesize_kwargs voice format)).
  - reflexivity.
  - apply bind_call_synthesize_kwargs.
  - rewrite synthesize_kwargs_lookup. reflexivity.
Qed.

(** X17.  [ElevenLabsTTS.get_voices] returns all the voices of the
    reply or none: when it returns, the result is a list with one
    [voice_id] for each entry that the server listed under [voices], in
    the order of the reply, and the server answered with a status that
    is no error.  An entry without [voice_id] makes the call raise; it
    is not skipped. *)
Theorem elevenlabs_lists_every_voice {env : environment}
    (st st' : gmap string value * world) (v : value)
    (Hrun : ElevenLabsTTS.get_voices st = (Ok v, st')) :
  exists api_key response data entries ids,
    st.1 !! "api_key" = Some api_key
    /\ http_send st.2 (HttpGet "https://api.elevenlabs.io/v1/voices"
                         [("xi-api-key", api_key)]) = Ok response
    /\ raise_for_status response = Ok tt
    /\ response_json response = Ok data
    /\ listed_voices data = Ok entries
    /\ Forall2 (fun entry id => subscript entry "voice_id" = Ok id) entries ids
    /\ v = VList ids.
Proof.
  destruct st as [self w]. unfold ElevenLabsTTS.get_voices in Hrun.
  apply bind_Ok_inv in Hrun as (session & st1 & Hsession & Hrun).
  apply bind_Ok_inv in Hrun as (api_key & st2 & Hkey & Hrun).
  apply bind_Ok_inv in Hrun as (response & st3 & Hsend & Hrun).
  apply bind_Ok_inv in Hrun as ([] & ? & [Hstatus ->]%of_result_Ok_inv & Hrun).
  apply bind_Ok_inv in Hrun as (data & ? & [Hdata ->]%of_result_Ok_inv & Hrun).
  apply bind_Ok_inv in Hrun as (voices & ? & [Hvoices ->]%of_result_Ok_inv & Hrun).
  apply bind_Ok_inv in Hrun as (entries & ? & [Hentries ->]%of_result_Ok_inv & Hrun).
  apply bind_Ok_inv in Hrun as (ids & ? & [Hids ->]%of_result_Ok_inv & Hrun).
  unfold ret in Hrun. injection Hrun as <- <-.
  unfold getattr in Hsession, Hkey. simpl in *.
  destruct (self !! "session"); [|done]. injection Hsession as <- <-.
  simpl in Hkey. destruct (self !! "api_key") as [key|] eqn:Hk; [|done].
  injection Hkey as <- <-.
  unfold io, http in Hsend. simpl in Hsend.
  destruct (http_send w _) as [response'|e] eqn:Hreply; [|done].
  injection Hsend as <- <-.
  exists key, response', data, entries, ids.
  repeat split; try done.
  - unfold listed_voices. by rewrite Hvoices.
  - by apply traverse_Forall2.
Qed.

Lemma elevenlabs_lists_every_voice_witness :
  exists api_key response data entries ids,
    elevenlabs_defaults !! "api_key" = Some api_key
    /\ http_send (environment := replying 200 [] (Some one_voice)) empty_world
         (HttpGet "https://api.elevenlabs.io/v1/voices"
            [("xi-api-key", api_key)]) = Ok response
    /\ raise_for_status response = Ok tt
    /\ response_json response = Ok data
    /\ listed_voices data = Ok entries
    /\ Forall2 (fun entry id => subscript entry "voice_id" = Ok id) entries ids
    /\ VList [VStr "rachel"] = VList ids.
Proof.
  apply (elevenlabs_lists_every_voice (env := replying 200 [] (Some one_voice))
           (elevenlabs_defaults, empty_world)
           (elevenlabs_defaults,
            add_sent (HttpGet "https://api.elevenlabs.io/v1/voices"
                        [("xi-api-key", VStr "key")]) empty_world)
           (VList [VStr "rachel"])).
  reflexivity.
Defined.

(** ** The files of the connection test *)

Section ConnectionFiles.
Context {env : environment}.

(** A temporary file is a new file. *)
Lemma NamedTemporaryFile_run (suffix : string) (w : world) :
  match NamedTemporaryFile suffix w with
  | (Ok p, w1) =>
      files w !! p = None /\ w1 = set_files (<[p := []]> (files w)) w
  | (Raise _, w1) => w1 = w
  end.
Proof.
  unfold NamedTemporaryFile.
  destruct (List.find _ (seq 0 TMP_MAX)) as [n|] eqn:E; [|done].
  apply find_some in E as [_ Hfresh]. apply bool_decide_eq_true in Hfresh.
  destruct (open_error w _ "w+b"); done.
Qed.

(** The first leg on a registered transcriber: the handler stays as it
    is, no file that was there changes, and the temporary file stays
    when the leg fails. *)
Lemma test_stt_files (results : gmap string bool) (self : VoiceHandler)
    (w : world) (name : string) :
  _stt_providers loaded !! name = Some (class_of (stt self)) ->
  exists (b : bool) w',
    VoiceHandler.test_stt (results, (self, w))
    = (Ok tt, ((if b then <["stt" := true]> else id) results, (self, w')))
    /\ files w ⊆ files w'
    /\ (forall p w1, NamedTemporaryFile ".wav" w = (Ok p, w1) ->
          b = false -> is_Some (files w' !! p)).
Proof.
  intros Hcls.
  unfold VoiceHandler.test_stt, try_except, bind, io, set_local,
    VoiceHandler.call_stt, logger, modify. simpl.
  pose proof (NamedTemporaryFile_run ".wav" w) as Htemp.
  destruct (NamedTemporaryFile ".wav" w) as [[p|e] w1]; simpl.
  2: { subst w1. exists false, (add_log "ERROR" ("STT test failed: " ++ exc_str e) w).
       repeat split; [done|]. by intros ? ? [=]. }
  destruct Htemp as [Hfresh ->].
  unfold wave_write, write_file. simpl.
  destruct (open_error _ p "wb") as [e|]; simpl.
  { exists false. eexists. split; [reflexivity|]. simpl. split.
    - by apply insert_subseteq.
    - intros ? ? [= <- _] _. rewrite lookup_insert_eq. eauto. }
  destruct (write_error _ p _) as [[e n]|]; simpl.
  { exists false. eexists. split; [reflexivity|]. simpl. split.
    - apply insert_subseteq_r; [done|]. by apply insert_subseteq.
    - intros ? ? [= <- _] _. rewrite lookup_insert_eq. eauto. }
  match goal with
  | |- context [STTProvider.transcribe ?c ?path ?st] =>
      pose proof (loaded_transcribe_only_asks name c path st Hcls)
        as (Hattrs & Hfiles & _);
      destruct (STTProvider.transcribe c path st) as [[v|e] [a3 w3]]
  end; simpl in *.
  2: { subst a3. exists false. eexists. split.
       - f_equal. f_equal. f_equal. by destruct self as [[] ? ? ?].
       - simpl. rewrite Hfiles. split.
         + apply insert_subseteq_r; [done|]. by apply insert_subseteq.
         + intros ? ? [= <- _] _. rewrite lookup_insert_eq. eauto. }
  subst a3.
  assert (Hself : {| stt := Object (class_of (stt self)) (attributes_of (stt self));
                     tts := tts self; processor := processor self;
                     defaults := defaults self |} = self)
    by (by destruct self as [[] ? ? ?]).
  rewrite Hself.
  unfold unlink.
  destruct (files w3 !! p) as [data|] eqn:Hp; simpl.
  2: { rewrite Hfiles, lookup_insert_eq in Hp. done. }
  destruct (unlink_error w3 p) as [e|]; simpl.
  - exists true. eexists. split; [reflexivity|]. simpl. rewrite Hfiles. split.
    + apply insert_subseteq_r; [done|]. by apply insert_subseteq.
    + done.
  - exists true. eexists. split; [reflexivity|]. simpl. rewrite Hfiles. split.
    + rewrite delete_insert_eq, delete_insert_eq. by rewrite delete_id.
    + done.
Qed.

(** The second leg on a registered synthesizer. *)
Lemma test_tts_files (results : gmap string bool) (self : VoiceHandler)
    (w : world) (name : string) :
  _tts_providers loaded !! name = Some (class_of (tts self)) ->
  exists (b : bool) w',
    VoiceHandler.test_tts (results, (self, w))
    = (Ok tt, ((if b then <["tts" := true]> else id) results, (self, w')))
    /\ files w ⊆ files w'
    /\ (forall p w1, NamedTemporaryFile ".ogg" w = (Ok p, w1) ->
          b = false -> is_Some (files w' !! p)).
Proof.
  intros Hcls.
  unfold VoiceHandler.test_tts, try_except, bind, io, set_local,
    VoiceHandler.call_tts, logger, modify. simpl.
  pose proof (NamedTemporaryFile_run ".ogg" w) as Htemp.
  destruct (NamedTemporaryFile ".ogg" w) as [[p|e] w1]; simpl.
  2: { subst w1. exists false, (add_log "ERROR" ("TTS test failed: " ++ exc_str e) w).
       repeat split; [done|]. by intros ? ? [=]. }
  destruct Htemp as [Hfresh ->].
  match goal with
  | |- context [TTSProvider.synthesize ?c ?text ?path ?kw ?st] =>
      pose proof (loaded_footprint name c text path kw st Hcls)
        as (Hattrs & Hfiles);
      destruct (TTSProvider.synthesize c text path kw st) as [[v|e] [a2 w2]]
  end; simpl in *.
  2: { subst a2. exists false. eexists. split.
       - f_equal. f_equal. f_equal. by destruct self as [? [] ? ?].
       - simpl.
         destruct Hfiles as [Hfiles | (req & audio & n & _ & _ & _ & Hfiles)];
           rewrite Hfiles; split.
         + by apply insert_subseteq.
         + intros ? ? [= <- _] _. rewrite lookup_insert_eq. eauto.
         + apply insert_subseteq_r; [done|]. by apply insert_subseteq.
         + intros ? ? [= <- _] _. rewrite lookup_insert_eq. eauto. }
  subst a2. destruct Hfiles as (req & data & _ & _ & _ & Hfiles).
  assert (Hself : {| stt := stt self;
                     tts := Object (class_of (tts self)) (attributes_of (tts self));
                     processor := processor self;
                     defaults := defaults self |} = self)
    by (by destruct self as [? [] ? ?]).
  rewrite Hself.
  unfold unlink.
  destruct (files w2 !! p) as [data'|] eqn:Hp; simpl.
  2: { rewrite Hfiles, lookup_insert_eq in Hp. done. }
  destruct (unlink_error w2 p) as [e|]; simpl.
  - exists true. eexists. split; [reflexivity|]. simpl. rewrite Hfiles. split.
    + apply insert_subseteq_r; [done|]. by apply insert_subseteq.
    + done.
  - exists true. eexists. split; [reflexivity|]. simpl. rewrite Hfiles. split.
    + rewrite delete_insert_eq, delete_insert_eq. by rewrite delete_id.
    + done.
Qed.

End ConnectionFiles.

(** X18.  On a handler whose providers are registered classes,
    [test_connection] leaves the handler as it is and touches no file
    that was there before: every file of the world before the test is
    there afterwards with the same content.  It does not always clean up
    after itself: when the first leg reports [stt: False] although its
    temporary WAV file had been created, that file is still there after
    the test. *)
Theorem test_connection_keeps_files_and_may_leak {env : environment}
    (self : VoiceHandler) (stt_name tts_name : string) (w : world)
    (Hstt : _stt_providers loaded !! stt_name = Some (class_of (stt self)))
    (Htts : _tts_providers loaded !! tts_name = Some (class_of (tts self))) :
  exists (b_stt b_tts : bool) w',
    VoiceHandler.test_connection (self, w)
    = (Ok ({[ "stt" := b_stt; "tts" := b_tts ]} : gmap string bool), (self, w'))
    /\ files w ⊆ files w'
    /\ (forall p w1, NamedTemporaryFile ".wav" w = (Ok p, w1) ->
          b_stt = false -> is_Some (files w' !! p)).
Proof.
  unfold VoiceHandler.test_connection, with_local.
  destruct (test_stt_files {[ "stt" := false; "tts" := false ]} self w stt_name Hstt)
    as (b1 & w1 & Hrun1 & Hkeep1 & Hleak1).
  destruct (test_tts_files
              ((if b1 then <["stt" := true]> else id)
                 {[ "stt" := false; "tts" := false ]}) self w1 tts_name Htts)
    as (b2 & w2 & Hrun2 & Hkeep2 & _).
  exists b1, b2, w2. split; [|split].
  - rewrite (bind_Ok _ _ _ _ _ Hrun1), (bind_Ok _ _ _ _ _ Hrun2).
    unfold get_local. simpl. by rewrite results_of_legs.
  - by etrans.
  - intros p w1' Htemp Hb. destruct (Hleak1 p w1' Htemp Hb) as [data Hdata].
    exists data. eapply lookup_weaken; eauto.
Qed.

Lemma test_connection_keeps_files_and_may_leak_witness :
  exists (b_stt b_tts : bool) w',
    VoiceHandler.test_connection (env := unreachable)
      (local_handler (env := unreachable), empty_world)
    = (Ok ({[ "stt" := b_stt; "tts" := b_tts ]} : gmap string bool),
       (local_handler (env := unreachable), w'))
    /\ files empty_world ⊆ files w'
    /\ (forall p w1,
          NamedTemporaryFile (env := unreachable) ".wav" empty_world = (Ok p, w1) ->
          b_stt = false -> is_Some (files w' !! p)).
Proof.
  apply (test_connection_keeps_files_and_may_leak (env := unreachable)
           (local_handler (env := unreachable)) "faster-whisper" "kokoro"
           empty_world); reflexivity.
Defined.

(** ** The two quick helpers *)

Section QuickFacts.
Context {env : environment}.

(** [FasterWhisperSTT.__init__] leaves the world as it is. *)
Lemma FasterWhisperSTT_init_world (config : gmap string value)
    (st : gmap string value * world) :
  (FasterWhisperSTT.__init__ config st).2.2 = st.2.
Proof.
  destruct st as [self w].
  unfold FasterWhisperSTT.__init__, bind, of_result, try_except_of, io,
    import_module, new_object, setattr, raise, ret. simpl.
  repeat run_step; done.
Qed.

End QuickFacts.

(** X19.  [quick_synthesize] always asks for the voice [af_bella] in the
    format [ogg], whatever the output path is called: when it returns,
    exactly one request went out, the POST to [/audio/speech] below the
    server's URL (the local default when none is given) with these two
    values and the text, and the output path holds the body of the
    reply; when it raises, at most that request went out, and either no
    file has changed or the request was answered and the write that
    failed left a prefix of the body of the reply at the output path,
    every other file being as before.  It starts no process and logs
    nothing. *)
Theorem quick_synthesize_asks_for_the_default_voice {env : environment}
    (text output_file : string) (base_url : option string) (w : world) :
  let req := HttpPost
               (default "http://localhost:8880/v1" base_url ++ "/audio/speech") []
               [("model", VStr "kokoro"); ("input", VStr text);
                ("voice", VStr "af_bella"); ("response_format", VStr "ogg")]
               false in
  let out := quick_synthesize text output_file base_url w in
  environ out.2 = environ w
  /\ processes out.2 = processes w
  /\ log out.2 = log w
  /\ match out.1 with
     | Ok _ =>
         exists response,
           http_send w req = Ok response
           /\ sent out.2 = (sent w ++ [req])%list
           /\ files out.2 = <[output_file := content response]> (files w)
     | Raise _ =>
         (sent out.2 = sent w \/ sent out.2 = (sent w ++ [req])%list)
         /\ (files out.2 = files w
             \/ exists response n,
                  http_send w req = Ok response
                  /\ sent out.2 = (sent w ++ [req])%list
                  /\ files out.2
                     = <[output_file := take n (content response)]> (files w))
     end.
Proof.
  intros req out. subst out. unfold quick_synthesize, bind, instantiate.
  destruct (KokoroTTS.__init__
              {[ "base_url" := VStr (default "http://localhost:8880/v1" base_url) ]}
              (∅, w)) as [[u|e] [a w1]] eqn:Hinit.
  2: { revert Hinit.
       unfold KokoroTTS.__init__, bind, of_result, try_except_of, io,
         import_module, new_object, setattr, raise, ret. simpl.
       destruct (importable "requests"); simpl.
       - destruct (construct w "requests.Session" []); simpl; [|done].
         intros [= _ _ <-]. simpl. eauto 10.
       - intros [= _ _ <-]. simpl. eauto 10. }
  apply KokoroTTS_init_attributes in Hinit
    as (Hbase & Hvoice & Hformat & Hsession & ->).
  rewrite lookup_singleton_eq in Hbase.
  rewrite lookup_singleton_ne in Hvoice by done.
  rewrite lookup_singleton_ne in Hformat by done.
  unfold on_object. simpl.
  assert (Hbind : bind_call "KokoroTTS.synthesize" ["text"; "output_file"]
                    (∅ : gmap string value) = Ok tt) by reflexivity.
  rewrite (KokoroTTS_synthesize_run a w text output_file ∅ _ _ _ _
             Hbind Hvoice Hformat Hsession Hbase).
  unfold kwargs_get. rewrite !lookup_empty. simpl. fold req.
  destruct (http_send w req) as [response|e]; simpl; [|eauto 10].
  destruct (raise_for_status response) as [[]|e]; simpl; [|eauto 10].
  destruct (open_error (add_sent req w) output_file "wb"); simpl; [eauto 10|].
  destruct (write_error (add_sent req w) output_file (content response))
    as [[e n]|]; simpl; eauto 15.
Qed.

(** On a disk that is full after one byte, the helper raises, and the
    output path holds the first byte of the reply. *)
Lemma quick_synthesize_may_leave_a_prefix :
  let out := quick_synthesize (env := disk_full) "hi" "out.ogg" None
               empty_world in
  out.1 = Raise (Exc OSError "[Errno 28] No space left on device")
  /\ files out.2 = {[ "out.ogg" := [x41] ]}.
Proof. vm_compute. split; reflexivity. Qed.

(** X20.  [quick_transcribe] returns, when it returns, a string without
    a white space character at either end, of ASCII or of the rest of
    Unicode, and has changed no file, environment variable or log record
    and started no process on the way. *)
Theorem quick_transcribe_returns_trimmed_text {env : environment}
    (audio_path : string) (model device : option string) (w w' : world)
    (v : value)
    (Hrun : quick_transcribe audio_path model device w = (Ok v, w')) :
  (exists s, v = VStr s /\ trimmed s)
  /\ files w' = files w
  /\ environ w' = environ w
  /\ processes w' = processes w
  /\ log w' = log w.
Proof.
  unfold quick_transcribe in Hrun.
  apply bind_Ok_inv in Hrun as (stt_provider & w1 & Hinit & Hrun).
  apply bind_Ok_inv in Hrun as (result & w2 & Htranscribe & Hrun).
  apply of_result_Ok_inv in Hrun as [Htext ->].
  unfold instantiate in Hinit.
  match type of Hinit with
  | context [FasterWhisperSTT.__init__ ?c ?st] =>
      pose proof (FasterWhisperSTT_init_world c st) as Hworld;
      destruct (FasterWhisperSTT.__init__ c st) as [[u|e] [a w0]]
  end; [|done].
  simpl in Hworld. subst w0. injection Hinit as <- <-.
  unfold on_object in Htranscribe. simpl in Htranscribe.
  pose proof (FasterWhisperSTT_transcribe_only_asks audio_path (a, w))
    as (_ & Hfiles & Henviron & Hprocesses & Hlog & _).
  destruct (FasterWhisperSTT.transcribe audio_path (a, w))
    as [[result'|e] [a' w3]] eqn:E; [|done].
  injection Htranscribe as <- <-. simpl in *.
  apply FasterWhisperSTT_transcribe_result in E as (_ & s & Hs & Htrim).
  rewrite Hs in Htext. injection Htext as <-.
  eauto 10.
Qed.

Lemma quick_transcribe_returns_trimmed_text_witness :
  let env := hearing padded_segments in
  (quick_transcribe (env := env) "a.wav" None None empty_world).1
  = Ok (VStr "hello world")
  /\ (exists s, VStr "hello world" = VStr s /\ trimmed s)
  /\ files (quick_transcribe (env := env) "a.wav" None None empty_world).2
     = files empty_world.
Proof.
  intros env. split; [reflexivity|].
  destruct (quick_transcribe_returns_trimmed_text (env := env)
              "a.wav" None None empty_world
              (quick_transcribe (env := env) "a.wav" None None
                 empty_world).2 (VStr "hello world"))
    as (Htext & Hfiles & _).
  - apply pair_with_snd. reflexivity.
  - split; [exact Htext | exact Hfiles].
Defined.

(** ** API keys *)

Section ApiKeys.
Context {env : environment}.

Lemma bind_args_missing_api_key (fname : string) (rest : list (string * option value))
    (config : gmap string value) :
  config !! "self" = None -> config !! "api_key" = None ->
  bind_args fname (("api_key", None) :: rest) config
  = Raise (Exc TypeError
             (fname ++ "() missing 1 required positional argument: 'api_key'")).
Proof.
  intros Hself Hkey. unfold bind_args.
  rewrite bool_decide_false by (rewrite Hself; by intros [? ?]).
  simpl. by rewrite Hkey.
Qed.

(** The value of a parameter that the body never reads. *)
Lemma bind_args_api_key (fname : string) (rest : list (string * option value))
    (config : gmap string value) (key : value) :
  "api_key" ∉ rest.*1 ->
  bind_args fname (("api_key", None) :: rest) (<["api_key" := key]> config)
  = match bind_args fname rest (delete "api_key" config) with
    | Ok (locals, kwargs) => Ok (<["api_key" := key]> locals, kwargs)
    | Raise e => Raise e
    end.
Proof.
  intros Hrest. unfold bind_args.
  rewrite lookup_insert_ne by done. rewrite lookup_delete_ne by done.
  destruct (bool_decide (is_Some (config !! "self"))); [done|].
  assert (Hlook : forall p, In p rest ->
            <["api_key" := key]> config !! p.1 = delete "api_key" config !! p.1).
  { intros p Hp.
    assert (p.1 <> "api_key").
    { intros Heq. apply Hrest. rewrite <- Heq.
      apply list_elem_of_fmap. exists p. split; [done|]. by apply list_elem_of_In. }
    rewrite lookup_insert_ne by done. by rewrite lookup_delete_ne. }
  simpl. rewrite lookup_insert_eq.
  assert (Hmissing :
            List.filter (fun p => match p.2, <["api_key" := key]> config !! p.1 with
                                  | None, None => true
                                  | _, _ => false
                                  end) rest
            = List.filter (fun p => match p.2, delete "api_key" config !! p.1 with
                                    | None, None => true
                                    | _, _ => false
                                    end) rest).
  { apply filter_ext_in. intros p Hp. by rewrite Hlook. }
  rewrite Hmissing. clear Hmissing.
  destruct (List.filter _ rest) as [|[p d] others]; [|done].
  f_equal. f_equal.
  - simpl. f_equal. f_equal. apply map_ext_in. intros p Hp. by rewrite Hlook.
  - apply map_eq. intros i. rewrite !map_lookup_filter.
    destruct (decide (i = "api_key")) as [->|Hne].
    + rewrite lookup_insert_eq, lookup_delete_eq. reflexivity.
    + rewrite lookup_insert_ne, lookup_delete_ne by done.
      destruct (config !! i) as [x|]; simpl; [|done].
      destruct (decide (i ∈ rest.*1)) as [Hin|Hout].
      * rewrite !option_guard_False; [done|simpl..].
        -- by intros Hn.
        -- intros Hn. apply Hn. by right.
      * rewrite !option_guard_True; [done|simpl..].
        -- done.
        -- intros [?|?]%elem_of_cons; done.
Qed.

End ApiKeys.

(** X21.  The four adapters of cloud services need an [api_key]: a
    configuration without one makes [OpenAITTS], [ElevenLabsTTS],
    [OpenAIWhisperSTT] and [GoogleCloudSTT] raise the [TypeError] of a
    missing argument at once, before anything is imported or
    constructed, also where the library is not installed, and the
    object and the world stay as they were.  [GoogleCloudSTT] demands
    the key and never uses it: two keys give the same run, the same
    attributes and the same client. *)
Theorem cloud_adapters_demand_an_api_key {env : environment}
    (config : gmap string value) (st : gmap string value * world)
    (Hself : config !! "self" = None) :
  (config !! "api_key" = None ->
   OpenAITTS.__init__ config st
   = (Raise (Exc TypeError
        "OpenAITTS.__init__() missing 1 required positional argument: 'api_key'"),
      st)
   /\ ElevenLabsTTS.__init__ config st
      = (Raise (Exc TypeError
           "ElevenLabsTTS.__init__() missing 1 required positional argument: 'api_key'"),
         st)
   /\ OpenAIWhisperSTT.__init__ config st
      = (Raise (Exc TypeError
           "OpenAIWhisperSTT.__init__() missing 1 required positional argument: 'api_key'"),
         st)
   /\ GoogleCloudSTT.__init__ config st
      = (Raise (Exc TypeError
           "GoogleCloudSTT.__init__() missing 1 required positional argument: 'api_key'"),
         st))
  /\ (forall key1 key2,
        GoogleCloudSTT.__init__ (<["api_key" := key1]> config) st
        = GoogleCloudSTT.__init__ (<["api_key" := key2]> config) st).
Proof.
  split.
  - intros Hkey.
    unfold OpenAITTS.__init__, ElevenLabsTTS.__init__, OpenAIWhisperSTT.__init__,
      GoogleCloudSTT.__init__, bind, of_result.
    rewrite !bind_args_missing_api_key by done. done.
  - intros key1 key2. unfold GoogleCloudSTT.__init__, bind, of_result.
    rewrite !bind_args_api_key
      by (simpl; rewrite list_elem_of_singleton; discriminate).
    destruct (bind_args _ _ (delete "api_key" config)) as [[locals kwargs]|e];
      [|done].
    simpl. unfold local.
    rewrite !lookup_insert_ne by done. reflexivity.
Qed.

Lemma cloud_adapters_demand_an_api_key_witness :
  create Synthesizer (loaded (env := nothing_installed)) "elevenlabs" ∅
    empty_world
  = (Raise (Exc TypeError
       "ElevenLabsTTS.__init__() missing 1 required positional argument: 'api_key'"),
     empty_world).
Proof.
  destruct (cloud_adapters_demand_an_api_key (env := nothing_installed)
              ∅ (∅, empty_world) (lookup_empty _)) as [Hmissing _].
  destruct (Hmissing (lookup_empty _)) as (_ & Helevenlabs & _).
  unfold create, ProviderFactory.create_tts, instantiate.
  change (_tts_providers (loaded (env := nothing_installed)) !! "elevenlabs")
    with (Some (ElevenLabsTTS.class (env := nothing_installed))).
  simpl. by rewrite Helevenlabs.
Defined.

(** X22.  No configuration file gives a handler on Qwen3: with the
    tables as loaded, when the section [tts] of the file names the
    provider [qwen3], [from_config] raises, whatever else the file and
    the world hold. *)
Theorem from_config_never_builds_qwen3 {env : environment}
    (toml_load : list byte -> result value) (config_path : string)
    (audio_processor : option AudioProcessor) (w : world)
    (config : value) (fields : list (string * value))
    (Hparsed : parsed toml_load w config_path config)
    (Htts : configured config "tts" "qwen3" fields) :
  exists e w',
    VoiceHandler_from_config toml_load loaded config_path audio_processor w
    = (Raise e, w').
Proof.
  destruct (VoiceHandler_from_config toml_load loaded config_path
              audio_processor w) as [[r|e] w'] eqn:Hrun; [|eauto].
  apply from_config_Ok_inv in Hrun
    as (source & config' & stt_fields & stt_name & tts_fields & tts_name
        & stt_provider & tts_provider & w1 & defaults_value
        & Hfile & Hconfig & _ & _ & _
        & Htts_section & Htts_name & Hcreate & _).
  destruct Hparsed as (_ & source' & Hfile' & _ & Hconfig').
  destruct Htts as (Hsection & Hname).
  assert (source' = source) as -> by congruence.
  assert (config' = config) as -> by congruence.
  assert (tts_fields = fields) as -> by congruence.
  assert (tts_name = "qwen3") as -> by congruence.
  apply create_tts_Ok_inv in Hcreate as (u & Hcls & Hinit).
  assert (Hclass : class_of tts_provider = Qwen3TTS.class).
  { assert (Hqwen : _tts_providers loaded !! "qwen3" = Some Qwen3TTS.class)
      by reflexivity.
    congruence. }
  rewrite Hclass in Hinit. simpl in Hinit.
  destruct (Qwen3TTS_init_raises (options fields) (∅, w1)) as (e & st' & Hraise).
  congruence.
Qed.

Lemma from_config_never_builds_qwen3_witness :
  exists e w',
    VoiceHandler_from_config (env := replying 200 [] None)
      (parses_to qwen3_config) (loaded (env := replying 200 [] None))
      "config.toml" None with_config_file
    = (Raise e, w').
Proof.
  apply (from_config_never_builds_qwen3 (env := replying 200 [] None)
           (parses_to qwen3_config) "config.toml" None with_config_file
           qwen3_config [("provider", VStr "qwen3")]).
  - split; [reflexivity|]. exists []. by repeat split.
  - by split.
Defined.
